(** * ezunsub.webhook: signature verification and payload parsing

    A shallow embedding of [src/ezunsub/webhook.py] (class [WebhookVerifier]
    and dataclass [WebhookPayload]) together with the parts of the Python
    runtime the module calls: [hmac.new(..., hashlib.sha256).hexdigest()],
    [hmac.compare_digest], [time.time], [int], [str.lower] and [json.loads].

    Representation of Python values.
    - [int] is [Z]: unbounded.  The interpreter's limit of 4300 digits is
      applied where text becomes an integer ([int] and [json.loads] of the
      runtime [cpython_ascii]) and left out where an integer becomes text
      (the [f"{timestamp}"] of [verify_signature], which a timestamp of more
      than 4300 digits reaches only within a window as large).
    - [str] is a Rocq [string] holding the UTF-8 encoding of the text, so that
      [s.encode()] is the identity, [s + t] is [append], [s.startswith(p)] and
      [s[7:]] for the ASCII literal ["sha256="] are the byte-level prefix test
      and drop, and "[s] contains a non-ASCII character" is "some byte of [s]
      is at least 128".
    - a [dict] received as an argument is the list of its items in insertion
      order; the dict built by the comprehension in [extract_headers], of
      which only [.get] is used, is a finite map.
    - exceptions are values of type [exn]; a call either returns or raises. *)

From Stdlib Require Import ZArith List String Ascii Bool Lia.
From Stdlib Require Import DecimalString DecimalPos DecimalZ.
From stdpp Require Import base option gmap strings.
Import ListNotations.

Local Open Scope Z_scope.
Local Set Warnings "-register-all".

(** ** Bytes *)

Module Bytes.

(** The bytes of a [str] after [.encode()]. *)
Definition of_string (s : string) : list Z :=
  List.map (fun c => Z.of_N (N_of_ascii c)) (list_ascii_of_string s).

(** Big-endian split of a 32-bit word into four bytes. *)
Definition of_word32 (x : Z) : list Z :=
  [ Z.land (Z.shiftr x 24) 255; Z.land (Z.shiftr x 16) 255;
    Z.land (Z.shiftr x 8) 255; Z.land x 255 ].

(** Big-endian 64-bit length field. *)
Definition of_word64 (x : Z) : list Z :=
  of_word32 (Z.shiftr x 32) ++ of_word32 (Z.land x 4294967295).

Definition to_word32 (b3 b2 b1 b0 : Z) : Z :=
  Z.lor (Z.shiftl b3 24) (Z.lor (Z.shiftl b2 16) (Z.lor (Z.shiftl b1 8) b0)).

Fixpoint words (bs : list Z) : list Z :=
  match bs with
  | b3 :: b2 :: b1 :: b0 :: rest => to_word32 b3 b2 b1 b0 :: words rest
  | _ => []
  end.

(** [chunks n k bs]: the first [k] consecutive blocks of [n] bytes. *)
Fixpoint chunks (n k : nat) (bs : list Z) : list (list Z) :=
  match k with
  | O => []
  | S k' => firstn n bs :: chunks n k' (skipn n bs)
  end.

End Bytes.

(** ** SHA-256 (FIPS 180-4), as [hashlib.sha256] computes it *)

Module SHA256.

Definition mask32 : Z := 4294967295.
Definition add32 (x y : Z) : Z := Z.land (x + y) mask32.
Definition rotr (n x : Z) : Z :=
  Z.lor (Z.shiftr x n) (Z.land (Z.shiftl x (32 - n)) mask32).
Definition not32 (x : Z) : Z := Z.lxor x mask32.

Definition choose (e f g : Z) : Z := Z.lxor (Z.land e f) (Z.land (not32 e) g).
Definition majority (a b c : Z) : Z :=
  Z.lxor (Z.land a b) (Z.lxor (Z.land a c) (Z.land b c)).
Definition big_sigma0 (a : Z) : Z := Z.lxor (rotr 2 a) (Z.lxor (rotr 13 a) (rotr 22 a)).
Definition big_sigma1 (e : Z) : Z := Z.lxor (rotr 6 e) (Z.lxor (rotr 11 e) (rotr 25 e)).
Definition small_sigma0 (x : Z) : Z := Z.lxor (rotr 7 x) (Z.lxor (rotr 18 x) (Z.shiftr x 3)).
Definition small_sigma1 (x : Z) : Z := Z.lxor (rotr 17 x) (Z.lxor (rotr 19 x) (Z.shiftr x 10)).

(** Round constants: fractional parts of the cube roots of the first 64 primes. *)
Definition round_constants : list Z :=
  [ 1116352408; 1899447441; 3049323471; 3921009573; 961987163; 1508970993;
    2453635748; 2870763221; 3624381080; 310598401; 607225278; 1426881987;
    1925078388; 2162078206; 2614888103; 3248222580; 3835390401; 4022224774;
    264347078; 604807628; 770255983; 1249150122; 1555081692; 1996064986;
    2554220882; 2821834349; 2952996808; 3210313671; 3336571891; 3584528711;
    113926993; 338241895; 666307205; 773529912; 1294757372; 1396182291;
    1695183700; 1986661051; 2177026350; 2456956037; 2730485921; 2820302411;
    3259730800; 3345764771; 3516065817; 3600352804; 4094571909; 275423344;
    430227734; 506948616; 659060556; 883997877; 958139571; 1322822218;
    1537002063; 1747873779; 1955562222; 2024104815; 2227730452; 2361852424;
    2428436474; 2756734187; 3204031479; 3329325298 ].

(** The eight working variables / chaining value. *)
Record regs := Regs { ra : Z; rb : Z; rc : Z; rd : Z; re : Z; rf : Z; rg : Z; rh : Z }.

(** Initial hash value: fractional parts of the square roots of the first 8 primes. *)
Definition initial : regs :=
  Regs 1779033703 3144134277 1013904242 2773480762
       1359893119 2600822924 528734635 1541459225.

(** Message schedule: extend the 16 block words by [n] further words. *)
Fixpoint schedule (n : nat) (ws : list Z) : list Z :=
  match n with
  | O => ws
  | S n' =>
      let t := List.length ws in
      let back i := nth (t - i) ws 0 in
      schedule n' (ws ++ [ add32 (add32 (small_sigma1 (back 2%nat)) (back 7%nat))
                                 (add32 (small_sigma0 (back 15%nat)) (back 16%nat)) ])
  end.

Definition round (s : regs) (kw : Z * Z) : regs :=
  let t1 := add32 (add32 (add32 (rh s) (big_sigma1 (re s)))
                         (add32 (choose (re s) (rf s) (rg s)) (fst kw))) (snd kw) in
  let t2 := add32 (big_sigma0 (ra s)) (majority (ra s) (rb s) (rc s)) in
  Regs (add32 t1 t2) (ra s) (rb s) (rc s) (add32 (rd s) t1) (re s) (rf s) (rg s).

Definition compress (h : regs) (block : list Z) : regs :=
  let ws := schedule 48 (Bytes.words block) in
  let s := fold_left round (combine round_constants ws) h in
  Regs (add32 (ra h) (ra s)) (add32 (rb h) (rb s)) (add32 (rc h) (rc s))
       (add32 (rd h) (rd s)) (add32 (re h) (re s)) (add32 (rf h) (rf s))
       (add32 (rg h) (rg s)) (add32 (rh h) (rh s)).

(** Padding: a [0x80] byte, zeros up to 56 mod 64, then the bit length. *)
Definition pad (msg : list Z) : list Z :=
  let len := Z.of_nat (List.length msg) in
  msg ++ [128] ++ repeat 0 (Z.to_nat ((55 - len) mod 64)) ++ Bytes.of_word64 (8 * len).

Definition output (h : regs) : list Z :=
  Bytes.of_word32 (ra h) ++ Bytes.of_word32 (rb h) ++ Bytes.of_word32 (rc h) ++
  Bytes.of_word32 (rd h) ++ Bytes.of_word32 (re h) ++ Bytes.of_word32 (rf h) ++
  Bytes.of_word32 (rg h) ++ Bytes.of_word32 (rh h).

(** [hashlib.sha256(msg).digest()] *)
Definition digest (msg : list Z) : list Z :=
  let padded := pad msg in
  output (fold_left compress (Bytes.chunks 64 (List.length padded / 64) padded) initial).

End SHA256.

(** ** HMAC (RFC 2104) over SHA-256 and hexadecimal output *)

Module HMAC.

Definition block_size : nat := 64.

(** Keys longer than a block are hashed first; the result is zero-padded. *)
Definition block_key (key : list Z) : list Z :=
  let k := if (block_size <? List.length key)%nat then SHA256.digest key else key in
  k ++ repeat 0 (block_size - List.length k).

Definition xor_with (c : Z) (bs : list Z) : list Z := List.map (Z.lxor c) bs.

(** [hmac.new(key, msg, hashlib.sha256).digest()] *)
Definition digest (key msg : list Z) : list Z :=
  let k := block_key key in
  SHA256.digest (xor_with 92 k ++ SHA256.digest (xor_with 54 k ++ msg)).

Definition hex_digit (n : Z) : ascii :=
  nth (Z.to_nat n) (list_ascii_of_string "0123456789abcdef") "f"%char.

Fixpoint hex (bs : list Z) : string :=
  match bs with
  | [] => EmptyString
  | b :: rest =>
      String (hex_digit (Z.land (Z.shiftr b 4) 15))
             (String (hex_digit (Z.land b 15)) (hex rest))
  end.

(** The sixteen characters [hexdigest] writes. *)
Definition lower_hex_char (c : ascii) : bool :=
  let n := N_of_ascii c in
  (((48 <=? n) && (n <=? 57)) || ((97 <=? n) && (n <=? 102)))%N.

Fixpoint lower_hex (s : string) : bool :=
  match s with
  | EmptyString => true
  | String c s' => lower_hex_char c && lower_hex s'
  end.

(** [hmac.new(key.encode(), msg.encode(), hashlib.sha256).hexdigest()] *)
Definition hexdigest (key msg : string) : string :=
  hex (digest (Bytes.of_string key) (Bytes.of_string msg)).

End HMAC.

(** ** The [str] operations the module uses *)

Module PyStr.

(** [s.startswith(prefix)] *)
Fixpoint startswith (s prefix : string) : bool :=
  match prefix, s with
  | EmptyString, _ => true
  | String p prefix', String c s' => Ascii.eqb p c && startswith s' prefix'
  | String _ _, EmptyString => false
  end.

(** [s[n:]] for a prefix of [n] ASCII characters. *)
Fixpoint slice_from (n : nat) (s : string) : string :=
  match n, s with
  | O, _ => s
  | S n', String _ s' => slice_from n' s'
  | S _, EmptyString => EmptyString
  end.

Definition ascii_char (c : ascii) : bool := (N_of_ascii c <? 128)%N.

(** [s.isascii()]: every code point is below 128. *)
Fixpoint isascii (s : string) : bool :=
  match s with
  | EmptyString => true
  | String c s' => ascii_char c && isascii s'
  end.

(** [needle in haystack] for two strings: substring search. *)
Fixpoint contains (haystack needle : string) : bool :=
  startswith haystack needle ||
  match haystack with
  | EmptyString => false
  | String _ rest => contains rest needle
  end.

(** [str(n)], also what [f"{n}"] inserts: decimal digits, [-] when negative. *)
Definition of_int (n : Z) : string := NilZero.string_of_int (Z.to_int n).

(** Lower-casing of the 26 ASCII capitals; other bytes are kept.  This is
    [str.lower] on ASCII text; [str.lower] also folds letters outside ASCII
    (the Kelvin sign to [k], for one), which are left as they are here. *)
Definition lower_char (c : ascii) : ascii :=
  let n := N_of_ascii c in
  if ((65 <=? n) && (n <=? 90))%N then ascii_of_N (n + 32) else c.

Fixpoint lower_ascii (s : string) : string :=
  match s with
  | EmptyString => EmptyString
  | String c s' => String (lower_char c) (lower_ascii s')
  end.

(** Upper-casing of the 26 ASCII small letters, to write header names in
    another case. *)
Definition upper_char (c : ascii) : ascii :=
  let n := N_of_ascii c in
  if ((97 <=? n) && (n <=? 122))%N then ascii_of_N (n - 32) else c.

Fixpoint upper_ascii (s : string) : string :=
  match s with
  | EmptyString => EmptyString
  | String c s' => String (upper_char c) (upper_ascii s')
  end.

End PyStr.

(** ** Exceptions and the effect monad *)

(** The exception classes that can leave the module.  [JSONDecodeError] is
    the subclass of [ValueError] raised by [json.loads]; its argument is
    [str(e)]. *)
Inductive exn : Type :=
| ValueError (msg : string)
| JSONDecodeError (msg : string)
| TypeError (msg : string)
| KeyError (key : string)
| AttributeError (msg : string)
| RecursionError (msg : string).

Inductive outcome (A : Type) : Type :=
| Returned (a : A)
| Raised (e : exn).
Arguments Returned {A} a.
Arguments Raised {A} e.

(** What a call did besides computing: the calls into the standard library
    whose order the specification talks about.  [CompareDigest] records the
    number of loop iterations of the comparison (see [compare_digest]). *)
Inductive libcall : Type :=
| TimeRead (t : Z)
| HmacDigest (key msg : string)
| CompareDigest (a b : string) (iterations : nat)
| JsonLoads (s : string).

(** The world a call runs in: the wall clock ([time_source k] is
    [int(time.time())] at the [k]-th reading), how often it has been read,
    and the trace of library calls so far, latest first. *)
Record state : Type := State {
  time_source : nat -> Z;
  reads : nat;
  trace : list libcall
}.

Definition M (A : Type) : Type := state -> outcome A * state.

Definition ret {A} (a : A) : M A := fun st => (Returned a, st).
Definition raise {A} (e : exn) : M A := fun st => (Raised e, st).
Definition bind {A B} (m : M A) (k : A -> M B) : M B :=
  fun st =>
    match m st with
    | (Returned a, st') => k a st'
    | (Raised e, st') => (Raised e, st')
    end.
Definition lift {A} (o : outcome A) : M A := fun st => (o, st).
Definition emit (ev : libcall) : M unit :=
  fun st => (Returned tt, State (time_source st) (reads st) (ev :: trace st)).
(** [try: m except Exception as e: handler e] *)
Definition try_except {A} (m : M A) (handler : exn -> M A) : M A :=
  fun st =>
    match m st with
    | (Returned a, st') => (Returned a, st')
    | (Raised e, st') => handler e st'
    end.

Notation "x <- m ;; k" := (bind m (fun x => k))
  (at level 100, m at next level, right associativity).
Notation "m ;;; k" := (bind m (fun _ => k))
  (at level 100, right associativity).

(** ** JSON values and the runtime's own functions *)

(** The objects [json.loads] builds.  A [float] is kept as the text of its
    literal: the module never computes with one.  The items of a [dict] are
    in insertion order and have distinct keys. *)
Inductive pyval : Type :=
| PyNone
| PyBool (b : bool)
| PyInt (n : Z)
| PyFloat (literal : string)
| PyStr (s : string)
| PyList (elements : list pyval)
| PyDict (items : list (string * pyval)).

Definition type_name (v : pyval) : string :=
  match v with
  | PyNone => "NoneType"
  | PyBool _ => "bool"
  | PyInt _ => "int"
  | PyFloat _ => "float"
  | PyStr _ => "str"
  | PyList _ => "list"
  | PyDict _ => "dict"
  end.

Fixpoint dict_lookup (key : string) (items : list (string * pyval)) : option pyval :=
  match items with
  | [] => None
  | (k, v) :: rest => if String.eqb k key then Some v else dict_lookup key rest
  end.

(** [v == key] for a [str] key: only an equal [str] compares equal. *)
Definition equals_str (key : string) (v : pyval) : bool :=
  match v with
  | PyStr s => String.eqb s key
  | _ => false
  end.

(** [key in container] for a [str] key: key membership in a dict, element
    membership in a list, substring test in a str; other objects are not
    containers. *)
Definition py_contains (key : string) (container : pyval) : outcome bool :=
  match container with
  | PyDict items => Returned (bool_decide (is_Some (dict_lookup key items)))
  | PyList elements => Returned (existsb (equals_str key) elements)
  | PyStr s => Returned (PyStr.contains s key)
  | other =>
      Raised (TypeError ("argument of type '" +:+ type_name other +:+ "' is not iterable"))
  end.

(** [container[key]] for a [str] key. *)
Definition py_getitem (container : pyval) (key : string) : outcome pyval :=
  match container with
  | PyDict items =>
      match dict_lookup key items with
      | Some v => Returned v
      | None => Raised (KeyError key)
      end
  | PyList _ => Raised (TypeError "list indices must be integers or slices, not str")
  | PyStr _ => Raised (TypeError "string indices must be integers, not 'str'")
  | other => Raised (TypeError ("'" +:+ type_name other +:+ "' object is not subscriptable"))
  end.

(** [container.get(key)], the accessor the payload properties use. *)
Definition py_get (container : pyval) (key : string) : outcome pyval :=
  match container with
  | PyDict items => Returned (default PyNone (dict_lookup key items))
  | other =>
      Raised (AttributeError ("'" +:+ type_name other +:+ "' object has no attribute 'get'"))
  end.

(** The functions of the Python runtime whose full definition lies outside
    the module: they are an interface here, and every property below holds
    for each implementation of it.
    - [builtin_int s] is [int(s)] for a [str]: the integer, or the exception
      [int] raises for text it does not accept;
    - [str_lower s] is [s.lower()];
    - [json_loads s] is [json.loads(s)]: the object, or [JSONDecodeError]
      (any other exception is passed on as it is). *)
Class PyRuntime : Type := {
  builtin_int : string -> outcome Z;
  str_lower : string -> string;
  json_loads : string -> outcome pyval
}.

(** ** Library calls as effects *)

(** [int(time.time())] *)
Definition time_time : M Z :=
  fun st =>
    let t := time_source st (reads st) in
    (Returned t, State (time_source st) (S (reads st)) (TimeRead t :: trace st)).

(** [hmac.new(key.encode(), msg.encode(), hashlib.sha256).hexdigest()] *)
Definition hmac_new_hexdigest (key msg : string) : M string :=
  emit (HmacDigest key msg) ;;; ret (HMAC.hexdigest key msg).

(** [hmac.compare_digest] on two [str]: CPython's [_tscmp].  The loop runs
    once per byte of the second argument and folds every difference into
    [result]; nothing in it branches on the bytes compared. *)
Module CompareDigest.

Fixpoint loop (left right : list Z) (result : Z) (count : nat) : Z * nat :=
  match right, left with
  | r :: right', l :: left' =>
      loop left' right' (Z.lor result (Z.lxor l r)) (S count)
  | _, _ => (result, count)
  end.

Definition tscmp (a b : list Z) : bool * nat :=
  let same_length := (List.length a =? List.length b)%nat in
  let left := if same_length then a else b in
  let result := if same_length then 0 else 1 in
  let '(result, count) := loop left b result 0 in
  (result =? 0, count).

End CompareDigest.

Definition compare_digest (a b : string) : M bool :=
  if PyStr.isascii a && PyStr.isascii b then
    let '(equal, count) := CompareDigest.tscmp (Bytes.of_string a) (Bytes.of_string b) in
    emit (CompareDigest a b count) ;;; ret equal
  else
    raise (TypeError "comparing strings with non-ASCII characters is not supported").

(** ** [WebhookPayload] *)

(** The dataclass stores whatever the parsed body holds under each key: the
    annotations ([WebhookEvent], [str], [dict]) are not checked at run time. *)
Record WebhookPayload : Type := {
  event : pyval;
  timestamp : pyval;
  data : pyval;
  delivery_id : string
}.

Definition contact_id (self : WebhookPayload) : outcome pyval := py_get (data self) "contactId".
Definition link_code (self : WebhookPayload) : outcome pyval := py_get (data self) "linkCode".
Definition email (self : WebhookPayload) : outcome pyval := py_get (data self) "email".
Definition email_hash (self : WebhookPayload) : outcome pyval := py_get (data self) "emailHash".
Definition phone (self : WebhookPayload) : outcome pyval := py_get (data self) "phone".
Definition phone_hash (self : WebhookPayload) : outcome pyval := py_get (data self) "phoneHash".

(** The literal type [WebhookEvent]. *)
Definition WebhookEvent : list string :=
  [ "contact.created"; "contact.updated"; "complaint.created"; "complaint.updated";
    "link.created"; "link.clicked"; "export.completed"; "test" ]%string.

(** ** [WebhookVerifier] *)

Record WebhookVerifier : Type := {
  secret : string;
  max_age_seconds : Z
}.

(** [WebhookVerifier(secret)]: [max_age_seconds] defaults to 300. *)
Definition default_max_age_seconds : Z := 300.
Definition new_verifier (secret : string) : WebhookVerifier :=
  {| secret := secret; max_age_seconds := default_max_age_seconds |}.

(** The value compared: the signature without a leading ["sha256="]. *)
Definition sig_value (signature : string) : string :=
  if PyStr.startswith signature "sha256=" then PyStr.slice_from 7 signature
  else signature.

(** The string that is signed: [f"{timestamp}.{body}"]. *)
Definition signing_message (timestamp : Z) (body : string) : string :=
  PyStr.of_int timestamp +:+ "." +:+ body.

Definition verify_signature (self : WebhookVerifier)
    (signature : string) (timestamp : Z) (body : string) : M bool :=
  now <- time_time ;;
  if Z.abs (now - timestamp) >? max_age_seconds self then ret false
  else
    let message := signing_message timestamp body in
    expected <- hmac_new_hexdigest (secret self) message ;;
    compare_digest expected (sig_value signature).

(** The local variables of [verify_signature], as functions of its inputs:
    what the clock shows at the next reading, the age of a timestamp then,
    and the digest the verifier expects. *)
Definition next_time (st : state) : Z := time_source st (reads st).
Definition age (st : state) (timestamp : Z) : Z := Z.abs (next_time st - timestamp).
Definition expected_digest (self : WebhookVerifier) (timestamp : Z) (body : string) : string :=
  HMAC.hexdigest (secret self) (signing_message timestamp body).

(** The iteration counts of the comparisons in a trace, latest first. *)
Definition comparison_iterations (tr : list libcall) : list nat :=
  flat_map (fun c => match c with
                     | CompareDigest _ _ n => [n]
                     | _ => []
                     end) tr.

(** Whether a trace holds a call of [json.loads]. *)
Definition parsed_json (tr : list libcall) : bool :=
  existsb (fun c => match c with
                    | JsonLoads _ => true
                    | _ => false
                    end) tr.

(** The [timestamp] argument of [verify_and_parse]: [str | int]. *)
Inductive str_or_int : Type :=
| OfStr (s : string)
| OfInt (n : Z).

Section WithRuntime.

Context `{PyRuntime}.

(** [int(timestamp) if isinstance(timestamp, str) else timestamp] *)
Definition coerce_timestamp (timestamp : str_or_int) : outcome Z :=
  match timestamp with
  | OfStr s => builtin_int s
  | OfInt n => Returned n
  end.

Definition json_loads_call (body : string) : M pyval :=
  emit (JsonLoads body) ;;; lift (json_loads body).

(** [if key not in data: raise ValueError(f"Missing '{key}' field in payload")] *)
Definition require_field (parsed : pyval) (key : string) : M unit :=
  present <- lift (py_contains key parsed) ;;
  if negb present then raise (ValueError ("Missing '" +:+ key +:+ "' field in payload"))
  else ret tt.

Definition verify_and_parse (self : WebhookVerifier)
    (signature : string) (timestamp : str_or_int) (body : string)
    (delivery_id : string) : M WebhookPayload :=
  ts <- lift (coerce_timestamp timestamp) ;;
  verified <- verify_signature self signature ts body ;;
  if negb verified then raise (ValueError "Invalid webhook signature")
  else
    parsed <- try_except (json_loads_call body)
                (fun e => match e with
                          | JSONDecodeError msg =>
                              raise (ValueError ("Invalid JSON payload: " +:+ msg))
                          | other => raise other
                          end) ;;
    require_field parsed "event" ;;;
    require_field parsed "timestamp" ;;;
    require_field parsed "data" ;;;
    ev <- lift (py_getitem parsed "event") ;;
    tm <- lift (py_getitem parsed "timestamp") ;;
    dt <- lift (py_getitem parsed "data") ;;
    ret {| event := ev; timestamp := tm; data := dt; delivery_id := delivery_id |}.

(** [verify_and_parse(signature, timestamp, body)]: [delivery_id] defaults to [""]. *)
Definition verify_and_parse_default (self : WebhookVerifier)
    (signature : string) (timestamp : str_or_int) (body : string) : M WebhookPayload :=
  verify_and_parse self signature timestamp body "".

(** [{k.lower(): v for k, v in headers.items()}]: a later item replaces an
    earlier one with the same lower-cased name. *)
Definition insert_header (m : gmap string string) (kv : string * string)
  : gmap string string :=
  <[str_lower (fst kv) := snd kv]> m.

Definition normalize (headers : list (string * string)) : gmap string string :=
  fold_left insert_header headers ∅.

(** The value a test [if not x] lets through: present and not empty. *)
Definition truthy (x : option string) : option string :=
  match x with
  | Some s => if String.eqb s "" then None else Some s
  | None => None
  end.

Definition extract_headers (headers : list (string * string))
  : outcome (string * string * string * string) :=
  let normalized := normalize headers in
  let signature := normalized !! "x-webhook-signature"%string in
  let timestamp := normalized !! "x-webhook-timestamp"%string in
  let event := normalized !! "x-webhook-event"%string in
  let delivery_id := default ""%string (normalized !! "x-webhook-delivery-id"%string) in
  match truthy signature with
  | None => Raised (ValueError "Missing X-Webhook-Signature header")
  | Some signature =>
      match truthy timestamp with
      | None => Raised (ValueError "Missing X-Webhook-Timestamp header")
      | Some timestamp =>
          Returned (signature, timestamp, default ""%string (truthy event), delivery_id)
      end
  end.

(** No header of [headers] has a name that lower-cases to [name]. *)
Definition header_absent (name : string) (headers : list (string * string)) : Prop :=
  Forall (fun kv => str_lower (fst kv) <> name) headers.

(** Two header lists that differ only in the case of their names. *)
Definition same_up_to_case (headers headers' : list (string * string)) : Prop :=
  Forall2 (fun kv kv' => str_lower (fst kv) = str_lower (fst kv') /\ snd kv = snd kv')
          headers headers'.

End WithRuntime.

(** ** A runtime to compute with

    One implementation of [PyRuntime], so that the operations can be run on
    the bodies, headers and timestamps of the test-suite.  It follows
    CPython 3.11: [json.loads] as [Modules/_json.c] scans it (positions in
    messages count code points), [int] as [PyLong_FromString] reads ASCII
    text, with the limit of 4300 digits, and [str.lower] on the ASCII
    capitals.

    What it leaves out, all of it library behaviour that needs the tables
    of the Unicode database or the state of the interpreter: [int] and
    [repr] on text with a character outside ASCII (decimal digits and
    blanks of other scripts, escapes of characters that do not print),
    [str.lower] on letters outside ASCII, the value of a [float] (kept as
    the text of its literal), and the [RecursionError] of [json.loads] on
    nesting deeper than the recursion limit allows. *)

(** [PyLong_FromString]'s guard: a decimal text of more than
    [sys.get_int_max_str_digits()] digits, 4300 unless changed, is refused. *)
Module PyLong.

Definition max_str_digits : nat := 4300.

Definition exceeds_limit (digits : nat) : exn :=
  ValueError ("Exceeds the limit (" +:+ PyStr.of_int (Z.of_nat max_str_digits)
              +:+ " digits) for integer string conversion: value has "
              +:+ PyStr.of_int (Z.of_nat digits)
              +:+ " digits; use sys.set_int_max_str_digits() to increase the limit").

End PyLong.

Module Json.

(** The result of a scanner: a value and what follows it; a
    [JSONDecodeError] by message and position; or another exception. *)
Inductive parsed (A : Type) : Type :=
| Ok (a : A) (rest : list ascii) (pos : nat)
| Err (msg : string) (pos : nat)
| Fail (e : exn).
Arguments Ok {A} a rest pos.
Arguments Err {A} msg pos.
Arguments Fail {A} e.

Definition code (c : ascii) : N := N_of_ascii c.
Definition is_char (n : N) (c : ascii) : bool := (code c =? n)%N.
Definition is_ws (c : ascii) : bool :=
  is_char 32 c || is_char 9 c || is_char 10 c || is_char 13 c.
Definition is_digit (c : ascii) : bool := ((48 <=? code c) && (code c <=? 57))%N.
(** A byte [10xxxxxx] continues a code point and does not advance the index. *)
Definition continuation (c : ascii) : bool := (N.land (code c) 192 =? 128)%N.
Definition after (c : ascii) (pos : nat) : nat := if continuation c then pos else S pos.

Fixpoint skip_ws (rest : list ascii) (pos : nat) : list ascii * nat :=
  match rest with
  | c :: rest' => if is_ws c then skip_ws rest' (S pos) else (rest, pos)
  | [] => (rest, pos)
  end.

(** [strip_literal lit rest]: what follows [lit] when [rest] starts with it. *)
Fixpoint strip_literal (lit rest : list ascii) : option (list ascii) :=
  match lit, rest with
  | [], _ => Some rest
  | l :: lit', c :: rest' => if Ascii.eqb l c then strip_literal lit' rest' else None
  | _ :: _, [] => None
  end.

Fixpoint take_digits (rest : list ascii) : list ascii * list ascii :=
  match rest with
  | c :: rest' =>
      if is_digit c then let '(ds, r) := take_digits rest' in (c :: ds, r)
      else ([], rest)
  | [] => ([], [])
  end.

Definition digits_value (ds : list ascii) : Z :=
  fold_left (fun acc c => 10 * acc + (Z.of_N (code c) - 48)) ds 0.

(** A number: an optional minus sign; a zero or a digit string that does
    not start with zero; optionally a dot and digits; optionally [e] or
    [E], a sign and digits.  Without fraction and exponent it is an [int],
    made by [PyLong_FromString], which refuses more than 4300 digits. *)
Definition scan_number (rest : list ascii) (pos : nat) : option (parsed pyval) :=
  let '(sign, r0) := match rest with
                     | c :: r => if is_char 45 c then ([c], r) else ([], rest)
                     | [] => ([], rest)
                     end in
  match r0 with
  | c :: r1 =>
      if is_digit c then
        let '(int_digits, r2) := if is_char 48 c then ([c], r1) else take_digits r0 in
        let '(frac, r3) :=
          match r2 with
          | dot :: d :: _ =>
              if is_char 46 dot && is_digit d
              then let '(ds, r) := take_digits (List.tl r2) in (dot :: ds, r)
              else ([], r2)
          | _ => ([], r2)
          end in
        let '(expo, r4) :=
          match r3 with
          | e :: r =>
              if is_char 101 e || is_char 69 e then
                let '(esign, r') := match r with
                                    | sg :: r'' =>
                                        if is_char 45 sg || is_char 43 sg
                                        then ([sg], r'') else ([], r)
                                    | [] => ([], r)
                                    end in
                let '(ds, r'') := take_digits r' in
                match ds with
                | [] => ([], r3)
                | _ => (e :: esign ++ ds, r'')
                end
              else ([], r3)
          | [] => ([], r3)
          end in
        let text := sign ++ int_digits ++ frac ++ expo in
        let after_text := (pos + List.length text)%nat in
        match frac, expo with
        | [], [] =>
            if (PyLong.max_str_digits <? List.length int_digits)%nat
            then Some (Fail (PyLong.exceeds_limit (List.length int_digits)))
            else Some (Ok (PyInt (match sign with
                                  | [] => digits_value int_digits
                                  | _ => - digits_value int_digits
                                  end)) r4 after_text)
        | _, _ => Some (Ok (PyFloat (string_of_list_ascii text)) r4 after_text)
        end
      else None
  | [] => None
  end.

Definition hex_value (c : ascii) : option Z :=
  let n := Z.of_N (code c) in
  if (48 <=? n) && (n <=? 57) then Some (n - 48)
  else if (97 <=? n) && (n <=? 102) then Some (n - 87)
  else if (65 <=? n) && (n <=? 70) then Some (n - 55)
  else None.

Definition hex4 (a b c d : ascii) : option Z :=
  match hex_value a, hex_value b, hex_value c, hex_value d with
  | Some x, Some y, Some z, Some w => Some (((x * 16 + y) * 16 + z) * 16 + w)
  | _, _, _, _ => None
  end.

Definition byte (n : Z) : ascii := ascii_of_N (Z.to_N n).

(** The UTF-8 bytes of a code point (a lone surrogate is written likewise). *)
Definition utf8 (u : Z) : list ascii :=
  if u <? 128 then [byte u]
  else if u <? 2048 then [byte (192 + u / 64); byte (128 + u mod 64)]
  else if u <? 65536 then
    [byte (224 + u / 4096); byte (128 + (u / 64) mod 64); byte (128 + u mod 64)]
  else
    [byte (240 + u / 262144); byte (128 + (u / 4096) mod 64);
     byte (128 + (u / 64) mod 64); byte (128 + u mod 64)].

Definition simple_escape (c : ascii) : option ascii :=
  if is_char 34 c || is_char 92 c || is_char 47 c then Some c
  else if is_char 98 c then Some (byte 8)
  else if is_char 102 c then Some (byte 12)
  else if is_char 110 c then Some (byte 10)
  else if is_char 114 c then Some (byte 13)
  else if is_char 116 c then Some (byte 9)
  else None.

(** The characters of a string after its opening quote at index [begin];
    [acc] holds the decoded bytes so far, last first. *)
Fixpoint scan_string (begin : nat) (acc rest : list ascii) (pos : nat) : parsed string :=
  match rest with
  | [] => Err "Unterminated string starting at" begin
  | c :: rest' =>
      if is_char 34 c then Ok (string_of_list_ascii (rev acc)) rest' (S pos)
      else if is_char 92 c then
        match rest' with
        | [] => Err "Unterminated string starting at" begin
        | esc :: rest'' =>
            if is_char 117 esc then
              match rest'' with
              | h1 :: h2 :: h3 :: h4 :: ((_ :: _) as r) =>
                  match hex4 h1 h2 h3 h4 with
                  | None => Err "Invalid \uXXXX escape" (S pos)
                  | Some hi =>
                      match r with
                      | b :: u :: l1 :: l2 :: l3 :: l4 :: ((_ :: _) as r') =>
                          match hex4 l1 l2 l3 l4 with
                          | Some lo =>
                              if is_char 92 b && is_char 117 u
                                 && (55296 <=? hi) && (hi <=? 56319)
                                 && (56320 <=? lo) && (lo <=? 57343)
                              then scan_string begin
                                     (rev (utf8 (65536 + (hi - 55296) * 1024 + (lo - 56320)))
                                      ++ acc) r' (pos + 12)
                              else scan_string begin (rev (utf8 hi) ++ acc) r (pos + 6)
                          | None => scan_string begin (rev (utf8 hi) ++ acc) r (pos + 6)
                          end
                      | _ => scan_string begin (rev (utf8 hi) ++ acc) r (pos + 6)
                      end
                  end
              | _ => Err "Invalid \uXXXX escape" (S pos)
              end
            else
              match simple_escape esc with
              | Some ch => scan_string begin (ch :: acc) rest'' (pos + 2)
              | None => Err "Invalid \escape" pos
              end
        end
      else if (code c <? 32)%N then Err "Invalid control character at" pos
      else scan_string begin (c :: acc) rest' (after c pos)
  end.

(** [d[key] = value] on the items of a dict. *)
Fixpoint dict_set (key : string) (value : pyval) (items : list (string * pyval))
  : list (string * pyval) :=
  match items with
  | [] => [(key, value)]
  | (k, v) :: rest =>
      if String.eqb k key then (k, value) :: rest else (k, v) :: dict_set key value rest
  end.

Definition literal (text : string) (value : pyval) (rest : list ascii) (pos : nat)
  : option (parsed pyval) :=
  match strip_literal (list_ascii_of_string text) rest with
  | Some r => Some (Ok value r (pos + String.length text)%nat)
  | None => None
  end.

(** What a scanner answers when its [fuel] is used up. *)
Definition too_deep : exn := RecursionError "maximum recursion depth exceeded".

(** [scan_once]: one value at [pos]; [members] and [elements] continue an
    object after the opening quote of a key and an array at an element.
    [fuel] bounds the depth of the calls: a call of [scan_once] that goes on
    to [members] or [elements] has read a character, and so has each of
    these before it calls itself, so twice the length of the text and two
    more is never used up, and [too_deep] is never the answer of [loads]
    (lemma [loads_fuel_suffices]). *)
Fixpoint scan_once (fuel : nat) (rest : list ascii) (pos : nat) : parsed pyval :=
  match fuel with
  | O => Fail too_deep
  | S fuel' =>
      match rest with
      | [] => Err "Expecting value" pos
      | c :: rest' =>
          if is_char 34 c then
            match scan_string pos [] rest' (S pos) with
            | Ok s r p => Ok (PyStr s) r p
            | Err m p => Err m p
            | Fail e => Fail e
            end
          else if is_char 123 c then
            let '(r1, p1) := skip_ws rest' (S pos) in
            match r1 with
            | [] => Err "Expecting property name enclosed in double quotes" p1
            | q :: r2 =>
                if is_char 125 q then Ok (PyDict []) r2 (S p1)
                else if is_char 34 q then members fuel' [] r2 p1
                else Err "Expecting property name enclosed in double quotes" p1
            end
          else if is_char 91 c then
            let '(r1, p1) := skip_ws rest' (S pos) in
            match r1 with
            | q :: r2 =>
                if is_char 93 q then Ok (PyList []) r2 (S p1)
                else elements fuel' [] r1 p1
            | [] => elements fuel' [] r1 p1
            end
          else
            match literal "null" PyNone rest pos,
                  literal "true" (PyBool true) rest pos,
                  literal "false" (PyBool false) rest pos with
            | Some r, _, _ | None, Some r, _ | None, None, Some r => r
            | None, None, None =>
                match scan_number rest pos with
                | Some r => r
                | None =>
                    match literal "NaN" (PyFloat "nan") rest pos,
                          literal "Infinity" (PyFloat "inf") rest pos,
                          literal "-Infinity" (PyFloat "-inf") rest pos with
                    | Some r, _, _ | None, Some r, _ | None, None, Some r => r
                    | None, None, None => Err "Expecting value" pos
                    end
                end
            end
      end
  end

with members (fuel : nat) (items : list (string * pyval)) (rest : list ascii) (quote : nat)
  : parsed pyval :=
  match fuel with
  | O => Fail too_deep
  | S fuel' =>
      match scan_string quote [] rest (S quote) with
      | Err m p => Err m p
      | Fail e => Fail e
      | Ok key r p =>
          let '(r1, p1) := skip_ws r p in
          match r1 with
          | colon :: r2 =>
              if is_char 58 colon then
                let '(r3, p3) := skip_ws r2 (S p1) in
                match scan_once fuel' r3 p3 with
                | Err m p' => Err m p'
                | Fail e => Fail e
                | Ok v r4 p4 =>
                    let items' := dict_set key v items in
                    let '(r5, p5) := skip_ws r4 p4 in
                    match r5 with
                    | sep :: r6 =>
                        if is_char 125 sep then Ok (PyDict items') r6 (S p5)
                        else if is_char 44 sep then
                          let '(r7, p7) := skip_ws r6 (S p5) in
                          match r7 with
                          | q :: r8 =>
                              if is_char 34 q then members fuel' items' r8 p7
                              else Err "Expecting property name enclosed in double quotes" p7
                          | [] => Err "Expecting property name enclosed in double quotes" p7
                          end
                        else Err "Expecting ',' delimiter" p5
                    | [] => Err "Expecting ',' delimiter" p5
                    end
                end
              else Err "Expecting ':' delimiter" p1
          | [] => Err "Expecting ':' delimiter" p1
          end
      end
  end

with elements (fuel : nat) (values : list pyval) (rest : list ascii) (pos : nat)
  : parsed pyval :=
  match fuel with
  | O => Fail too_deep
  | S fuel' =>
      match scan_once fuel' rest pos with
      | Err m p => Err m p
      | Fail e => Fail e
      | Ok v r p =>
          let values' := values ++ [v] in
          let '(r1, p1) := skip_ws r p in
          match r1 with
          | sep :: r2 =>
              if is_char 93 sep then Ok (PyList values') r2 (S p1)
              else if is_char 44 sep then
                let '(r3, p3) := skip_ws r2 (S p1) in elements fuel' values' r3 p3
              else Err "Expecting ',' delimiter" p1
          | [] => Err "Expecting ',' delimiter" p1
          end
      end
  end.

(** The text of [JSONDecodeError(msg, doc, pos)]:
    ["msg: line L column C (char pos)"]. *)
Fixpoint line_column (doc : list ascii) (pos line column : nat) : nat * nat :=
  match pos, doc with
  | O, _ | _, [] => (line, column)
  | S pos', c :: doc' =>
      if continuation c then line_column doc' pos line column
      else if is_char 10 c then line_column doc' pos' (S line) 1%nat
      else line_column doc' pos' line (S column)
  end.

Definition decimal (n : nat) : string := PyStr.of_int (Z.of_nat n).

Definition error_text (msg : string) (doc : list ascii) (pos : nat) : string :=
  let '(line, column) := line_column doc pos 1%nat 1%nat in
  msg +:+ ": line " +:+ decimal line +:+ " column " +:+ decimal column
      +:+ " (char " +:+ decimal pos +:+ ")".

(** The bytes of [U+FEFF]. *)
Definition bom : list ascii := [byte 239; byte 187; byte 191].

(** [json.loads(s)] for a [str]: a leading byte order mark is refused, then
    one value is scanned and only blanks may follow it. *)
Definition loads (s : string) : outcome pyval :=
  let doc := list_ascii_of_string s in
  match strip_literal bom doc with
  | Some _ =>
      Raised (JSONDecodeError
                (error_text "Unexpected UTF-8 BOM (decode using utf-8-sig)" doc 0%nat))
  | None =>
      let '(r0, p0) := skip_ws doc 0%nat in
      match scan_once (2 * List.length doc + 2) r0 p0 with
      | Err msg pos => Raised (JSONDecodeError (error_text msg doc pos))
      | Fail e => Raised e
      | Ok v r p =>
          let '(r1, p1) := skip_ws r p in
          match r1 with
          | [] => Returned v
          | _ :: _ => Raised (JSONDecodeError (error_text "Extra data" doc p1))
          end
      end
  end.

End Json.

Module Builtins.

(** [Py_ISSPACE]: tab to carriage return, and the space. *)
Definition is_space (c : ascii) : bool :=
  let n := Json.code c in
  (((9 <=? n) && (n <=? 13)) || (n =? 32))%N.

Fixpoint lstrip (l : list ascii) : list ascii :=
  match l with
  | c :: rest => if is_space c then lstrip rest else l
  | [] => []
  end.

(** The loop of [PyLong_FromString] over digits and underscores:
    [after_underscore] says that the character before was an underscore,
    [acc] is the value and [count] the number of digits so far.  It stops at
    the first other character and gives what is left; two underscores in a
    row and an underscore at the end of the run are refused. *)
Fixpoint digits (after_underscore : bool) (acc : Z) (count : nat) (l : list ascii)
  : option (Z * nat * list ascii) :=
  match l with
  | c :: rest =>
      if Json.is_digit c
      then digits false (10 * acc + (Z.of_N (Json.code c) - 48)) (S count) rest
      else if Json.is_char 95 c
      then if after_underscore then None else digits true acc count rest
      else if after_underscore then None else Some (acc, count, l)
  | [] => if after_underscore then None else Some (acc, count, [])
  end.

(** What [PyLong_FromString] makes of the text: a value, a text over the
    limit of digits (with their number), or no integer at all.  Blanks are
    skipped in front, one sign is read, the digits may not start with an
    underscore, the limit is looked at before what follows the digits, and
    only blanks may follow. *)
Inductive scanned : Type :=
| Value (n : Z)
| TooLong (count : nat)
| Invalid.

Definition parse_int (s : string) : scanned :=
  let text := lstrip (list_ascii_of_string s) in
  let '(negative, text) :=
    match text with
    | c :: rest =>
        if Json.is_char 43 c then (false, rest)
        else if Json.is_char 45 c then (true, rest)
        else (false, text)
    | [] => (false, text)
    end in
  match text with
  | c :: _ =>
      if Json.is_char 95 c then Invalid
      else
        match digits false 0 0 text with
        | None => Invalid
        | Some (n, count, rest) =>
            if (PyLong.max_str_digits <? count)%nat then TooLong count
            else
              match count, lstrip rest with
              | S _, [] => Value (if negative then - n else n)
              | _, _ => Invalid
              end
        end
  | [] => Invalid
  end.

Definition hex_digit (n : N) : ascii :=
  ascii_of_N (if (n <? 10)%N then 48 + n else 87 + n).

(** How [repr] writes one character inside the quote [quote]: a backslash
    before the quote itself and a backslash, the escapes of tab, newline and
    carriage return, [\xNN] for the other control characters and for
    [\x7f], and the character itself otherwise. *)
Definition repr_char (quote c : ascii) : list ascii :=
  let n := Json.code c in
  let backslash := ascii_of_N 92 in
  if Ascii.eqb c quote || (n =? 92)%N then [backslash; c]
  else if (n =? 9)%N then [backslash; ascii_of_N 116]
  else if (n =? 10)%N then [backslash; ascii_of_N 110]
  else if (n =? 13)%N then [backslash; ascii_of_N 114]
  else if (n <? 32)%N || (n =? 127)%N
  then [backslash; ascii_of_N 120; hex_digit (n / 16); hex_digit (n mod 16)]
  else [c].

(** [repr(s)]: in double quotes when the text has a single quote and no
    double quote, in single quotes otherwise. *)
Definition repr (s : string) : string :=
  let text := list_ascii_of_string s in
  let quote :=
    if existsb (Json.is_char 39) text && negb (existsb (Json.is_char 34) text)
    then ascii_of_N 34 else ascii_of_N 39 in
  string_of_list_ascii (quote :: flat_map (repr_char quote) text ++ [quote]).

(** The first [n] characters of a text, as the precision of a format does it. *)
Fixpoint truncate (n : nat) (l : list ascii) : list ascii :=
  match l with
  | [] => []
  | c :: rest =>
      if Json.continuation c then c :: truncate n rest
      else match n with
           | O => []
           | S n' => c :: truncate n' rest
           end
  end.

(** [int(s)] for a [str]; the message shows at most 200 characters of
    [repr(s)]. *)
Definition int (s : string) : outcome Z :=
  match parse_int s with
  | Value n => Returned n
  | TooLong count => Raised (PyLong.exceeds_limit count)
  | Invalid =>
      Raised (ValueError ("invalid literal for int() with base 10: "
                          +:+ string_of_list_ascii
                                (truncate 200 (list_ascii_of_string (repr s)))))
  end.

End Builtins.

(** An exception other than the one of a scanner out of fuel. *)
Definition not_too_deep (e : exn) : Prop :=
  match e with
  | RecursionError _ => False
  | _ => True
  end.

(** An answer of a scanner started on [rest] that has read at least one
    character when it gives a value, and is not the answer of a scanner out
    of fuel. *)
Definition consumed {A} (rest : list ascii) (r : Json.parsed A) : Prop :=
  match r with
  | Json.Ok _ rest' _ => (List.length rest' < List.length rest)%nat
  | Json.Err _ _ => True
  | Json.Fail e => not_too_deep e
  end.

Definition cpython_ascii : PyRuntime := {|
  builtin_int := Builtins.int;
  str_lower := PyStr.lower_ascii;
  json_loads := Json.loads
|}.

(** A world whose clock shows [now] at every reading and in which nothing
    has been called yet. *)
Definition world_at (now : Z) : state :=
  {| time_source := fun _ => now; reads := 0; trace := [] |}.

(** The verifier, timestamp and body of the test-suite. *)
Definition test_verifier : WebhookVerifier := new_verifier "test-secret-123".
Definition test_time : Z := 1705312800.
(** [s] between two double quotes, for writing JSON text. *)
Definition quoted (s : string) : string :=
  String (ascii_of_N 34) (s +:+ String (ascii_of_N 34) EmptyString).
Definition test_body : string :=
  "{" +:+ quoted "event" +:+ ":" +:+ quoted "contact.created" +:+ ","
      +:+ quoted "timestamp" +:+ ":" +:+ quoted "2024-01-15T10:00:00Z" +:+ ","
      +:+ quoted "data" +:+ ":{}}".
Definition test_digest : string :=
  "332dfe6b19b02c3328538dc8d5c001f158cac16477bb7bb3c779aaf2bc12b3b5".

(** [create_signature] of [tests/test_webhook.py]. *)
Definition create_signature (secret : string) (timestamp : Z) (body : string) : string :=
  HMAC.hexdigest secret (signing_message timestamp body).

(** The body [json.dumps] writes in [test_verify_and_parse_valid]. *)
Definition test_body_with_data : string :=
  "{" +:+ quoted "event" +:+ ": " +:+ quoted "contact.created" +:+ ", "
      +:+ quoted "timestamp" +:+ ": " +:+ quoted "2024-01-15T10:00:00Z" +:+ ", "
      +:+ quoted "data" +:+ ": {" +:+ quoted "contactId" +:+ ": " +:+ quoted "abc123" +:+ ", "
      +:+ quoted "emailHash" +:+ ": " +:+ quoted "sha1hash" +:+ "}}".

(** Bodies each lacking one required key, a body whose event is outside
    [WebhookEvent], and a body with a delivery id of its own. *)
Definition body_without_event : string :=
  "{" +:+ quoted "timestamp" +:+ ":" +:+ quoted "t" +:+ "," +:+ quoted "data" +:+ ":{}}".
Definition body_without_timestamp : string :=
  "{" +:+ quoted "event" +:+ ":" +:+ quoted "test" +:+ "," +:+ quoted "data" +:+ ":{}}".
Definition body_without_data : string :=
  "{" +:+ quoted "event" +:+ ":" +:+ quoted "test" +:+ "," +:+ quoted "timestamp" +:+ ":"
      +:+ quoted "t" +:+ "}".
Definition body_with_unknown_event : string :=
  "{" +:+ quoted "event" +:+ ":" +:+ quoted "order.shipped" +:+ ","
      +:+ quoted "timestamp" +:+ ":" +:+ quoted "t" +:+ "," +:+ quoted "data" +:+ ":{}}".
Definition body_with_delivery_id : string :=
  "{" +:+ quoted "event" +:+ ":" +:+ quoted "test" +:+ ","
      +:+ quoted "timestamp" +:+ ":" +:+ quoted "t" +:+ "," +:+ quoted "data" +:+ ":{},"
      +:+ quoted "delivery_id" +:+ ":" +:+ quoted "forged" +:+ ","
      +:+ quoted "deliveryId" +:+ ":" +:+ quoted "forged" +:+ "}".

(** The headers of [test_extract_headers] and variants of them. *)
Definition test_headers : list (string * string) :=
  [ ("X-Webhook-Signature", "sha256=abc123"); ("X-Webhook-Timestamp", "1705312800");
    ("X-Webhook-Event", "contact.created"); ("X-Webhook-Delivery-Id", "delivery-123") ]%string.
Definition test_headers_lower : list (string * string) :=
  [ ("x-webhook-signature", "sha256=abc123"); ("X-WEBHOOK-TIMESTAMP", "1705312800");
    ("x-Webhook-event", "contact.created"); ("x-webhook-delivery-ID", "delivery-123") ]%string.
Definition headers_without_signature : list (string * string) :=
  [ ("X-Webhook-Timestamp", "1705312800") ]%string.
Definition headers_without_timestamp : list (string * string) :=
  [ ("X-Webhook-Signature", "sha256=abc123") ]%string.
Definition headers_required_only : list (string * string) :=
  [ ("X-Webhook-Signature", "sha256=abc123"); ("X-Webhook-Timestamp", "1705312800") ]%string.
Definition headers_empty_signature : list (string * string) :=
  [ ("X-Webhook-Signature", ""); ("X-Webhook-Timestamp", "1705312800") ]%string.
Definition headers_empty_timestamp : list (string * string) :=
  [ ("X-Webhook-Signature", "sha256=abc123"); ("X-Webhook-Timestamp", "") ]%string.

(** ** Measures on traces and further test data *)

(** How many clock readings and how many [json.loads] calls a list of
    library calls holds. *)
Definition time_reads (calls : list libcall) : nat :=
  List.length (List.filter (fun c => match c with
                                     | TimeRead _ => true
                                     | _ => false
                                     end) calls).

Definition json_loads_calls (calls : list libcall) : nat :=
  List.length (List.filter (fun c => match c with
                                     | JsonLoads _ => true
                                     | _ => false
                                     end) calls).

(** Whether a string holds the character [.]. *)
Fixpoint has_dot (s : string) : bool :=
  match s with
  | EmptyString => false
  | String c s' => Ascii.eqb c "." || has_dot s'
  end.

(** A signature header whose value is not ASCII: [sha256=] followed by the
    UTF-8 bytes of U+00E9. *)
Definition non_ascii_signature : string :=
  "sha256=" +:+ String (ascii_of_N 195) (String (ascii_of_N 169) EmptyString).

(** Bodies whose [data] is a list, and that are a list or a number. *)
Definition body_with_list_data : string :=
  "{" +:+ quoted "event" +:+ ":7," +:+ quoted "timestamp" +:+ ":null,"
      +:+ quoted "data" +:+ ":[1]}".
Definition body_list_of_keys : string :=
  "[" +:+ quoted "event" +:+ "," +:+ quoted "timestamp" +:+ "," +:+ quoted "data" +:+ "]".

(** Headers in which a later, differently cased name repeats an earlier one. *)
Definition headers_repeated : list (string * string) :=
  [ ("X-Webhook-Signature", "sha256=first"); ("X-Webhook-Timestamp", "1705312800");
    ("x-webhook-signature", "sha256=second") ]%string.

(** The JSON values that are neither object, array nor string. *)
Definition is_scalar (v : pyval) : bool :=
  match v with
  | PyNone | PyBool _ | PyInt _ | PyFloat _ => true
  | _ => false
  end.

(** * ezunsub.exceptions and ezunsub.client *)

(** ** [ezunsub.exceptions]

    One constructor per class, with the arguments of its [__init__]; the
    status code is what [__init__] hands to [EZUnsubError.__init__].  A
    message is any value: the client passes on what a response body holds
    under [error]. *)

Module Exceptions.

Inductive sdk_exception : Type :=
| EZUnsubError (message : pyval) (status_code : option Z)
| AuthenticationError (message : pyval)
| ValidationError (message : pyval)
| NotFoundError (message : pyval)
| RateLimitError (message : pyval) (retry_after : option Z)
| ForbiddenError (message : pyval).

(** [e.message] *)
Definition message (e : sdk_exception) : pyval :=
  match e with
  | EZUnsubError m _ | AuthenticationError m | ValidationError m | NotFoundError m
  | RateLimitError m _ | ForbiddenError m => m
  end.

(** [e.status_code] *)
Definition status_code (e : sdk_exception) : option Z :=
  match e with
  | EZUnsubError _ code => code
  | AuthenticationError _ => Some 401
  | ValidationError _ => Some 400
  | NotFoundError _ => Some 404
  | RateLimitError _ _ => Some 429
  | ForbiddenError _ => Some 403
  end.

(** The default messages of the five subclasses. *)
Definition authentication_required : pyval := PyStr "Authentication required".
Definition invalid_request : pyval := PyStr "Invalid request".
Definition resource_not_found : pyval := PyStr "Resource not found".
Definition rate_limit_exceeded : pyval := PyStr "Rate limit exceeded".
Definition access_denied : pyval := PyStr "Access denied".

End Exceptions.

(** ** [ezunsub.client] *)

Module Client.

Import Exceptions.

(** What [_handle_response] reads of an [httpx.Response]: the status code,
    the content (bytes), what [response.json()] returns or raises, and
    [response.headers.get("Retry-After")]. *)
Record Response : Type := {
  status_code : Z;
  content : string;
  json : outcome pyval;
  retry_after_header : option string
}.

(** The keyword arguments of [self._client.request]. *)
Record Request : Type := {
  method : string;
  url : string;
  json_body : option (list (string * pyval));
  params : option (list (string * pyval))
}.

(** What can leave a call of the client: an exception of the SDK, one of the
    runtime ([json], [int], attribute access), or one of the transport, by
    its name. *)
Inductive raised : Type :=
| Sdk (e : sdk_exception)
| Builtin (e : exn)
| Transport (name : string).

Inductive reply (A : Type) : Type :=
| Done (a : A)
| Failed (r : raised).
Arguments Done {A} a.
Arguments Failed {A} r.

(** [data.get(key, default)] *)
Definition py_get_or (container : pyval) (key : string) (default : pyval) : outcome pyval :=
  match container with
  | PyDict items =>
      Returned (match dict_lookup key items with
                | Some v => v
                | None => default
                end)
  | other =>
      Raised (AttributeError ("'" +:+ type_name other +:+ "' object has no attribute 'get'"))
  end.

(** [base_url.rstrip("/")]: without its trailing slashes. *)
Fixpoint rstrip_slash (s : string) : string :=
  match s with
  | EmptyString => EmptyString
  | String c rest =>
      match rstrip_slash rest with
      | EmptyString => if Ascii.eqb c "/" then EmptyString else String c EmptyString
      | kept => String c kept
      end
  end.

(** A string of slashes only. *)
Fixpoint only_slashes (s : string) : bool :=
  match s with
  | EmptyString => true
  | String c rest => Ascii.eqb c "/" && only_slashes rest
  end.

(** [s.endswith("/")] *)
Fixpoint ends_with_slash (s : string) : bool :=
  match s with
  | EmptyString => false
  | String c EmptyString => Ascii.eqb c "/"
  | String _ rest => ends_with_slash rest
  end.

(** [EZUnsubClient(api_key, base_url)]: the attributes set by [__init__]
    and the headers given to the HTTP client.  The [timeout], a float handed
    on to the HTTP client unchanged, is left out. *)
Record EZUnsubClient : Type := {
  api_key : string;
  base_url : string;
  default_headers : list (string * string)
}.

Definition new_client (api_key base_url : string) : EZUnsubClient :=
  {| api_key := api_key;
     base_url := rstrip_slash base_url;
     default_headers := [("x-api-key", api_key); ("Content-Type", "application/json");
                         ("User-Agent", "ezunsub-python/0.1.0")]%string |}.

Section WithRuntime.

Context `{PyRuntime}.

(** [data = response.json() if response.content else {}] followed by
    [data.get("error", default)]. *)
Definition error_message (response : Response) (default : pyval) : outcome pyval :=
  match (if String.eqb (content response) "" then Returned (PyDict []) else json response) with
  | Returned data => py_get_or data "error" default
  | Raised e => Raised e
  end.

(** [raise make(data.get("error", default))] *)
Definition raise_with_message (response : Response) (default : pyval)
    (make : pyval -> sdk_exception) : reply pyval :=
  match error_message response default with
  | Returned m => Failed (Sdk (make m))
  | Raised e => Failed (Builtin e)
  end.

Definition _handle_response (response : Response) : reply pyval :=
  let code := status_code response in
  if code =? 401 then Failed (Sdk (AuthenticationError authentication_required))
  else if code =? 403 then raise_with_message response access_denied ForbiddenError
  else if code =? 404 then raise_with_message response resource_not_found NotFoundError
  else if code =? 429 then
    match truthy (retry_after_header response) with
    | Some text =>
        match builtin_int text with
        | Returned n => Failed (Sdk (RateLimitError rate_limit_exceeded (Some n)))
        | Raised e => Failed (Builtin e)
        end
    | None => Failed (Sdk (RateLimitError rate_limit_exceeded None))
    end
  else if code =? 400 then raise_with_message response invalid_request ValidationError
  else if code >=? 400 then
    raise_with_message response
      (PyStr ("Request failed with status " +:+ PyStr.of_int code))
      (fun m => EZUnsubError m (Some code))
  else if (code =? 204) || String.eqb (content response) "" then Done (PyDict [])
  else
    match json response with
    | Returned v => Done v
    | Raised e => Failed (Builtin e)
    end.

(** The transport: [self._client.request(...)] answers with a response or
    raises an exception of its own. *)
Variable send : Request -> string + Response.

Definition _request (request : Request) : reply pyval :=
  match send request with
  | inr response => _handle_response response
  | inl name => Failed (Transport name)
  end.

End WithRuntime.

(** ** The requests of the resources *)

(** [ContactsResource.list(page, limit, link_code)] *)
Definition contacts_list (page limit : Z) (link_code : option string) : Request :=
  let params := [("page", PyInt page); ("limit", PyInt limit)]%string in
  {| method := "GET"; url := "/api/contacts"; json_body := None;
     params := Some (match truthy link_code with
                     | Some value => Json.dict_set "linkCode" (PyStr value) params
                     | None => params
                     end) |}.

(** [LinksResource.list(page, limit, offer_id)] *)
Definition links_list (page limit : Z) (offer_id : option string) : Request :=
  let params := [("page", PyInt page); ("limit", PyInt limit)]%string in
  {| method := "GET"; url := "/api/links"; json_body := None;
     params := Some (match truthy offer_id with
                     | Some value => Json.dict_set "offerId" (PyStr value) params
                     | None => params
                     end) |}.

(** [ContactsResource.get(contact_id)] *)
Definition contacts_get (contact_id : string) : Request :=
  {| method := "GET"; url := "/api/contacts/" +:+ contact_id;
     json_body := None; params := None |}.

(** [WebhooksResource.list(org_id)] *)
Definition webhooks_list (org_id : option string) : Request :=
  {| method := "GET"; url := "/api/webhooks"; json_body := None;
     params := match truthy org_id with
               | Some value => Some [("orgId", PyStr value)]%string
               | None => None
               end |}.

(** [WebhooksResource.create(name, url, events, pii_mode, org_id)] *)
Definition webhooks_create (name target : string) (events : list string)
    (pii_mode : string) (org_id : option string) : Request :=
  let data := [("name", PyStr name); ("url", PyStr target);
               ("events", PyList (List.map PyStr events));
               ("piiMode", PyStr pii_mode)]%string in
  {| method := "POST"; url := "/api/webhooks";
     json_body := Some (match truthy org_id with
                        | Some value => Json.dict_set "orgId" (PyStr value) data
                        | None => data
                        end);
     params := None |}.

(** [if value is not None: data[key] = value] *)
Definition set_if_given {A} (key : string) (to_json : A -> pyval) (value : option A)
    (data : list (string * pyval)) : list (string * pyval) :=
  match value with
  | Some v => Json.dict_set key (to_json v) data
  | None => data
  end.

(** [WebhooksResource.update(webhook_id, name, url, events, pii_mode, is_active)] *)
Definition webhooks_update (webhook_id : string) (name target : option string)
    (events : option (list string)) (pii_mode : option string) (is_active : option bool)
  : Request :=
  let data := [] in
  let data := set_if_given "name" PyStr name data in
  let data := set_if_given "url" PyStr target data in
  let data := set_if_given "events" (fun l => PyList (List.map PyStr l)) events data in
  let data := set_if_given "piiMode" PyStr pii_mode data in
  let data := set_if_given "isActive" PyBool is_active data in
  {| method := "PATCH"; url := "/api/webhooks/" +:+ webhook_id;
     json_body := Some data; params := None |}.

(** [LinksResource.create(offer_id, name)] *)
Definition links_create (offer_id : string) (name : option string) : Request :=
  let data := [("offerId", PyStr offer_id)]%string in
  {| method := "POST"; url := "/api/links";
     json_body := Some (match truthy name with
                        | Some value => Json.dict_set "name" (PyStr value) data
                        | None => data
                        end);
     params := None |}.

End Client.

(** A response whose [json()] is [json.loads] of its content, for computing.
    That is [response.json()] for a content in ASCII; how the library
    decodes other bytes (a byte order mark, another encoding, bytes that are
    not UTF-8) is not modelled. *)
Definition response_of (code : Z) (content : string) (retry_after : option string)
  : Client.Response :=
  {| Client.status_code := code; Client.content := content;
     Client.json := Json.loads content; Client.retry_after_header := retry_after |}.

(** A text of [n] digits. *)
Definition many_nines (n : nat) : string := string_of_list_ascii (List.repeat "9"%char n).

(** The body [{"error": "No such contact"}]. *)
Definition error_body : string :=
  "{" +:+ quoted "error" +:+ ": " +:+ quoted "No such contact" +:+ "}".

(** A transport that answers every GET with a 404 and fails to connect for
    every other method. *)
Definition test_transport (request : Client.Request) : string + Client.Response :=
  if String.eqb (Client.method request) "GET" then inr (response_of 404 error_body None)
  else inl "ConnectError"%string.

(** * Properties *)

(** ** The hash functions agree with published test vectors *)

Example sha256_abc :
  HMAC.hex (SHA256.digest (Bytes.of_string "abc")) =
  "ba7816bf8f01cfea414140de5dae2223b00361a396177a9cb410ff61f20015ad"%string.
Proof. vm_compute. reflexivity. Qed.

Example sha256_empty :
  HMAC.hex (SHA256.digest []) =
  "e3b0c44298fc1c149afbf4c8996fb92427ae41e4649b934ca495991b7852b855"%string.
Proof. vm_compute. reflexivity. Qed.

(** A two-block message whose padding spills into the second block. *)
Example sha256_119_a :
  HMAC.hex (SHA256.digest (repeat 97 119)) =
  "31eba51c313a5c08226adf18d4a359cfdfd8d2e816b13f4af952f7ea6584dcfb"%string.
Proof. vm_compute. reflexivity. Qed.

Example hmac_sha256_quick_brown_fox :
  HMAC.hexdigest "key" "The quick brown fox jumps over the lazy dog" =
  "f7bc83f430538424b13298e6aa6fb143ef4d59a14946175997479dbc2d1a3cd8"%string.
Proof. vm_compute. reflexivity. Qed.

(** A key longer than one block is hashed before use. *)
Example hmac_sha256_long_key :
  HMAC.hex (HMAC.digest (repeat 107 100) (repeat 120 200)) =
  "e326f00ce14194bb85e2683fe9b1a78851753f77479303f94c2c3cd1998bdda3"%string.
Proof. vm_compute. reflexivity. Qed.

(** ** Hexadecimal digests *)

Lemma hex_digit_lower_hex n :
  0 <= n < 16 -> HMAC.lower_hex_char (HMAC.hex_digit n) = true.
Proof.
  intros Hn. unfold HMAC.hex_digit.
  assert (Hk : (Z.to_nat n < 16)%nat) by lia.
  revert Hk. generalize (Z.to_nat n) as k. intros k Hk.
  do 16 (destruct k as [| k]; [reflexivity |]). lia.
Qed.

Lemma nibble_range b : 0 <= Z.land b 15 < 16.
Proof.
  change 15 with (Z.ones 4). rewrite Z.land_ones by lia.
  apply Z.mod_pos_bound. reflexivity.
Qed.

Lemma hex_lower_hex bs : HMAC.lower_hex (HMAC.hex bs) = true.
Proof.
  induction bs as [| b bs IH]; [reflexivity |].
  cbn [HMAC.hex HMAC.lower_hex].
  rewrite !hex_digit_lower_hex by apply nibble_range.
  exact IH.
Qed.

Lemma hex_length bs : String.length (HMAC.hex bs) = (2 * List.length bs)%nat.
Proof.
  induction bs as [| b bs IH]; [reflexivity |].
  cbn [HMAC.hex String.length List.length]. rewrite IH. lia.
Qed.

Lemma sha256_digest_length msg : List.length (SHA256.digest msg) = 32%nat.
Proof. reflexivity. Qed.

Lemma hexdigest_lower_hex key msg : HMAC.lower_hex (HMAC.hexdigest key msg) = true.
Proof. apply hex_lower_hex. Qed.

Lemma hexdigest_length key msg : String.length (HMAC.hexdigest key msg) = 64%nat.
Proof.
  unfold HMAC.hexdigest, HMAC.digest. rewrite hex_length, sha256_digest_length. reflexivity.
Qed.

Lemma lower_hex_char_ascii c : HMAC.lower_hex_char c = true -> PyStr.ascii_char c = true.
Proof.
  unfold HMAC.lower_hex_char, PyStr.ascii_char. intros Hc.
  apply N.ltb_lt.
  apply orb_true_iff in Hc as [Hc | Hc]; apply andb_true_iff in Hc as [_ Hc];
    apply N.leb_le in Hc; lia.
Qed.

Lemma lower_hex_isascii s : HMAC.lower_hex s = true -> PyStr.isascii s = true.
Proof.
  induction s as [| c s IH]; [reflexivity |].
  cbn [HMAC.lower_hex PyStr.isascii]. intros Hs.
  apply andb_true_iff in Hs as [Hc Hs].
  rewrite (lower_hex_char_ascii _ Hc), (IH Hs). reflexivity.
Qed.

(** A hexadecimal string never starts with ["sha256="]: [s] is not a digit. *)
Lemma lower_hex_no_prefix s :
  HMAC.lower_hex s = true -> PyStr.startswith s "sha256=" = false.
Proof.
  destruct s as [| c s]; [reflexivity |].
  cbn [HMAC.lower_hex PyStr.startswith]. intros Hs.
  apply andb_true_iff in Hs as [Hc _].
  destruct (Ascii.eqb_spec "s" c) as [<- | _]; [discriminate Hc | reflexivity].
Qed.

(** ** The signature value *)

Lemma startswith_append s prefix : PyStr.startswith (prefix +:+ s) prefix = true.
Proof.
  induction prefix as [| p prefix IH]; [destruct s; reflexivity |].
  simpl. rewrite Ascii.eqb_refl. exact IH.
Qed.

Lemma sig_value_prefixed digest : sig_value ("sha256=" +:+ digest) = digest.
Proof. unfold sig_value. rewrite startswith_append. reflexivity. Qed.

Lemma sig_value_bare s : HMAC.lower_hex s = true -> sig_value s = s.
Proof. intros Hs. unfold sig_value. rewrite (lower_hex_no_prefix _ Hs). reflexivity. Qed.

(** ** The comparison primitive *)

Lemma bytes_of_string_length s : List.length (Bytes.of_string s) = String.length s.
Proof.
  unfold Bytes.of_string. rewrite List.length_map.
  induction s as [| c s IH]; [reflexivity |]. cbn. rewrite IH. reflexivity.
Qed.

Lemma bytes_of_string_inj s t : Bytes.of_string s = Bytes.of_string t -> s = t.
Proof.
  revert t. induction s as [| c s IH]; intros [| d t] Heq; try discriminate Heq.
  - reflexivity.
  - unfold Bytes.of_string in Heq. cbn in Heq. injection Heq as Hc Hrest.
    apply N2Z.inj in Hc.
    rewrite <- (ascii_N_embedding c), <- (ascii_N_embedding d), Hc.
    f_equal. apply IH. exact Hrest.
Qed.

(** The loop visits every byte of its second argument. *)
Lemma loop_count left right result count :
  List.length left = List.length right ->
  snd (CompareDigest.loop left right result count) = (count + List.length right)%nat.
Proof.
  revert left result count.
  induction right as [| r right IH]; intros [| l left] result count Hlen;
    try discriminate Hlen; cbn [CompareDigest.loop List.length snd].
  - lia.
  - rewrite IH by (injection Hlen; trivial). lia.
Qed.

(** Its accumulator ends at zero exactly when it started at zero and no
    pair of bytes differed. *)
Lemma loop_zero left right result count :
  List.length left = List.length right ->
  fst (CompareDigest.loop left right result count) = 0 <-> result = 0 /\ left = right.
Proof.
  revert left result count.
  induction right as [| r right IH]; intros [| l left] result count Hlen;
    try discriminate Hlen; cbn [CompareDigest.loop fst].
  - tauto.
  - rewrite IH by (injection Hlen; trivial).
    rewrite Z.lor_eq_0_iff, Z.lxor_eq_0_iff.
    split.
    + intros [[-> ->] ->]. split; reflexivity.
    + intros [-> Heq]. injection Heq as -> ->. repeat split; reflexivity.
Qed.

Lemma tscmp_iterations a b : snd (CompareDigest.tscmp a b) = List.length b.
Proof.
  unfold CompareDigest.tscmp.
  destruct (Nat.eqb_spec (List.length a) (List.length b)) as [Hlen | Hlen].
  - pose proof (loop_count a b 0 0%nat Hlen) as Hc.
    destruct (CompareDigest.loop a b 0 0) as [res n]. exact Hc.
  - pose proof (loop_count b b 1 0%nat eq_refl) as Hc.
    destruct (CompareDigest.loop b b 1 0) as [res n]. exact Hc.
Qed.

Lemma tscmp_equal a b : fst (CompareDigest.tscmp a b) = true <-> a = b.
Proof.
  unfold CompareDigest.tscmp.
  destruct (Nat.eqb_spec (List.length a) (List.length b)) as [Hlen | Hlen].
  - pose proof (loop_zero a b 0 0%nat Hlen) as Hz.
    destruct (CompareDigest.loop a b 0 0) as [res n]. cbn [fst] in *.
    rewrite Z.eqb_eq, Hz. tauto.
  - pose proof (loop_zero b b 1 0%nat eq_refl) as Hz.
    destruct (CompareDigest.loop b b 1 0) as [res n]. cbn [fst] in *.
    rewrite Z.eqb_eq, Hz. split.
    + intros [Hone _]. discriminate Hone.
    + intros ->. contradiction Hlen. reflexivity.
Qed.

(** What [compare_digest] does on two ASCII strings: it returns whether
    they are equal, after as many iterations as the second string is long. *)
Lemma compare_digest_ascii a b st :
  PyStr.isascii a = true -> PyStr.isascii b = true ->
  compare_digest a b st =
    (Returned (String.eqb a b),
     State (time_source st) (reads st) (CompareDigest a b (String.length b) :: trace st)).
Proof.
  intros Ha Hb. unfold compare_digest. rewrite Ha, Hb. cbn [andb].
  pose proof (tscmp_iterations (Bytes.of_string a) (Bytes.of_string b)) as Hn.
  pose proof (tscmp_equal (Bytes.of_string a) (Bytes.of_string b)) as He.
  destruct (CompareDigest.tscmp _ _) as [equal count]. cbn [fst snd] in *.
  rewrite bytes_of_string_length in Hn. subst count.
  assert (equal = String.eqb a b) as ->; [| reflexivity].
  destruct (String.eqb_spec a b) as [-> | Hne].
  - apply He. reflexivity.
  - destruct equal; [| reflexivity].
    contradiction Hne. apply bytes_of_string_inj, He. reflexivity.
Qed.

Lemma compare_digest_non_ascii a b st :
  PyStr.isascii a && PyStr.isascii b = false ->
  compare_digest a b st =
    (Raised (TypeError "comparing strings with non-ASCII characters is not supported"), st).
Proof. intros Hab. unfold compare_digest. rewrite Hab. reflexivity. Qed.

(** ** [verify_signature] *)

Lemma Returned_inj {A} (a b : A) : Returned a = Returned b -> a = b.
Proof. intros Heq. injection Heq as Heq. exact Heq. Qed.

(** Outside the window: one clock reading, then [False]. *)
Lemma verify_signature_stale self signature timestamp body st :
  age st timestamp > max_age_seconds self ->
  verify_signature self signature timestamp body st =
    (Returned false,
     State (time_source st) (S (reads st)) (TimeRead (next_time st) :: trace st)).
Proof.
  intros Hage. unfold verify_signature, bind, time_time, ret.
  fold (next_time st). fold (age st timestamp).
  destruct (Z.gtb_spec (age st timestamp) (max_age_seconds self)) as [_ | Hle];
    [reflexivity | lia].
Qed.

(** Inside the window with an ASCII signature value: one clock reading,
    one digest, one comparison. *)
Lemma verify_signature_fresh self signature timestamp body st :
  age st timestamp <= max_age_seconds self ->
  PyStr.isascii (sig_value signature) = true ->
  verify_signature self signature timestamp body st =
    (Returned (String.eqb (expected_digest self timestamp body) (sig_value signature)),
     State (time_source st) (S (reads st))
       (CompareDigest (expected_digest self timestamp body) (sig_value signature)
                      (String.length (sig_value signature))
        :: HmacDigest (secret self) (signing_message timestamp body)
        :: TimeRead (next_time st) :: trace st)).
Proof.
  intros Hage Hascii. unfold verify_signature, bind, time_time.
  fold (next_time st). fold (age st timestamp).
  destruct (Z.gtb_spec (age st timestamp) (max_age_seconds self)) as [Hgt | _]; [lia |].
  unfold hmac_new_hexdigest, bind, emit, ret. cbn [time_source reads trace].
  fold (expected_digest self timestamp body).
  rewrite compare_digest_ascii;
    [reflexivity | apply lower_hex_isascii, hexdigest_lower_hex | exact Hascii].
Qed.

(** Inside the window with a signature value that is not ASCII: the
    comparison raises. *)
Lemma verify_signature_non_ascii self signature timestamp body st :
  age st timestamp <= max_age_seconds self ->
  PyStr.isascii (sig_value signature) = false ->
  verify_signature self signature timestamp body st =
    (Raised (TypeError "comparing strings with non-ASCII characters is not supported"),
     State (time_source st) (S (reads st))
       (HmacDigest (secret self) (signing_message timestamp body)
        :: TimeRead (next_time st) :: trace st)).
Proof.
  intros Hage Hascii. unfold verify_signature, bind, time_time.
  fold (next_time st). fold (age st timestamp).
  destruct (Z.gtb_spec (age st timestamp) (max_age_seconds self)) as [Hgt | _]; [lia |].
  unfold hmac_new_hexdigest, bind, emit, ret. cbn [time_source reads trace].
  rewrite compare_digest_non_ascii; [reflexivity |].
  rewrite Hascii. apply andb_false_r.
Qed.

(** [verify_signature] never calls [json.loads], and reads the clock once. *)
Lemma verify_signature_effects self signature timestamp body st :
  let st' := snd (verify_signature self signature timestamp body st) in
  time_source st' = time_source st /\ reads st' = S (reads st) /\
  parsed_json (trace st') = parsed_json (trace st).
Proof.
  destruct (Z_gt_le_dec (age st timestamp) (max_age_seconds self)) as [Hgt | Hle].
  - rewrite verify_signature_stale by exact Hgt. repeat split.
  - destruct (PyStr.isascii (sig_value signature)) eqn:Hascii.
    + rewrite verify_signature_fresh by assumption. repeat split.
    + rewrite verify_signature_non_ascii by assumption. repeat split.
Qed.

(** In the window, the expected digest verifies, bare and prefixed. *)
Lemma verify_signature_expected self timestamp body st :
  age st timestamp <= max_age_seconds self ->
  fst (verify_signature self (expected_digest self timestamp body) timestamp body st) =
    Returned true /\
  fst (verify_signature self ("sha256=" +:+ expected_digest self timestamp body)
         timestamp body st) = Returned true.
Proof.
  intros Hage.
  pose proof (hexdigest_lower_hex (secret self) (signing_message timestamp body)) as Hhex.
  fold (expected_digest self timestamp body) in Hhex.
  split.
  - rewrite verify_signature_fresh;
      [| exact Hage | rewrite sig_value_bare by exact Hhex; apply lower_hex_isascii, Hhex].
    cbn [fst]. rewrite sig_value_bare by exact Hhex. rewrite String.eqb_refl. reflexivity.
  - rewrite verify_signature_fresh;
      [| exact Hage | rewrite sig_value_prefixed; apply lower_hex_isascii, Hhex].
    cbn [fst]. rewrite sig_value_prefixed, String.eqb_refl. reflexivity.
Qed.



(** C2. Whatever the signature, [verify_signature] returns [False] when the
    age of the timestamp exceeds [max_age_seconds], after reading the clock
    and nothing else; a correctly signed pair whose age is exactly
    [max_age_seconds] verifies, and one second more it does not. *)
Theorem verify_signature_replay_window self signature timestamp body st :
  let now := time_source st (reads st) in
  let expected := HMAC.hexdigest (secret self) (PyStr.of_int timestamp +:+ "." +:+ body) in
  (Z.abs (now - timestamp) > max_age_seconds self ->
   verify_signature self signature timestamp body st =
     (Returned false, State (time_source st) (S (reads st)) (TimeRead now :: trace st))) /\
  (Z.abs (now - timestamp) = max_age_seconds self ->
   fst (verify_signature self expected timestamp body st) = Returned true /\
   fst (verify_signature self ("sha256=" +:+ expected) timestamp body st) = Returned true) /\
  (Z.abs (now - timestamp) = max_age_seconds self + 1 ->
   fst (verify_signature self expected timestamp body st) = Returned false /\
   fst (verify_signature self ("sha256=" +:+ expected) timestamp body st) = Returned false).
Proof.
  intros now expected. split; [| split].
  - intros Hage. apply verify_signature_stale. exact Hage.
  - intros Hage.
    apply verify_signature_expected. unfold age, next_time. fold now. lia.
  - intros Hage.
    assert (Hgt : age st timestamp > max_age_seconds self)
      by (unfold age, next_time; fold now; lia).
    rewrite !verify_signature_stale by exact Hgt. split; reflexivity.
Qed.

Lemma verify_signature_replay_window_witness :
  let signature := create_signature "test-secret-123" test_time test_body in
  fst (verify_signature test_verifier signature test_time test_body
         (world_at (test_time + 301))) = Returned false /\
  fst (verify_signature test_verifier signature test_time test_body
         (world_at (test_time + 300))) = Returned true /\
  fst (verify_signature test_verifier signature test_time test_body
         (world_at (test_time - 300))) = Returned true /\
  fst (verify_signature test_verifier "sha256=invalid" (test_time + 600) test_body
         (world_at test_time)) = Returned false.
Proof.
  intros signature. split; [| split; [| split]].
  - destruct (verify_signature_replay_window test_verifier signature test_time test_body
                (world_at (test_time + 301))) as (_ & _ & Hlate).
    destruct Hlate as [Hbare _]; [vm_compute; reflexivity | exact Hbare].
  - destruct (verify_signature_replay_window test_verifier signature test_time test_body
                (world_at (test_time + 300))) as (_ & Hedge & _).
    destruct Hedge as [Hbare _]; [vm_compute; reflexivity | exact Hbare].
  - destruct (verify_signature_replay_window test_verifier signature test_time test_body
                (world_at (test_time - 300))) as (_ & Hedge & _).
    destruct Hedge as [Hbare _]; [vm_compute; reflexivity | exact Hbare].
  - destruct (verify_signature_replay_window test_verifier "sha256=invalid"
                (test_time + 600) test_body (world_at test_time)) as (Hstale & _ & _).
    rewrite Hstale; [reflexivity |]. vm_compute. reflexivity.
Defined.

(** [verify_signature] decides through one call of [hmac.compare_digest]:
    in the window, for an ASCII signature value, the trace shows one
    comparison of the expected digest with that value and the result is its
    verdict.  The number of iterations is the one [CompareDigest.tscmp]
    counts, so it is the same for two values of the same length.  This says
    which library function is called and on what; how long the call takes is
    a property of the library, of which [CompareDigest] is only a reading,
    and is not stated here. *)
Lemma verify_signature_single_comparison self timestamp body st signature other :
  age st timestamp <= max_age_seconds self ->
  PyStr.isascii (sig_value signature) = true ->
  PyStr.isascii (sig_value other) = true ->
  String.length (sig_value signature) = String.length (sig_value other) ->
  let expected := expected_digest self timestamp body in
  let run s := verify_signature self s timestamp body st in
  fst (run signature) = Returned (String.eqb expected (sig_value signature)) /\
  trace (snd (run signature)) =
    CompareDigest expected (sig_value signature) (String.length (sig_value signature))
    :: HmacDigest (secret self) (signing_message timestamp body)
    :: TimeRead (next_time st) :: trace st /\
  comparison_iterations (trace (snd (run signature))) =
    comparison_iterations (trace (snd (run other))).
Proof.
  intros Hage Hsig Hother Hlen expected run. unfold run.
  rewrite !verify_signature_fresh by assumption.
  cbn [fst snd trace]. split; [reflexivity | split; [reflexivity |]].
  unfold comparison_iterations. cbn [flat_map List.app]. rewrite Hlen. reflexivity.
Qed.

(** ** [verify_and_parse] *)

Section VerifyAndParse.

Context `{PyRuntime}.
Variables (self : WebhookVerifier) (signature body : string).

(** A timestamp [int] does not accept: its exception leaves at once. *)
Lemma verify_and_parse_bad_timestamp did timestamp e st :
  coerce_timestamp timestamp = Raised e ->
  verify_and_parse self signature timestamp body did st = (Raised e, st).
Proof.
  intros Hts. unfold verify_and_parse, bind, lift. rewrite Hts. reflexivity.
Qed.

(** [verify_signature] raised: so does [verify_and_parse]. *)
Lemma verify_and_parse_raised did timestamp ts e st st1 :
  coerce_timestamp timestamp = Returned ts ->
  verify_signature self signature ts body st = (Raised e, st1) ->
  verify_and_parse self signature timestamp body did st = (Raised e, st1).
Proof.
  intros Hts Hver. unfold verify_and_parse, bind, lift. rewrite Hts, Hver. reflexivity.
Qed.

(** [verify_signature] returned [False]. *)
Lemma verify_and_parse_rejected did timestamp ts st st1 :
  coerce_timestamp timestamp = Returned ts ->
  verify_signature self signature ts body st = (Returned false, st1) ->
  verify_and_parse self signature timestamp body did st =
    (Raised (ValueError "Invalid webhook signature"), st1).
Proof.
  intros Hts Hver. unfold verify_and_parse, bind, lift. rewrite Hts, Hver. reflexivity.
Qed.

(** [verify_signature] returned [True]: the body is parsed, the three
    keys are looked for in order, the three values are read. *)
Lemma verify_and_parse_verified did timestamp ts st st1 :
  coerce_timestamp timestamp = Returned ts ->
  verify_signature self signature ts body st = (Returned true, st1) ->
  verify_and_parse self signature timestamp body did st =
    let st2 := State (time_source st1) (reads st1) (JsonLoads body :: trace st1) in
    match json_loads body with
    | Raised (JSONDecodeError msg) =>
        (Raised (ValueError ("Invalid JSON payload: " +:+ msg)), st2)
    | Raised e => (Raised e, st2)
    | Returned parsed =>
        match py_contains "event" parsed with
        | Raised e => (Raised e, st2)
        | Returned false => (Raised (ValueError "Missing 'event' field in payload"), st2)
        | Returned true =>
            match py_contains "timestamp" parsed with
            | Raised e => (Raised e, st2)
            | Returned false =>
                (Raised (ValueError "Missing 'timestamp' field in payload"), st2)
            | Returned true =>
                match py_contains "data" parsed with
                | Raised e => (Raised e, st2)
                | Returned false =>
                    (Raised (ValueError "Missing 'data' field in payload"), st2)
                | Returned true =>
                    match py_getitem parsed "event", py_getitem parsed "timestamp",
                          py_getitem parsed "data" with
                    | Returned ev, Returned tm, Returned dt =>
                        (Returned {| event := ev; timestamp := tm; data := dt;
                                     delivery_id := did |}, st2)
                    | Raised e, _, _ | Returned _, Raised e, _
                    | Returned _, Returned _, Raised e => (Raised e, st2)
                    end
                end
            end
        end
    end.
Proof.
  intros Hts Hver.
  unfold verify_and_parse, bind, lift, try_except, json_loads_call, require_field.
  rewrite Hts, Hver. cbn [negb]. unfold bind, emit, lift, raise, ret.
  destruct (json_loads body) as [parsed | []]; try reflexivity.
  destruct (py_contains "event" parsed) as [[] |]; try reflexivity. cbn [negb].
  destruct (py_contains "timestamp" parsed) as [[] |]; try reflexivity. cbn [negb].
  destruct (py_contains "data" parsed) as [[] |]; reflexivity.
Qed.

Lemma dict_contains_absent key items :
  dict_lookup key items = None -> py_contains key (PyDict items) = Returned false.
Proof. intros Hk. cbn [py_contains]. rewrite Hk. reflexivity. Qed.

Lemma dict_contains_present key items :
  dict_lookup key items <> None -> py_contains key (PyDict items) = Returned true.
Proof.
  intros Hk. cbn [py_contains].
  destruct (dict_lookup key items); [reflexivity | contradiction Hk; reflexivity].
Qed.

Lemma dict_getitem key items v :
  dict_lookup key items = Some v -> py_getitem (PyDict items) key = Returned v.
Proof. intros Hk. cbn [py_getitem]. rewrite Hk. reflexivity. Qed.

(** Only a dict holding the key has an item under it. *)
Lemma getitem_returned parsed key v :
  py_getitem parsed key = Returned v ->
  exists items, parsed = PyDict items /\ dict_lookup key items = Some v.
Proof.
  destruct parsed as [| | | | | | items]; cbn [py_getitem]; try discriminate.
  destruct (dict_lookup key items) as [w |] eqn:Hk; [| discriminate].
  intros Heq. apply Returned_inj in Heq. subst w. exists items. split; [reflexivity | exact Hk].
Qed.

(** What a returned payload tells: the timestamp was an integer, the
    signature verified, the body parsed to a dict, and the fields are its
    items under the three keys and the [delivery_id] argument. *)
Lemma verify_and_parse_returned did stamp st payload :
  fst (verify_and_parse self signature stamp body did st) = Returned payload ->
  exists ts items,
    coerce_timestamp stamp = Returned ts /\
    fst (verify_signature self signature ts body st) = Returned true /\
    json_loads body = Returned (PyDict items) /\
    dict_lookup "event" items = Some (event payload) /\
    dict_lookup "timestamp" items = Some (timestamp payload) /\
    dict_lookup "data" items = Some (data payload) /\
    delivery_id payload = did.
Proof.
  destruct (coerce_timestamp stamp) as [ts | e] eqn:Hts;
    [| rewrite (verify_and_parse_bad_timestamp _ _ _ _ Hts); discriminate].
  destruct (verify_signature self signature ts body st) as [[[] | e] st1] eqn:Hver;
    [| rewrite (verify_and_parse_rejected _ _ _ _ _ Hts Hver); discriminate
     | rewrite (verify_and_parse_raised _ _ _ _ _ _ Hts Hver); discriminate].
  rewrite (verify_and_parse_verified _ _ _ _ _ Hts Hver). cbv zeta.
  destruct (json_loads body) as [parsed | []]; try discriminate.
  destruct (py_contains "event" parsed) as [[] |]; try discriminate.
  destruct (py_contains "timestamp" parsed) as [[] |]; try discriminate.
  destruct (py_contains "data" parsed) as [[] |]; try discriminate.
  destruct (py_getitem parsed "event") as [ev |] eqn:Hev; [| discriminate].
  destruct (py_getitem parsed "timestamp") as [tm |] eqn:Htm; [| discriminate].
  destruct (py_getitem parsed "data") as [dt |] eqn:Hdt; [| discriminate].
  cbn [fst]. intros Heq. apply Returned_inj in Heq. subst payload.
  apply getitem_returned in Hev as (items & -> & Hev).
  apply getitem_returned in Htm as (items' & Heq & Htm).
  injection Heq as <-.
  apply getitem_returned in Hdt as (items' & Heq & Hdt).
  injection Heq as <-.
  exists ts, items. cbn [event timestamp data delivery_id]. rewrite Hver.
  repeat (split; [first [reflexivity | assumption] |]). reflexivity.
Qed.

(** A verified body that parses to a dict with the three keys. *)
Lemma verify_and_parse_accepts did timestamp ts st st1 items ev tm dt :
  coerce_timestamp timestamp = Returned ts ->
  verify_signature self signature ts body st = (Returned true, st1) ->
  json_loads body = Returned (PyDict items) ->
  dict_lookup "event" items = Some ev ->
  dict_lookup "timestamp" items = Some tm ->
  dict_lookup "data" items = Some dt ->
  verify_and_parse self signature timestamp body did st =
    (Returned {| event := ev; timestamp := tm; data := dt; delivery_id := did |},
     State (time_source st1) (reads st1) (JsonLoads body :: trace st1)).
Proof.
  intros Hts Hver Hjson Hev Htm Hdt.
  rewrite (verify_and_parse_verified _ _ _ _ _ Hts Hver), Hjson. cbv zeta.
  rewrite !dict_contains_present by congruence.
  rewrite (dict_getitem _ _ _ Hev), (dict_getitem _ _ _ Htm), (dict_getitem _ _ _ Hdt).
  reflexivity.
Qed.

(** [verify_and_parse] returns a payload only if [verify_signature]
    returned [True] on the same signature, timestamp and body; when it
    returned [False], [verify_and_parse] raises ["Invalid webhook
    signature"] and no [json.loads] has been called; a body that is not
    JSON under a signature that verifies raises the error carrying the
    parser's message, which is not the signature error.  A verification
    that fails by raising is not covered here: [verify_signature] raises
    for a signature value with a non-ASCII character. *)
Lemma verify_and_parse_only_after_verification did timestamp st :
  (forall payload,
      fst (verify_and_parse self signature timestamp body did st) = Returned payload ->
      exists ts, coerce_timestamp timestamp = Returned ts /\
                 fst (verify_signature self signature ts body st) = Returned true) /\
  (forall ts,
      coerce_timestamp timestamp = Returned ts ->
      fst (verify_signature self signature ts body st) = Returned false ->
      verify_and_parse self signature timestamp body did st =
        (Raised (ValueError "Invalid webhook signature"),
         snd (verify_signature self signature ts body st)) /\
      parsed_json (trace (snd (verify_and_parse self signature timestamp body did st))) =
        parsed_json (trace st)) /\
  (forall ts msg,
      coerce_timestamp timestamp = Returned ts ->
      fst (verify_signature self signature ts body st) = Returned true ->
      json_loads body = Raised (JSONDecodeError msg) ->
      fst (verify_and_parse self signature timestamp body did st) =
        Raised (ValueError ("Invalid JSON payload: " +:+ msg)) /\
      ValueError ("Invalid JSON payload: " +:+ msg) <> ValueError "Invalid webhook signature").
Proof.
  split; [| split].
  - intros payload Hret.
    apply verify_and_parse_returned in Hret as (ts & items & Hts & Hver & _).
    exists ts. split; assumption.
  - intros ts Hts Hver.
    destruct (verify_signature self signature ts body st) as [r st1] eqn:Hrun.
    cbn [fst] in Hver. subst r.
    rewrite (verify_and_parse_rejected _ _ _ _ _ Hts Hrun). cbn [snd].
    split; [reflexivity |].
    pose proof (verify_signature_effects self signature ts body st) as Heff.
    rewrite Hrun in Heff. cbn [snd] in Heff. apply Heff.
  - intros ts msg Hts Hver Hjson.
    destruct (verify_signature self signature ts body st) as [r st1] eqn:Hrun.
    cbn [fst] in Hver. subst r.
    rewrite (verify_and_parse_verified _ _ _ _ _ Hts Hrun), Hjson.
    split; [reflexivity |]. intros Heq. discriminate Heq.
Qed.

(** C5. For a verified body that parses to a JSON object lacking one of
    the keys [event], [timestamp], [data], [verify_and_parse] raises the
    error naming the first of them, in that order, that is absent. *)
Theorem verify_and_parse_missing_field did timestamp st ts items :
  coerce_timestamp timestamp = Returned ts ->
  fst (verify_signature self signature ts body st) = Returned true ->
  json_loads body = Returned (PyDict items) ->
  let result := fst (verify_and_parse self signature timestamp body did st) in
  (dict_lookup "event" items = None ->
   result = Raised (ValueError "Missing 'event' field in payload")) /\
  (dict_lookup "event" items <> None ->
   dict_lookup "timestamp" items = None ->
   result = Raised (ValueError "Missing 'timestamp' field in payload")) /\
  (dict_lookup "event" items <> None ->
   dict_lookup "timestamp" items <> None ->
   dict_lookup "data" items = None ->
   result = Raised (ValueError "Missing 'data' field in payload")).
Proof.
  intros Hts Hver Hjson result. subst result.
  destruct (verify_signature self signature ts body st) as [r st1] eqn:Hrun.
  cbn [fst] in Hver. subst r.
  rewrite (verify_and_parse_verified _ _ _ _ _ Hts Hrun), Hjson. cbv zeta.
  split; [| split].
  - intros Hev. rewrite (dict_contains_absent _ _ Hev). reflexivity.
  - intros Hev Htm.
    rewrite (dict_contains_present _ _ Hev), (dict_contains_absent _ _ Htm). reflexivity.
  - intros Hev Htm Hdt.
    rewrite (dict_contains_present _ _ Hev), (dict_contains_present _ _ Htm),
      (dict_contains_absent _ _ Hdt).
    reflexivity.
Qed.

(** C7. The payload [verify_and_parse] returns has the [event],
    [timestamp] and [data] of the parsed body's top-level keys, and the
    [delivery_id] the caller gave (the empty string when none was given),
    whatever the body holds. *)
Theorem verify_and_parse_payload_fields did stamp st payload :
  (fst (verify_and_parse self signature stamp body did st) = Returned payload ->
   delivery_id payload = did /\
   exists items,
     json_loads body = Returned (PyDict items) /\
     dict_lookup "event" items = Some (event payload) /\
     dict_lookup "timestamp" items = Some (timestamp payload) /\
     dict_lookup "data" items = Some (data payload)) /\
  (fst (verify_and_parse_default self signature stamp body st) = Returned payload ->
   delivery_id payload = ""%string).
Proof.
  split.
  - intros Hret.
    apply verify_and_parse_returned in Hret
      as (ts & items & _ & _ & Hjson & Hev & Htm & Hdt & Hdid).
    split; [exact Hdid |]. exists items. repeat (split; [assumption |]). assumption.
  - unfold verify_and_parse_default. intros Hret.
    apply verify_and_parse_returned in Hret as (_ & _ & _ & _ & _ & _ & _ & _ & Hdid).
    exact Hdid.
Qed.

(** C8. The [event] of the body is not checked against [WebhookEvent]:
    whatever string it is, a verified body that parses to an object with
    the three keys is accepted, and the payload holds the string as it is. *)
Theorem verify_and_parse_any_event did timestamp st ts items name tm dt :
  coerce_timestamp timestamp = Returned ts ->
  fst (verify_signature self signature ts body st) = Returned true ->
  json_loads body = Returned (PyDict items) ->
  dict_lookup "event" items = Some (PyStr name) ->
  dict_lookup "timestamp" items = Some tm ->
  dict_lookup "data" items = Some dt ->
  fst (verify_and_parse self signature timestamp body did st) =
    Returned {| event := PyStr name; timestamp := tm; data := dt; delivery_id := did |}.
Proof.
  intros Hts Hver Hjson Hev Htm Hdt.
  destruct (verify_signature self signature ts body st) as [r st1] eqn:Hrun.
  cbn [fst] in Hver. subst r.
  rewrite (verify_and_parse_accepts _ _ _ _ _ _ _ _ _ Hts Hrun Hjson Hev Htm Hdt).
  reflexivity.
Qed.

(** C9. A [str] timestamp that [int] does not accept makes
    [verify_and_parse] raise the exception of [int] itself, in the state in
    which it was called: the clock has not been read, no digest has been
    computed or compared, and the body has not been parsed. *)
Theorem verify_and_parse_timestamp_not_int did text e st :
  builtin_int text = Raised e ->
  verify_and_parse self signature (OfStr text) body did st = (Raised e, st).
Proof. intros Hint. apply verify_and_parse_bad_timestamp. exact Hint. Qed.

End VerifyAndParse.

(** ** [extract_headers] *)

Section ExtractHeaders.

Context `{PyRuntime}.

Lemma fold_headers_other name headers (m : gmap string string) :
  header_absent name headers ->
  fold_left insert_header headers m !! name = m !! name.
Proof.
  intros Habs. revert m.
  induction Habs as [| kv headers Hkv _ IH]; intros m; [reflexivity |].
  cbn [fold_left]. rewrite IH. unfold insert_header.
  apply lookup_insert_ne. exact Hkv.
Qed.

Lemma fold_headers_none name headers (m : gmap string string) :
  fold_left insert_header headers m !! name = None ->
  header_absent name headers /\ m !! name = None.
Proof.
  revert m. induction headers as [| kv headers IH]; intros m Hnone.
  - split; [constructor | exact Hnone].
  - cbn [fold_left] in Hnone. apply IH in Hnone as [Habs Hins].
    unfold insert_header in Hins. apply lookup_insert_None in Hins as [Hm Hne].
    split; [constructor; assumption | exact Hm].
Qed.

(** A name is absent from the normalized dict exactly when no header
    lower-cases to it. *)
Lemma normalize_lookup_none name headers :
  normalize headers !! name = None <-> header_absent name headers.
Proof.
  unfold normalize. split.
  - intros Hnone. apply fold_headers_none in Hnone as [Habs _]. exact Habs.
  - intros Habs. rewrite fold_headers_other by exact Habs. apply lookup_empty.
Qed.

(** The last header whose name lower-cases to [name] gives its value. *)
Lemma normalize_lookup_last name before key value later :
  str_lower key = name -> header_absent name later ->
  normalize (before ++ (key, value) :: later) !! name = Some value.
Proof.
  intros Hkey Habs. unfold normalize.
  rewrite fold_left_app. cbn [fold_left].
  rewrite fold_headers_other by exact Habs.
  unfold insert_header. cbn [fst snd]. rewrite Hkey. apply lookup_insert_eq.
Qed.

Lemma normalize_same_up_to_case headers headers' :
  same_up_to_case headers headers' -> normalize headers = normalize headers'.
Proof.
  unfold normalize. generalize (∅ : gmap string string).
  intros m Hsame. revert m.
  induction Hsame as [| kv kv' headers headers' [Hname Hvalue] _ IH]; intros m;
    [reflexivity |].
  cbn [fold_left]. unfold insert_header at 2 4. rewrite Hname, Hvalue. apply IH.
Qed.

Lemma truthy_some x s : truthy x = Some s <-> x = Some s /\ s <> ""%string.
Proof.
  destruct x as [t |]; cbn [truthy].
  - destruct (String.eqb_spec t "") as [-> | Hne].
    + split; [discriminate | intros [Heq Hs]; congruence].
    + split; [intros Heq; split; congruence | intros [Heq Hs]; congruence].
  - split; [discriminate | intros [Heq _]; discriminate Heq].
Qed.

Lemma truthy_none x : truthy x = None <-> x = None \/ x = Some ""%string.
Proof.
  destruct x as [t |]; cbn [truthy].
  - destruct (String.eqb_spec t "") as [-> | Hne].
    + split; [right; reflexivity | reflexivity].
    + split; [discriminate | intros [Heq | Heq]; congruence].
  - split; [left; reflexivity | reflexivity].
Qed.

(** [event or ""] is the value of the header when there is one. *)
Lemma truthy_default x : default ""%string (truthy x) = default ""%string x.
Proof.
  destruct x as [t |]; cbn [truthy]; [| reflexivity].
  destruct (String.eqb_spec t "") as [-> | _]; reflexivity.
Qed.

(** The signature is looked at first. *)
Lemma extract_headers_no_signature headers :
  truthy (normalize headers !! "x-webhook-signature"%string) = None ->
  extract_headers headers = Raised (ValueError "Missing X-Webhook-Signature header").
Proof. intros Hsig. unfold extract_headers. rewrite Hsig. reflexivity. Qed.

Lemma extract_headers_no_timestamp headers s :
  truthy (normalize headers !! "x-webhook-signature"%string) = Some s ->
  truthy (normalize headers !! "x-webhook-timestamp"%string) = None ->
  extract_headers headers = Raised (ValueError "Missing X-Webhook-Timestamp header").
Proof. intros Hsig Hts. unfold extract_headers. rewrite Hsig, Hts. reflexivity. Qed.

Lemma extract_headers_returned headers s t e d :
  extract_headers headers = Returned (s, t, e, d) <->
  truthy (normalize headers !! "x-webhook-signature"%string) = Some s /\
  truthy (normalize headers !! "x-webhook-timestamp"%string) = Some t /\
  e = default ""%string (normalize headers !! "x-webhook-event"%string) /\
  d = default ""%string (normalize headers !! "x-webhook-delivery-id"%string).
Proof.
  unfold extract_headers. rewrite truthy_default.
  destruct (truthy (normalize headers !! "x-webhook-signature"%string)) as [s' |].
  2:{ split; [discriminate | intros [Heq _]; discriminate Heq]. }
  destruct (truthy (normalize headers !! "x-webhook-timestamp"%string)) as [t' |].
  2:{ split; [discriminate | intros (_ & Heq & _); discriminate Heq]. }
  split.
  - intros Heq. apply Returned_inj in Heq. injection Heq as -> -> <- <-.
    repeat split; reflexivity.
  - intros (Hs & Ht & -> & ->). congruence.
Qed.

(** C6. Headers are looked up by lower-cased name, so two header maps that
    differ only in the case of their names give the same result; without
    [x-webhook-signature] the error names the signature header, whatever
    else is there; with it and without [x-webhook-timestamp] the error names
    the timestamp header; and on success the signature and timestamp are the
    values of their headers while the event and the delivery id are the
    values of theirs, the empty string when absent. *)
Theorem extract_headers_case_and_required :
  (forall headers headers',
      same_up_to_case headers headers' ->
      extract_headers headers = extract_headers headers') /\
  (forall headers,
      header_absent "x-webhook-signature" headers ->
      extract_headers headers = Raised (ValueError "Missing X-Webhook-Signature header")) /\
  (forall headers s,
      normalize headers !! "x-webhook-signature"%string = Some s -> s <> ""%string ->
      header_absent "x-webhook-timestamp" headers ->
      extract_headers headers = Raised (ValueError "Missing X-Webhook-Timestamp header")) /\
  (forall headers s t e d,
      extract_headers headers = Returned (s, t, e, d) ->
      normalize headers !! "x-webhook-signature"%string = Some s /\
      normalize headers !! "x-webhook-timestamp"%string = Some t /\
      e = default ""%string (normalize headers !! "x-webhook-event"%string) /\
      d = default ""%string (normalize headers !! "x-webhook-delivery-id"%string) /\
      (header_absent "x-webhook-event" headers -> e = ""%string) /\
      (header_absent "x-webhook-delivery-id" headers -> d = ""%string)).
Proof.
  split; [| split; [| split]].
  - intros headers headers' Hsame. unfold extract_headers.
    rewrite (normalize_same_up_to_case _ _ Hsame). reflexivity.
  - intros headers Habs. apply extract_headers_no_signature.
    apply truthy_none. left. apply normalize_lookup_none. exact Habs.
  - intros headers s Hsig Hs Habs. apply (extract_headers_no_timestamp headers s).
    + apply truthy_some. split; assumption.
    + apply truthy_none. left. apply normalize_lookup_none. exact Habs.
  - intros headers s t e d Hret.
    apply extract_headers_returned in Hret as (Hs & Ht & He & Hd).
    apply truthy_some in Hs as [Hs _]. apply truthy_some in Ht as [Ht _].
    split; [exact Hs |]. split; [exact Ht |]. split; [exact He |]. split; [exact Hd |].
    split; intros Habs; apply normalize_lookup_none in Habs.
    + rewrite He, Habs. reflexivity.
    + rewrite Hd, Habs. reflexivity.
Qed.

(** C10. A required header that is present with the empty string as its
    value is reported like an absent one: the signature header first, and
    the timestamp header when the signature is there and not empty. *)
Theorem extract_headers_empty_value_is_missing :
  (forall headers,
      normalize headers !! "x-webhook-signature"%string = Some ""%string ->
      extract_headers headers = Raised (ValueError "Missing X-Webhook-Signature header")) /\
  (forall headers s,
      normalize headers !! "x-webhook-signature"%string = Some s -> s <> ""%string ->
      normalize headers !! "x-webhook-timestamp"%string = Some ""%string ->
      extract_headers headers = Raised (ValueError "Missing X-Webhook-Timestamp header")) /\
  (forall before key later,
      str_lower key = "x-webhook-signature"%string ->
      header_absent "x-webhook-signature" later ->
      extract_headers (before ++ (key, ""%string) :: later) =
        Raised (ValueError "Missing X-Webhook-Signature header")).
Proof.
  split; [| split].
  - intros headers Hsig. apply extract_headers_no_signature.
    apply truthy_none. right. exact Hsig.
  - intros headers s Hsig Hs Hts. apply (extract_headers_no_timestamp headers s).
    + apply truthy_some. split; assumption.
    + apply truthy_none. right. exact Hts.
  - intros before key later Hkey Habs. apply extract_headers_no_signature.
    apply truthy_none. right. apply normalize_lookup_last; assumption.
Qed.

End ExtractHeaders.

(** ** The theorems at the inputs of the test-suite

    Each statement below is an instance of the theorem it is named after, at
    the verifier of the tests and on the runtime [cpython_ascii]; the
    hypotheses of the theorem are computed. *)

Lemma verify_signature_single_comparison_witness :
  let wrong_at_start := "432dfe6b19b02c3328538dc8d5c001f158cac16477bb7bb3c779aaf2bc12b3b5"%string in
  let wrong_at_end := "sha256=332dfe6b19b02c3328538dc8d5c001f158cac16477bb7bb3c779aaf2bc12b3b6"%string in
  let run s := verify_signature test_verifier s test_time test_body (world_at test_time) in
  fst (run wrong_at_start) = Returned false /\
  fst (run wrong_at_end) = Returned false /\
  comparison_iterations (trace (snd (run wrong_at_start))) = [64%nat] /\
  comparison_iterations (trace (snd (run wrong_at_start))) =
    comparison_iterations (trace (snd (run wrong_at_end))).
Proof.
  intros wrong_at_start wrong_at_end run.
  assert (Hage : age (world_at test_time) test_time <= max_age_seconds test_verifier)
    by (vm_compute; discriminate).
  assert (Hstart : PyStr.isascii (sig_value wrong_at_start) = true)
    by (vm_compute; reflexivity).
  assert (Hend : PyStr.isascii (sig_value wrong_at_end) = true)
    by (vm_compute; reflexivity).
  assert (Hlen : String.length (sig_value wrong_at_start) = String.length (sig_value wrong_at_end))
    by (vm_compute; reflexivity).
  destruct (verify_signature_single_comparison test_verifier test_time test_body
              (world_at test_time) wrong_at_start wrong_at_end Hage Hstart Hend Hlen)
    as (_ & _ & Hsame).
  split; [vm_compute; reflexivity |]. split; [vm_compute; reflexivity |].
  split; [vm_compute; reflexivity |]. exact Hsame.
Defined.

Lemma verify_and_parse_only_after_verification_witness :
  fst (@verify_and_parse cpython_ascii test_verifier "sha256=invalid" (OfStr "1705312800")
         test_body "" (world_at test_time)) =
    Raised (ValueError "Invalid webhook signature") /\
  fst (@verify_and_parse cpython_ascii test_verifier
         (create_signature "test-secret-123" test_time "not valid json")
         (OfStr "1705312800") "not valid json" "" (world_at test_time)) =
    Raised (ValueError "Invalid JSON payload: Expecting value: line 1 column 1 (char 0)").
Proof.
  split.
  - destruct (@verify_and_parse_only_after_verification cpython_ascii test_verifier
                "sha256=invalid" test_body "" (OfStr "1705312800") (world_at test_time))
      as (_ & Hrejected & _).
    destruct (Hrejected test_time) as [Heq _];
      [vm_compute; reflexivity | vm_compute; reflexivity |].
    rewrite Heq. reflexivity.
  - destruct (@verify_and_parse_only_after_verification cpython_ascii test_verifier
                (create_signature "test-secret-123" test_time "not valid json")
                "not valid json" "" (OfStr "1705312800") (world_at test_time))
      as (_ & _ & Hnot_json).
    destruct (Hnot_json test_time "Expecting value: line 1 column 1 (char 0)"%string)
      as [Heq _];
      [vm_compute; reflexivity | vm_compute; reflexivity | vm_compute; reflexivity |].
    exact Heq.
Defined.

(** C3. A failed verification is not always answered with ["Invalid
    webhook signature"].  At the verifier, the time and the body of the
    tests, the signature [non_ascii_signature], which is not the expected
    one, makes [verify_signature] raise the [TypeError] of
    [hmac.compare_digest] in place of returning [False]; [verify_and_parse]
    has no handler for it, so the [TypeError] leaves it, where the wrong
    signature [sha256=invalid] gets the [ValueError] the docstring promises
    for an invalid signature.  The body is not parsed in either case. *)
Theorem verify_and_parse_invalid_signature_type_error :
  let run signature :=
    @verify_and_parse cpython_ascii test_verifier signature (OfStr "1705312800") test_body ""
      (world_at test_time) in
  let type_error :=
    TypeError "comparing strings with non-ASCII characters is not supported" in
  sig_value non_ascii_signature <> expected_digest test_verifier test_time test_body /\
  fst (verify_signature test_verifier non_ascii_signature test_time test_body
         (world_at test_time)) = Raised type_error /\
  fst (run non_ascii_signature) = Raised type_error /\
  fst (run non_ascii_signature) <> Raised (ValueError "Invalid webhook signature") /\
  fst (run "sha256=invalid") = Raised (ValueError "Invalid webhook signature") /\
  json_loads_calls (trace (snd (run non_ascii_signature))) = 0%nat /\
  json_loads_calls (trace (snd (run "sha256=invalid"))) = 0%nat.
Proof.
  cbv zeta.
  split; [vm_compute; intros Heq; discriminate Heq |].
  split; [vm_compute; reflexivity |].
  split; [vm_compute; reflexivity |].
  split; [vm_compute; intros Heq; discriminate Heq |].
  split; [vm_compute; reflexivity |].
  split; vm_compute; reflexivity.
Qed.

Lemma verify_and_parse_missing_field_witness :
  let run body :=
    fst (@verify_and_parse cpython_ascii test_verifier
           (create_signature "test-secret-123" test_time body) (OfInt test_time) body ""
           (world_at test_time)) in
  run body_without_event = Raised (ValueError "Missing 'event' field in payload") /\
  run body_without_timestamp = Raised (ValueError "Missing 'timestamp' field in payload") /\
  run body_without_data = Raised (ValueError "Missing 'data' field in payload").
Proof.
  intros run. unfold run. split; [| split].
  - destruct (@verify_and_parse_missing_field cpython_ascii test_verifier
                (create_signature "test-secret-123" test_time body_without_event)
                body_without_event "" (OfInt test_time) (world_at test_time) test_time
                [("timestamp", PyStr "t"); ("data", PyDict [])]%string)
      as (Hevent & _ & _);
      [reflexivity | vm_compute; reflexivity | vm_compute; reflexivity |].
    apply Hevent. reflexivity.
  - destruct (@verify_and_parse_missing_field cpython_ascii test_verifier
                (create_signature "test-secret-123" test_time body_without_timestamp)
                body_without_timestamp "" (OfInt test_time) (world_at test_time) test_time
                [("event", PyStr "test"); ("data", PyDict [])]%string)
      as (_ & Htimestamp & _);
      [reflexivity | vm_compute; reflexivity | vm_compute; reflexivity |].
    apply Htimestamp; [discriminate | reflexivity].
  - destruct (@verify_and_parse_missing_field cpython_ascii test_verifier
                (create_signature "test-secret-123" test_time body_without_data)
                body_without_data "" (OfInt test_time) (world_at test_time) test_time
                [("event", PyStr "test"); ("timestamp", PyStr "t")]%string)
      as (_ & _ & Hdata);
      [reflexivity | vm_compute; reflexivity | vm_compute; reflexivity |].
    apply Hdata; [discriminate | discriminate | reflexivity].
Defined.

Lemma verify_and_parse_payload_fields_witness :
  let payload := {| event := PyStr "contact.created";
                    timestamp := PyStr "2024-01-15T10:00:00Z";
                    data := PyDict [("contactId", PyStr "abc123");
                                    ("emailHash", PyStr "sha1hash")]%string;
                    delivery_id := "delivery-123" |} in
  fst (@verify_and_parse cpython_ascii test_verifier
         ("sha256=" +:+ create_signature "test-secret-123" test_time test_body_with_data)
         (OfStr "1705312800") test_body_with_data "delivery-123" (world_at test_time)) =
    Returned payload /\
  delivery_id payload = "delivery-123"%string /\
  contact_id payload = Returned (PyStr "abc123") /\
  email_hash payload = Returned (PyStr "sha1hash").
Proof.
  intros payload.
  assert (Hret : fst (@verify_and_parse cpython_ascii test_verifier
                        ("sha256=" +:+ create_signature "test-secret-123" test_time
                                         test_body_with_data)
                        (OfStr "1705312800") test_body_with_data "delivery-123"
                        (world_at test_time)) = Returned payload)
    by (vm_compute; reflexivity).
  split; [exact Hret |].
  destruct (@verify_and_parse_payload_fields cpython_ascii test_verifier
              ("sha256=" +:+ create_signature "test-secret-123" test_time test_body_with_data)
              test_body_with_data "delivery-123" (OfStr "1705312800") (world_at test_time)
              payload) as [Hfields _].
  destruct (Hfields Hret) as [Hdid _].
  split; [exact Hdid |]. split; reflexivity.
Defined.

Lemma verify_and_parse_any_event_witness :
  ~ In "order.shipped"%string WebhookEvent /\
  fst (@verify_and_parse cpython_ascii test_verifier
         (create_signature "test-secret-123" test_time body_with_unknown_event)
         (OfInt test_time) body_with_unknown_event "" (world_at test_time)) =
    Returned {| event := PyStr "order.shipped"; timestamp := PyStr "t";
                data := PyDict []; delivery_id := "" |}.
Proof.
  split.
  - cbn [In WebhookEvent]. intros Hin.
    repeat (destruct Hin as [Hin | Hin]; [discriminate Hin |]). exact Hin.
  - apply (@verify_and_parse_any_event cpython_ascii test_verifier
             (create_signature "test-secret-123" test_time body_with_unknown_event)
             body_with_unknown_event "" (OfInt test_time) (world_at test_time) test_time
             [("event", PyStr "order.shipped"); ("timestamp", PyStr "t");
              ("data", PyDict [])]%string);
      [reflexivity | vm_compute; reflexivity | vm_compute; reflexivity
       | reflexivity | reflexivity | reflexivity].
Defined.

Lemma verify_and_parse_timestamp_not_int_witness :
  @verify_and_parse cpython_ascii test_verifier "sha256=abc123" (OfStr "soon") test_body ""
    (world_at test_time) =
    (Raised (ValueError "invalid literal for int() with base 10: 'soon'"), world_at test_time).
Proof.
  apply (@verify_and_parse_timestamp_not_int cpython_ascii test_verifier "sha256=abc123"
           test_body "" "soon"). vm_compute. reflexivity.
Defined.

Lemma extract_headers_case_and_required_witness :
  @extract_headers cpython_ascii test_headers = @extract_headers cpython_ascii test_headers_lower /\
  @extract_headers cpython_ascii headers_without_signature =
    Raised (ValueError "Missing X-Webhook-Signature header") /\
  @extract_headers cpython_ascii headers_without_timestamp =
    Raised (ValueError "Missing X-Webhook-Timestamp header") /\
  @extract_headers cpython_ascii headers_required_only =
    Returned ("sha256=abc123", "1705312800", "", "")%string.
Proof.
  destruct (@extract_headers_case_and_required cpython_ascii)
    as (Hcase & Hsignature & Htimestamp & Hoptional).
  split; [| split; [| split]].
  - apply Hcase. unfold same_up_to_case, test_headers, test_headers_lower.
    repeat (constructor; [split; vm_compute; reflexivity |]). constructor.
  - apply Hsignature. unfold header_absent, headers_without_signature.
    repeat (constructor; [intros Heq; vm_compute in Heq; discriminate Heq |]). constructor.
  - apply (Htimestamp headers_without_timestamp "sha256=abc123"%string);
      [vm_compute; reflexivity | discriminate |].
    unfold header_absent, headers_without_timestamp.
    repeat (constructor; [intros Heq; vm_compute in Heq; discriminate Heq |]). constructor.
  - assert (Hret : @extract_headers cpython_ascii headers_required_only =
                   Returned ("sha256=abc123", "1705312800", "", "")%string)
      by (vm_compute; reflexivity).
    pose proof (Hoptional _ _ _ _ _ Hret) as _. exact Hret.
Defined.

Lemma extract_headers_empty_value_is_missing_witness :
  @extract_headers cpython_ascii headers_empty_signature =
    Raised (ValueError "Missing X-Webhook-Signature header") /\
  @extract_headers cpython_ascii headers_empty_timestamp =
    Raised (ValueError "Missing X-Webhook-Timestamp header").
Proof.
  destruct (@extract_headers_empty_value_is_missing cpython_ascii)
    as (Hsignature & Htimestamp & _).
  split.
  - apply Hsignature. vm_compute. reflexivity.
  - apply (Htimestamp headers_empty_timestamp "sha256=abc123"%string);
      [vm_compute; reflexivity | discriminate | vm_compute; reflexivity].
Defined.

(** ** Further behaviour of the operations *)

Lemma lower_upper_char c : PyStr.lower_char (PyStr.upper_char c) = PyStr.lower_char c.
Proof. destruct c as [[] [] [] [] [] [] [] []]; reflexivity. Qed.

Lemma lower_upper_ascii s : PyStr.lower_ascii (PyStr.upper_ascii s) = PyStr.lower_ascii s.
Proof.
  induction s as [| c s IH]; [reflexivity |].
  cbn [PyStr.upper_ascii PyStr.lower_ascii]. rewrite lower_upper_char, IH. reflexivity.
Qed.

(** On ASCII names, writing every header name in capitals changes nothing. *)
Lemma extract_headers_upper_case headers :
  @extract_headers cpython_ascii
    (List.map (fun kv => (PyStr.upper_ascii (fst kv), snd kv)) headers) =
  @extract_headers cpython_ascii headers.
Proof.
  unfold extract_headers.
  rewrite (@normalize_same_up_to_case cpython_ascii _ headers); [reflexivity |].
  unfold same_up_to_case.
  induction headers as [| kv headers IH]; constructor; [| exact IH].
  cbn [fst snd str_lower cpython_ascii]. split; [apply lower_upper_ascii | reflexivity].
Qed.

(** X7. A signature value with a non-ASCII character, inside the window,
    is neither accepted nor answered with ["Invalid webhook signature"]: the
    [TypeError] of [hmac.compare_digest] leaves both operations. *)
Lemma verify_and_parse_non_ascii_signature `{PyRuntime} self signature timestamp ts body did st :
  coerce_timestamp timestamp = Returned ts ->
  age st ts <= max_age_seconds self ->
  PyStr.isascii (sig_value signature) = false ->
  fst (verify_signature self signature ts body st) =
    Raised (TypeError "comparing strings with non-ASCII characters is not supported") /\
  fst (verify_and_parse self signature timestamp body did st) =
    Raised (TypeError "comparing strings with non-ASCII characters is not supported").
Proof.
  intros Hts Hage Hascii.
  pose proof (verify_signature_non_ascii self signature ts body st Hage Hascii) as Hrun.
  rewrite (verify_and_parse_raised self signature body did timestamp ts _ _ _ Hts Hrun), Hrun.
  split; reflexivity.
Qed.

(** ** The test-suite and the scenarios of the specification, computed *)

Example test_create_signature :
  create_signature "test-secret-123" test_time test_body = test_digest.
Proof. vm_compute. reflexivity. Qed.

Example test_verify_valid_signature :
  fst (verify_signature test_verifier
         ("sha256=" +:+ create_signature "test-secret-123" test_time test_body)
         test_time test_body (world_at test_time)) = Returned true.
Proof. vm_compute. reflexivity. Qed.

Example test_verify_invalid_signature :
  fst (verify_signature test_verifier "sha256=invalid" test_time test_body
         (world_at test_time)) = Returned false.
Proof. vm_compute. reflexivity. Qed.

Example test_verify_expired_timestamp :
  let timestamp := test_time - 600 in
  fst (verify_signature {| secret := "test-secret-123"; max_age_seconds := 300 |}
         ("sha256=" +:+ create_signature "test-secret-123" timestamp test_body)
         timestamp test_body (world_at test_time)) = Returned false.
Proof. vm_compute. reflexivity. Qed.

Example test_verify_and_parse_invalid_signature :
  fst (@verify_and_parse_default cpython_ascii test_verifier "sha256=invalid"
         (OfStr "1705312800") test_body (world_at test_time)) =
    Raised (ValueError "Invalid webhook signature").
Proof. vm_compute. reflexivity. Qed.

Example test_verify_and_parse_invalid_json :
  fst (@verify_and_parse_default cpython_ascii test_verifier
         ("sha256=" +:+ create_signature "test-secret-123" test_time "not valid json")
         (OfStr "1705312800") "not valid json" (world_at test_time)) =
    Raised (ValueError "Invalid JSON payload: Expecting value: line 1 column 1 (char 0)").
Proof. vm_compute. reflexivity. Qed.

Example test_extract_headers :
  @extract_headers cpython_ascii test_headers =
    Returned ("sha256=abc123", "1705312800", "contact.created", "delivery-123")%string.
Proof. vm_compute. reflexivity. Qed.

Example test_extract_headers_missing_signature :
  @extract_headers cpython_ascii headers_without_signature =
    Raised (ValueError "Missing X-Webhook-Signature header").
Proof. vm_compute. reflexivity. Qed.

(** The delivery id is the argument, also when the body has keys of that name. *)
Example body_delivery_id_ignored :
  fst (@verify_and_parse cpython_ascii test_verifier
         (create_signature "test-secret-123" test_time body_with_delivery_id)
         (OfInt test_time) body_with_delivery_id "delivery-123" (world_at test_time)) =
    Returned {| event := PyStr "test"; timestamp := PyStr "t"; data := PyDict [];
                delivery_id := "delivery-123" |}.
Proof. vm_compute. reflexivity. Qed.

(** Verified bodies that are JSON but not objects: a list has no keys, so
    [event] is reported missing; [null] is not a container at all. *)
Example body_is_a_list :
  fst (@verify_and_parse cpython_ascii test_verifier
         (create_signature "test-secret-123" test_time "[]") (OfInt test_time) "[]" ""
         (world_at test_time)) =
    Raised (ValueError "Missing 'event' field in payload").
Proof. vm_compute. reflexivity. Qed.

Example body_is_null :
  fst (@verify_and_parse cpython_ascii test_verifier
         (create_signature "test-secret-123" test_time "null") (OfInt test_time) "null" ""
         (world_at test_time)) =
    Raised (TypeError "argument of type 'NoneType' is not iterable").
Proof. vm_compute. reflexivity. Qed.

(** The decoder on malformed text: the messages of [json.loads]. *)
Example json_loads_errors :
  Json.loads "" = Raised (JSONDecodeError "Expecting value: line 1 column 1 (char 0)") /\
  Json.loads "[1,]" = Raised (JSONDecodeError "Expecting value: line 1 column 4 (char 3)") /\
  Json.loads "[1 2]" =
    Raised (JSONDecodeError "Expecting ',' delimiter: line 1 column 4 (char 3)") /\
  Json.loads "{a:1}" =
    Raised (JSONDecodeError
              "Expecting property name enclosed in double quotes: line 1 column 2 (char 1)") /\
  Json.loads ("{" +:+ quoted "a" +:+ " 1}") =
    Raised (JSONDecodeError "Expecting ':' delimiter: line 1 column 6 (char 5)") /\
  Json.loads "01" = Raised (JSONDecodeError "Extra data: line 1 column 2 (char 1)") /\
  Json.loads (String (ascii_of_N 34) "abc") =
    Raised (JSONDecodeError "Unterminated string starting at: line 1 column 1 (char 0)").
Proof. vm_compute. repeat split. Qed.

Example json_loads_values :
  Json.loads ("[1, -2.5e3, true, null, {" +:+ quoted "a" +:+ ":1," +:+ quoted "a" +:+ ":[]}]") =
    Returned (PyList [PyInt 1; PyFloat "-2.5e3"; PyBool true; PyNone;
                      PyDict [("a", PyList [])]%string]).
Proof. vm_compute. reflexivity. Qed.

Example builtin_int_values :
  Builtins.int " -5 " = Returned (-5) /\ Builtins.int "1_000" = Returned 1000 /\
  Builtins.int "1705312800" = Returned 1705312800 /\
  Builtins.int "1.5" = Raised (ValueError "invalid literal for int() with base 10: '1.5'") /\
  Builtins.int "" = Raised (ValueError "invalid literal for int() with base 10: ''").
Proof. vm_compute. repeat split. Qed.

Example json_loads_nested_and_marked :
  Json.loads "[[[1" =
    Raised (JSONDecodeError "Expecting ',' delimiter: line 1 column 5 (char 4)") /\
  Json.loads "[[[" = Raised (JSONDecodeError "Expecting value: line 1 column 4 (char 3)") /\
  Json.loads (string_of_list_ascii Json.bom +:+ "{}") =
    Raised (JSONDecodeError
              "Unexpected UTF-8 BOM (decode using utf-8-sig): line 1 column 1 (char 0)") /\
  Json.loads (many_nines 4300) = Returned (PyInt (10 ^ 4300 - 1)) /\
  Json.loads ("[" +:+ many_nines 4301 +:+ ", x]") = Raised (PyLong.exceeds_limit 4301).
Proof. vm_compute. repeat split. Qed.

Example builtin_int_blanks_limit_and_repr :
  Builtins.int (String (ascii_of_N 31) "1705312800") =
    Raised (ValueError "invalid literal for int() with base 10: '\x1f1705312800'") /\
  Builtins.int (String (ascii_of_N 11) "12 ") = Returned 12 /\
  Builtins.int "it's" =
    Raised (ValueError ("invalid literal for int() with base 10: " +:+ quoted "it's")) /\
  Builtins.int (many_nines 4300) = Returned (10 ^ 4300 - 1) /\
  Builtins.int (many_nines 4301 +:+ "x") = Raised (PyLong.exceeds_limit 4301) /\
  Builtins.int (many_nines 4300 +:+ "x") =
    Raised (ValueError ("invalid literal for int() with base 10: '" +:+ many_nines 199)).
Proof. vm_compute. repeat split. Qed.

(** ** The scanner of [Json.loads] has fuel enough

    Every scanner reads at least one character before it gives a value, so
    the depth of the calls stays below twice the length of the text: the
    answer [Json.too_deep] of a scanner out of fuel is never the result of
    [Json.loads], whatever the text. *)

Lemma skip_ws_length rest pos :
  (List.length (fst (Json.skip_ws rest pos)) <= List.length rest)%nat.
Proof.
  revert pos. induction rest as [| c rest IH]; intros pos; cbn [Json.skip_ws].
  - cbn. lia.
  - destruct (Json.is_ws c); [| cbn; lia].
    specialize (IH (S pos)). cbn [List.length]. lia.
Qed.

Lemma strip_literal_length lit rest r :
  Json.strip_literal lit rest = Some r ->
  (List.length r + List.length lit = List.length rest)%nat.
Proof.
  revert rest. induction lit as [| l lit IH]; intros rest; cbn [Json.strip_literal].
  - intros [= ->]. cbn. lia.
  - destruct rest as [| c rest]; [discriminate |].
    destruct (Ascii.eqb l c); [| discriminate].
    intros Heq. apply IH in Heq. cbn [List.length]. lia.
Qed.

Lemma take_digits_length rest :
  (List.length (fst (Json.take_digits rest)) + List.length (snd (Json.take_digits rest))
   = List.length rest)%nat.
Proof.
  induction rest as [| c rest IH]; cbn [Json.take_digits]; [reflexivity |].
  destruct (Json.is_digit c); [| reflexivity].
  destruct (Json.take_digits rest) as [ds r]. cbn [fst snd List.length] in *. lia.
Qed.

Lemma literal_consumed text value rest pos r :
  text <> EmptyString ->
  Json.literal text value rest pos = Some r -> consumed rest r.
Proof.
  intros Htext. unfold Json.literal.
  destruct (Json.strip_literal _ rest) as [r' |] eqn:Hstrip; [| discriminate].
  intros [= <-]. apply strip_literal_length in Hstrip. cbn [consumed].
  destruct text as [| c text]; [contradiction |]. cbn [list_ascii_of_string List.length] in Hstrip.
  lia.
Qed.

Lemma consumed_weaken {A} rest' rest (r : Json.parsed A) :
  (List.length rest' <= List.length rest)%nat -> consumed rest' r -> consumed rest r.
Proof. destruct r; cbn [consumed]; [lia | trivial | trivial]. Qed.

Ltac split_scan :=
  repeat match goal with
         | |- context [if ?b then _ else _] => destruct b
         | |- context [match ?x with _ => _ end] => destruct x
         end.

Lemma scan_string_consumed n :
  forall rest, (List.length rest <= n)%nat ->
  forall begin acc pos, consumed rest (Json.scan_string begin acc rest pos).
Proof.
  induction n as [| n IH]; intros rest Hlen begin acc pos.
  - destruct rest; [exact I | cbn in Hlen; lia].
  - destruct rest as [| c rest]; [exact I |].
    cbn [List.length] in Hlen.
    cbn [Json.scan_string].
    split_scan; cbn [consumed List.length]; try exact I; try lia;
      (eapply consumed_weaken; [| apply IH]; cbn [List.length] in *; lia).
Qed.

Lemma take_digits_cons c rest :
  Json.is_digit c = true ->
  Json.take_digits (c :: rest) = (c :: fst (Json.take_digits rest), snd (Json.take_digits rest)).
Proof.
  intros Hd. cbn [Json.take_digits]. rewrite Hd.
  destruct (Json.take_digits rest). reflexivity.
Qed.

Ltac number_step :=
  match goal with
  | |- context [Json.take_digits ?x] =>
      let H := fresh "Hlen" in
      pose proof (take_digits_length x) as H;
      destruct (Json.take_digits x) as [? ?]; cbn [fst snd] in H
  | |- context [match (if ?b then _ else _) with _ => _ end] => destruct b eqn:?
  | |- context [match (match ?x with _ => _ end) with _ => _ end] => destruct x eqn:?
  | |- context [if ?b then _ else _] => destruct b eqn:?
  | |- context [match ?x with _ => _ end] => destruct x eqn:?
  end; cbn beta iota.

Lemma scan_number_consumed rest pos r :
  Json.scan_number rest pos = Some r -> consumed rest r.
Proof.
  unfold Json.scan_number.
  assert (Hsign : forall r0 : list ascii,
             (List.length r0 <= List.length rest)%nat ->
             match r0 with
             | c :: r1 =>
                 if Json.is_digit c then
                   let '(int_digits, r2) :=
                     if Json.is_char 48 c then ([c], r1) else Json.take_digits r0 in
                   (List.length r2 < List.length rest)%nat
                 else True
             | [] => True
             end).
  { intros r0 Hle. destruct r0 as [| c r1]; [exact I |].
    destruct (Json.is_digit c) eqn:Hd; [| exact I].
    cbn [List.length] in Hle.
    destruct (Json.is_char 48 c); [lia |].
    rewrite (take_digits_cons c r1 Hd).
    pose proof (take_digits_length r1) as Hlen. lia. }
  destruct (match rest with
            | c :: r => if Json.is_char 45 c then ([c], r) else ([], rest)
            | [] => ([], rest)
            end) as [sign r0] eqn:Hsplit.
  assert (Hr0 : (List.length r0 <= List.length rest)%nat).
  { destruct rest as [| c r'].
    - injection Hsplit as <- <-. lia.
    - destruct (Json.is_char 45 c); injection Hsplit as <- <-; cbn [List.length]; lia. }
  specialize (Hsign r0 Hr0). clear Hsplit Hr0.
  destruct r0 as [| c r1]; [discriminate |].
  destruct (Json.is_digit c); [| discriminate].
  destruct (if Json.is_char 48 c then ([c], r1) else Json.take_digits (c :: r1))
    as [int_digits r2].
  clear c r1.
  lazymatch goal with
  | |- match ?F with _ => _ end = _ -> _ => destruct F as [frac r3] eqn:Hfrac
  end.
  assert (Hr3 : (List.length r3 <= List.length r2)%nat).
  { revert Hfrac. clear.
    repeat number_step; cbn [List.tl List.length] in *; intros [= <- <-];
      cbn [List.length]; lia. }
  clear Hfrac.
  lazymatch goal with
  | |- match ?F with _ => _ end = _ -> _ => destruct F as [expo r4] eqn:Hexpo
  end.
  assert (Hr4 : (List.length r4 <= List.length r3)%nat).
  { revert Hexpo. clear.
    repeat number_step; cbn [List.tl List.length] in *; intros [= <- <-];
      cbn [List.length] in *; lia. }
  clear Hexpo.
  repeat number_step; intros [= <-]; cbn [consumed]; try exact I; lia.
Qed.

Lemma skip_ws_le rest pos r p :
  Json.skip_ws rest pos = (r, p) -> (List.length r <= List.length rest)%nat.
Proof. intros Heq. pose proof (skip_ws_length rest pos) as H. rewrite Heq in H. exact H. Qed.

Lemma exceeds_limit_not_too_deep n : not_too_deep (PyLong.exceeds_limit n).
Proof. exact I. Qed.

Section Scanners.

Variable fuel : nat.
Hypothesis IHonce :
  forall rest pos,
    (2 * List.length rest < fuel)%nat -> consumed rest (Json.scan_once fuel rest pos).
Hypothesis IHmembers :
  forall items rest quote,
    (2 * List.length rest + 1 < fuel)%nat ->
    consumed rest (Json.members fuel items rest quote).
Hypothesis IHelements :
  forall values rest pos,
    (2 * List.length rest + 1 < fuel)%nat ->
    consumed rest (Json.elements fuel values rest pos).

(** One step through the body of a scanner: the length of what a helper
    leaves is recorded before its result is taken apart. *)
Ltac scan_step :=
  match goal with
  | |- context [Json.skip_ws ?r ?p] =>
      let H := fresh "Hws" in
      pose proof (skip_ws_length r p) as H;
      destruct (Json.skip_ws r p) as [? ?]; cbn [fst] in H
  | |- context [Json.scan_string ?b ?a ?r ?p] =>
      let H := fresh "Hstr" in
      pose proof (scan_string_consumed _ r (le_n _) b a p) as H;
      destruct (Json.scan_string b a r p); cbn [consumed] in H
  | |- context [Json.scan_once fuel ?r ?p] =>
      let H := fresh "Hval" in
      assert (H : consumed r (Json.scan_once fuel r p))
        by (apply IHonce; cbn [List.length] in *; lia);
      destruct (Json.scan_once fuel r p); cbn [consumed] in H
  | |- context [Json.literal ?t ?v ?r ?p] =>
      let H := fresh "Hlit" in
      destruct (Json.literal t v r p) eqn:H;
      [apply literal_consumed in H; [| discriminate] |]
  | |- context [Json.scan_number ?r ?p] =>
      let H := fresh "Hnum" in
      destruct (Json.scan_number r p) eqn:H; [apply scan_number_consumed in H |]
  | |- context [if ?b then _ else _] => destruct b
  | |- context [match ?x with _ => _ end] => destruct x
  end; cbn beta iota.

Ltac scan_done :=
  cbn [consumed List.length] in *;
  first
    [ exact I
    | assumption
    | lia
    | eapply consumed_weaken; [| apply IHmembers]; cbn [List.length] in *; lia
    | eapply consumed_weaken; [| apply IHelements]; cbn [List.length] in *; lia ].

Lemma scan_once_consumes rest pos :
  (2 * List.length rest < S fuel)%nat -> consumed rest (Json.scan_once (S fuel) rest pos).
Proof.
  intros Hfuel. cbn [Json.scan_once Json.members Json.elements].
  repeat scan_step; scan_done.
Qed.

Lemma members_consumes items rest quote :
  (2 * List.length rest + 1 < S fuel)%nat ->
  consumed rest (Json.members (S fuel) items rest quote).
Proof.
  intros Hfuel. cbn [Json.scan_once Json.members Json.elements].
  repeat scan_step; scan_done.
Qed.

Lemma elements_consumes values rest pos :
  (2 * List.length rest + 1 < S fuel)%nat ->
  consumed rest (Json.elements (S fuel) values rest pos).
Proof.
  intros Hfuel. cbn [Json.scan_once Json.members Json.elements].
  repeat scan_step; scan_done.
Qed.

End Scanners.

Lemma scanners_consume fuel :
  (forall rest pos,
      (2 * List.length rest < fuel)%nat -> consumed rest (Json.scan_once fuel rest pos)) /\
  (forall items rest quote,
      (2 * List.length rest + 1 < fuel)%nat ->
      consumed rest (Json.members fuel items rest quote)) /\
  (forall values rest pos,
      (2 * List.length rest + 1 < fuel)%nat ->
      consumed rest (Json.elements fuel values rest pos)).
Proof.
  induction fuel as [| fuel (IHonce & IHmembers & IHelements)].
  - repeat split; intros; lia.
  - split; [| split].
    + apply scan_once_consumes; assumption.
    + apply members_consumes; assumption.
    + apply elements_consumes; assumption.
Qed.

Lemma loads_fuel_suffices s msg : Json.loads s <> Raised (RecursionError msg).
Proof.
  unfold Json.loads.
  destruct (Json.strip_literal _ _); [discriminate |].
  pose proof (skip_ws_length (list_ascii_of_string s) 0) as Hws.
  destruct (Json.skip_ws _ 0) as [r0 p0]. cbn [fst] in Hws.
  destruct (scanners_consume (2 * List.length (list_ascii_of_string s) + 2)) as [Honce _].
  specialize (Honce r0 p0 ltac:(lia)).
  destruct (Json.scan_once _ r0 p0) as [v r p | m p | e]; cbn [consumed] in Honce.
  - destruct (Json.skip_ws r p) as [r1 p1]. destruct r1; discriminate.
  - discriminate.
  - intros [= ->]. exact Honce.
Qed.

(** * Further properties of the module *)

(** ** The signed string *)

Lemma append_String c s t : String c s +:+ t = String c (s +:+ t).
Proof. reflexivity. Qed.

Lemma append_empty t : EmptyString +:+ t = t.
Proof. reflexivity. Qed.

Lemma uint_digits_no_dot d : has_dot (NilEmpty.string_of_uint d) = false.
Proof. induction d; cbn [NilEmpty.string_of_uint has_dot]; try reflexivity; exact IHd. Qed.

Lemma of_int_no_dot n : has_dot (PyStr.of_int n) = false.
Proof.
  unfold PyStr.of_int, NilZero.string_of_int, NilZero.string_of_uint.
  destruct (Z.to_int n) as [d | d]; destruct d;
    try reflexivity; cbn [has_dot NilEmpty.string_of_uint]; apply uint_digits_no_dot.
Qed.

Lemma to_int_not_nil n : Z.to_int n <> Decimal.Pos Decimal.Nil /\ Z.to_int n <> Decimal.Neg Decimal.Nil.
Proof.
  destruct n as [| p | p]; cbn [Z.to_int]; split; try discriminate;
    intros Heq; injection Heq as Heq; exact (DecimalPos.Unsigned.to_uint_nonnil p Heq).
Qed.

(** [str] of an integer determines the integer. *)
Lemma of_int_inj a b : PyStr.of_int a = PyStr.of_int b -> a = b.
Proof.
  unfold PyStr.of_int. intros Heq.
  apply DecimalZ.to_int_inj.
  destruct (to_int_not_nil a) as [Ha Ha'], (to_int_not_nil b) as [Hb Hb'].
  pose proof (NilZero.isi _ Ha Ha') as Hia. pose proof (NilZero.isi _ Hb Hb') as Hib.
  rewrite Heq in Hia. rewrite Hia in Hib. injection Hib as Hib. exact Hib.
Qed.

(** Two texts without a dot, each followed by a dot and a rest: equal
    wholes have equal parts. *)
Lemma split_at_first_dot p p' s s' :
  has_dot p = false -> has_dot p' = false ->
  p +:+ "." +:+ s = p' +:+ "." +:+ s' -> p = p' /\ s = s'.
Proof.
  revert p'. induction p as [| c p IH]; intros [| c' p'] Hp Hp' Heq.
  - rewrite !append_empty, !append_String, !append_empty in Heq.
    injection Heq as Heq. split; [reflexivity | exact Heq].
  - rewrite append_empty, !append_String, append_empty in Heq. injection Heq as Hc _.
    cbn [has_dot] in Hp'. rewrite <- Hc in Hp'. discriminate Hp'.
  - rewrite append_empty, !append_String, append_empty in Heq. injection Heq as Hc _.
    cbn [has_dot] in Hp. rewrite Hc in Hp. discriminate Hp.
  - rewrite !append_String in Heq. injection Heq as Hc Heq.
    cbn [has_dot] in Hp, Hp'.
    apply orb_false_iff in Hp as [_ Hp]. apply orb_false_iff in Hp' as [_ Hp'].
    destruct (IH p' Hp Hp' Heq) as [-> ->]. subst c'. split; reflexivity.
Qed.

(** X1. The string that is signed determines the timestamp and the body:
    two different pairs never share a signing string, so a digest for one
    pair says nothing about another by way of equal input. *)
Theorem signing_message_injective timestamp body timestamp' body' :
  signing_message timestamp body = signing_message timestamp' body' <->
  timestamp = timestamp' /\ body = body'.
Proof.
  split.
  - unfold signing_message. intros Heq.
    apply split_at_first_dot in Heq as [Hts Hbody]; try apply of_int_no_dot.
    split; [apply of_int_inj; exact Hts | exact Hbody].
  - intros [-> ->]. reflexivity.
Qed.

(** ** What [verify_signature] accepts *)

Lemma isascii_append a b : PyStr.isascii (a +:+ b) = PyStr.isascii a && PyStr.isascii b.
Proof.
  induction a as [| c a IH]; [reflexivity |].
  rewrite append_String. cbn [PyStr.isascii]. rewrite IH. apply andb_assoc.
Qed.

Lemma length_append a b : String.length (a +:+ b) = (String.length a + String.length b)%nat.
Proof.
  induction a as [| c a IH]; [reflexivity |].
  rewrite append_String. cbn [String.length]. rewrite IH. reflexivity.
Qed.

Lemma eqb_length_differs a b : String.length a <> String.length b -> String.eqb a b = false.
Proof.
  intros Hlen. destruct (String.eqb_spec a b) as [-> | _]; [contradiction Hlen |]; reflexivity.
Qed.

(** In the window, an ASCII signature value of a length other than 64 is
    answered with [False]. *)
Lemma verify_signature_wrong_length self signature timestamp body st :
  age st timestamp <= max_age_seconds self ->
  PyStr.isascii (sig_value signature) = true ->
  String.length (sig_value signature) <> 64%nat ->
  fst (verify_signature self signature timestamp body st) = Returned false.
Proof.
  intros Hage Hascii Hlen.
  rewrite verify_signature_fresh by assumption. cbn [fst].
  rewrite eqb_length_differs; [reflexivity |].
  unfold expected_digest. rewrite hexdigest_length. congruence.
Qed.

Lemma verify_signature_true_inversion self signature timestamp body st :
  fst (verify_signature self signature timestamp body st) = Returned true ->
  age st timestamp <= max_age_seconds self /\
  sig_value signature = expected_digest self timestamp body /\
  HMAC.lower_hex (sig_value signature) = true /\
  String.length (sig_value signature) = 64%nat.
Proof.
  destruct (Z_gt_le_dec (age st timestamp) (max_age_seconds self)) as [Hgt | Hle].
  { rewrite verify_signature_stale by exact Hgt. cbn [fst]. intros Heq.
    apply Returned_inj in Heq. discriminate Heq. }
  destruct (PyStr.isascii (sig_value signature)) eqn:Hascii.
  2:{ rewrite verify_signature_non_ascii by assumption. cbn [fst]. intros Heq.
      discriminate Heq. }
  rewrite verify_signature_fresh by assumption. cbn [fst]. intros Heq.
  apply Returned_inj in Heq. apply String.eqb_eq in Heq.
  split; [exact Hle |]. split; [symmetry; exact Heq |].
  rewrite <- Heq. unfold expected_digest.
  split; [apply hexdigest_lower_hex | apply hexdigest_length].
Qed.

(** X2. [verify_signature] returns [True] only for a timestamp inside the
    window and a signature value that is the expected digest, hence 64
    lowercase hexadecimal characters: nothing else is ever accepted. *)
Theorem verify_signature_true_only_if self signature timestamp body st :
  fst (verify_signature self signature timestamp body st) = Returned true ->
  age st timestamp <= max_age_seconds self /\
  sig_value signature = expected_digest self timestamp body /\
  HMAC.lower_hex (sig_value signature) = true /\
  String.length (sig_value signature) = 64%nat.
Proof. apply verify_signature_true_inversion. Qed.

Lemma verify_signature_true_only_if_witness :
  age (world_at test_time) test_time <= max_age_seconds test_verifier /\
  sig_value ("sha256=" +:+ test_digest) = expected_digest test_verifier test_time test_body.
Proof.
  assert (Hrun : fst (verify_signature test_verifier ("sha256=" +:+ test_digest) test_time
                        test_body (world_at test_time)) = Returned true)
    by (vm_compute; reflexivity).
  destruct (verify_signature_true_only_if test_verifier ("sha256=" +:+ test_digest)
              test_time test_body (world_at test_time) Hrun) as (Hage & Hvalue & _).
  split; [exact Hage | exact Hvalue].
Defined.

(** X3. The prefix is matched exactly and removed once, and nothing is
    trimmed: in the window the expected digest behind [SHA256=], behind a
    doubled [sha256=], or followed by a blank is answered with [False]. *)
Theorem verify_signature_prefix_is_exact self timestamp body st :
  age st timestamp <= max_age_seconds self ->
  let digest := expected_digest self timestamp body in
  let run s := fst (verify_signature self s timestamp body st) in
  run ("SHA256=" +:+ digest) = Returned false /\
  run ("sha256=sha256=" +:+ digest) = Returned false /\
  run ("sha256=" +:+ digest +:+ " ") = Returned false /\
  run (digest +:+ " ") = Returned false.
Proof.
  intros Hage digest run. unfold run.
  pose proof (hexdigest_lower_hex (secret self) (signing_message timestamp body)) as Hhex.
  pose proof (hexdigest_length (secret self) (signing_message timestamp body)) as Hlen.
  fold (expected_digest self timestamp body) in Hhex, Hlen. fold digest in Hhex, Hlen.
  pose proof (lower_hex_isascii _ Hhex) as Hascii.
  assert (Hupper : sig_value ("SHA256=" +:+ digest) = "SHA256=" +:+ digest) by reflexivity.
  assert (Hdouble : sig_value ("sha256=sha256=" +:+ digest) = "sha256=" +:+ digest)
    by apply (sig_value_prefixed ("sha256=" +:+ digest)).
  assert (Hblank : sig_value ("sha256=" +:+ digest +:+ " ") = digest +:+ " ")
    by apply sig_value_prefixed.
  assert (Hbare : sig_value (digest +:+ " ") = digest +:+ " ").
  { unfold sig_value. destruct digest as [| c digest']; [discriminate Hlen |].
    rewrite append_String. cbn [PyStr.startswith].
    cbn [HMAC.lower_hex] in Hhex. apply andb_true_iff in Hhex as [Hc _].
    destruct (Ascii.eqb_spec "s" c) as [<- | _]; [discriminate Hc | reflexivity]. }
  split; [| split; [| split]]; apply verify_signature_wrong_length; try exact Hage.
  - rewrite Hupper, isascii_append, Hascii. reflexivity.
  - rewrite Hupper, length_append, Hlen. discriminate.
  - rewrite Hdouble, isascii_append, Hascii. reflexivity.
  - rewrite Hdouble, length_append, Hlen. discriminate.
  - rewrite Hblank, isascii_append, Hascii. reflexivity.
  - rewrite Hblank, length_append, Hlen. discriminate.
  - rewrite Hbare, isascii_append, Hascii. reflexivity.
  - rewrite Hbare, length_append, Hlen. discriminate.
Qed.

Lemma verify_signature_prefix_is_exact_witness :
  fst (verify_signature test_verifier
         ("SHA256=" +:+ expected_digest test_verifier test_time test_body)
         test_time test_body (world_at test_time)) = Returned false.
Proof.
  assert (Hage : age (world_at test_time) test_time <= max_age_seconds test_verifier)
    by (vm_compute; discriminate).
  destruct (verify_signature_prefix_is_exact test_verifier test_time test_body
              (world_at test_time) Hage) as [Hupper _].
  exact Hupper.
Defined.

(** X4. The window is a bound on an absolute value: a verifier built with a
    negative [max_age_seconds] rejects every request, and with zero it
    accepts the expected digest exactly when the timestamp is the second the
    clock shows. *)
Theorem verify_signature_degenerate_window self signature timestamp body st :
  (max_age_seconds self < 0 ->
   fst (verify_signature self signature timestamp body st) = Returned false) /\
  (max_age_seconds self = 0 ->
   (fst (verify_signature self (expected_digest self timestamp body) timestamp body st) =
      Returned true <-> timestamp = next_time st)).
Proof.
  split.
  - intros Hneg. rewrite verify_signature_stale; [reflexivity |]. unfold age. lia.
  - intros Hzero. split.
    + intros Hrun. apply verify_signature_true_inversion in Hrun as [Hage _].
      unfold age in Hage. lia.
    + intros ->. apply verify_signature_expected. unfold age. lia.
Qed.

Lemma verify_signature_degenerate_window_witness :
  fst (verify_signature {| secret := "test-secret-123"; max_age_seconds := -1 |}
         (create_signature "test-secret-123" test_time test_body) test_time test_body
         (world_at test_time)) = Returned false /\
  fst (verify_signature {| secret := "test-secret-123"; max_age_seconds := 0 |}
         (create_signature "test-secret-123" test_time test_body) test_time test_body
         (world_at test_time)) = Returned true.
Proof.
  split.
  - destruct (verify_signature_degenerate_window
                {| secret := "test-secret-123"; max_age_seconds := -1 |}
                (create_signature "test-secret-123" test_time test_body) test_time test_body
                (world_at test_time)) as [Hnegative _].
    apply Hnegative. reflexivity.
  - destruct (verify_signature_degenerate_window
                {| secret := "test-secret-123"; max_age_seconds := 0 |}
                (create_signature "test-secret-123" test_time test_body) test_time test_body
                (world_at test_time)) as [_ Hzero].
    destruct (Hzero eq_refl) as [_ Hback]. exact (Hback eq_refl).
Defined.

(** ** Effects of the two operations *)

(** The state [verify_signature] leaves: the same clock, read once more,
    and between one and three further calls, none of them [json.loads]. *)
Lemma verify_signature_calls self signature timestamp body st :
  exists calls,
    snd (verify_signature self signature timestamp body st) =
      State (time_source st) (S (reads st)) (calls ++ trace st) /\
    time_reads calls = 1%nat /\ json_loads_calls calls = 0%nat.
Proof.
  destruct (Z_gt_le_dec (age st timestamp) (max_age_seconds self)) as [Hgt | Hle].
  - rewrite verify_signature_stale by exact Hgt.
    exists [TimeRead (next_time st)]. repeat split.
  - destruct (PyStr.isascii (sig_value signature)) eqn:Hascii.
    + rewrite verify_signature_fresh by assumption.
      exists [CompareDigest (expected_digest self timestamp body) (sig_value signature)
                (String.length (sig_value signature));
              HmacDigest (secret self) (signing_message timestamp body);
              TimeRead (next_time st)].
      repeat split.
    + rewrite verify_signature_non_ascii by assumption.
      exists [HmacDigest (secret self) (signing_message timestamp body);
              TimeRead (next_time st)].
      repeat split.
Qed.

(** X5. Every call of [verify_signature], whatever it returns or raises,
    reads the clock exactly once, never calls [json.loads], and only adds to
    the trace. *)
Theorem verify_signature_reads_clock_once self signature timestamp body st :
  let st' := snd (verify_signature self signature timestamp body st) in
  time_source st' = time_source st /\ reads st' = S (reads st) /\
  exists calls,
    trace st' = calls ++ trace st /\
    time_reads calls = 1%nat /\ json_loads_calls calls = 0%nat.
Proof.
  destruct (verify_signature_calls self signature timestamp body st)
    as (calls & Hst & Htime & Hjson).
  cbv zeta. rewrite Hst. cbn [time_source reads trace].
  split; [reflexivity |]. split; [reflexivity |].
  exists calls. split; [reflexivity |]. split; assumption.
Qed.

Lemma time_reads_json_loads body calls :
  time_reads (JsonLoads body :: calls) = time_reads calls /\
  json_loads_calls (JsonLoads body :: calls) = S (json_loads_calls calls).
Proof. split; reflexivity. Qed.

(** After a verification that returned [True], [verify_and_parse] leaves
    the state of that verification with one [json.loads] call added,
    whatever comes of the parsing and the checks. *)
Lemma verify_and_parse_verified_state `{PyRuntime} self signature body did timestamp ts st st1 :
  coerce_timestamp timestamp = Returned ts ->
  verify_signature self signature ts body st = (Returned true, st1) ->
  snd (verify_and_parse self signature timestamp body did st) =
    State (time_source st1) (reads st1) (JsonLoads body :: trace st1).
Proof.
  intros Hts Hver.
  rewrite (verify_and_parse_verified self signature body did timestamp ts st st1 Hts Hver).
  cbv zeta.
  destruct (json_loads body) as [parsed | []]; try reflexivity.
  destruct (py_contains "event" parsed) as [[] |]; try reflexivity.
  destruct (py_contains "timestamp" parsed) as [[] |]; try reflexivity.
  destruct (py_contains "data" parsed) as [[] |]; try reflexivity.
  destruct (py_getitem parsed "event"); try reflexivity.
  destruct (py_getitem parsed "timestamp"); try reflexivity.
  destruct (py_getitem parsed "data"); reflexivity.
Qed.

(** X6. Every call of [verify_and_parse], whatever it returns or raises,
    reads the clock at most once and calls [json.loads] at most once, and it
    calls [json.loads] only after [verify_signature] returned [True] on the
    same signature, timestamp and body. *)
Theorem verify_and_parse_parses_only_verified `{PyRuntime}
    self signature timestamp body did st :
  let st' := snd (verify_and_parse self signature timestamp body did st) in
  time_source st' = time_source st /\ (reads st' <= S (reads st))%nat /\
  exists calls,
    trace st' = calls ++ trace st /\
    (time_reads calls <= 1)%nat /\ (json_loads_calls calls <= 1)%nat /\
    (json_loads_calls calls = 1%nat ->
     exists ts, coerce_timestamp timestamp = Returned ts /\
                fst (verify_signature self signature ts body st) = Returned true).
Proof.
  cbv zeta.
  destruct (coerce_timestamp timestamp) as [ts | e] eqn:Hts.
  2:{ rewrite (verify_and_parse_bad_timestamp self signature body did timestamp e st Hts).
      cbn [snd]. split; [reflexivity |]. split; [lia |].
      exists []. split; [reflexivity |]. split; [cbn; lia |]. split; [cbn; lia |].
      intros Hone. discriminate Hone. }
  destruct (verify_signature_calls self signature ts body st)
    as (calls & Hst & Htime & Hjson).
  destruct (verify_signature self signature ts body st) as [[[] | e] st1] eqn:Hver;
    cbn [snd] in Hst; subst st1.
  - rewrite (verify_and_parse_verified_state self signature body did timestamp ts st _
               Hts Hver).
    cbn [time_source reads trace]. split; [reflexivity |]. split; [lia |].
    exists (JsonLoads body :: calls).
    destruct (time_reads_json_loads body calls) as [Ht Hj].
    split; [reflexivity |]. split; [rewrite Ht; lia |]. split; [rewrite Hj; lia |].
    intros _. exists ts. split; [reflexivity |]. rewrite Hver. reflexivity.
  - rewrite (verify_and_parse_rejected self signature body did timestamp ts st _ Hts Hver).
    cbn [snd time_source reads trace]. split; [reflexivity |]. split; [lia |].
    exists calls. split; [reflexivity |]. split; [lia |]. split; [lia |].
    intros Hone. rewrite Hjson in Hone. discriminate Hone.
  - rewrite (verify_and_parse_raised self signature body did timestamp ts e st _ Hts Hver).
    cbn [snd time_source reads trace]. split; [reflexivity |]. split; [lia |].
    exists calls. split; [reflexivity |]. split; [lia |]. split; [lia |].
    intros Hone. rewrite Hjson in Hone. discriminate Hone.
Qed.

Lemma verify_and_parse_non_ascii_signature_witness :
  fst (@verify_and_parse cpython_ascii test_verifier non_ascii_signature (OfStr "1705312800")
         test_body "" (world_at test_time)) =
    Raised (TypeError "comparing strings with non-ASCII characters is not supported").
Proof.
  destruct (@verify_and_parse_non_ascii_signature cpython_ascii test_verifier
              non_ascii_signature (OfStr "1705312800") test_time test_body ""
              (world_at test_time)) as [_ Hparse];
    [vm_compute; reflexivity | vm_compute; discriminate | vm_compute; reflexivity |].
  exact Hparse.
Defined.

(** ** Bodies that are not what the wire contract says *)

(** X8. A verified body that is JSON but not an object never gives a
    payload: a scalar makes the membership test raise [TypeError]; an array
    that lacks the string [event] is reported as a body without the [event]
    field; an array or a string that holds all three names gets through the
    checks and the subscript raises [TypeError]. *)
Theorem verify_and_parse_body_not_an_object `{PyRuntime}
    self signature timestamp body did st ts parsed :
  coerce_timestamp timestamp = Returned ts ->
  fst (verify_signature self signature ts body st) = Returned true ->
  json_loads body = Returned parsed ->
  (forall items, parsed <> PyDict items) ->
  let result := fst (verify_and_parse self signature timestamp body did st) in
  (forall payload, result <> Returned payload) /\
  (is_scalar parsed = true -> exists msg, result = Raised (TypeError msg)) /\
  (forall elements,
      parsed = PyList elements -> existsb (equals_str "event") elements = false ->
      result = Raised (ValueError "Missing 'event' field in payload")) /\
  (py_contains "event" parsed = Returned true ->
   py_contains "timestamp" parsed = Returned true ->
   py_contains "data" parsed = Returned true ->
   exists msg, result = Raised (TypeError msg)).
Proof.
  intros Hts Hver Hjson Hnot result. subst result.
  split.
  { intros payload Hret.
    apply verify_and_parse_returned in Hret as (ts' & items & _ & _ & Hjson' & _).
    rewrite Hjson in Hjson'. apply Returned_inj in Hjson'. exact (Hnot items Hjson'). }
  destruct (verify_signature self signature ts body st) as [r st1] eqn:Hrun.
  cbn [fst] in Hver. subst r.
  rewrite (verify_and_parse_verified self signature body did timestamp ts st st1 Hts Hrun),
    Hjson.
  cbv zeta. split; [| split].
  - destruct parsed; try discriminate; intros _; cbn [py_contains fst]; eexists; reflexivity.
  - intros elements -> Habsent. cbn [py_contains]. rewrite Habsent. reflexivity.
  - intros -> -> ->.
    destruct parsed as [| | | | text | elements | items]; cbn [py_getitem fst];
      try (eexists; reflexivity).
    contradiction (Hnot items). reflexivity.
Qed.

Lemma verify_and_parse_body_not_an_object_witness :
  let run body :=
    fst (@verify_and_parse cpython_ascii test_verifier
           (create_signature "test-secret-123" test_time body) (OfInt test_time) body ""
           (world_at test_time)) in
  run "[]" = Raised (ValueError "Missing 'event' field in payload") /\
  (exists msg, run "17" = Raised (TypeError msg)) /\
  (exists msg, run body_list_of_keys = Raised (TypeError msg)).
Proof.
  intros run. unfold run. split; [| split].
  - destruct (@verify_and_parse_body_not_an_object cpython_ascii test_verifier
                (create_signature "test-secret-123" test_time "[]") (OfInt test_time) "[]" ""
                (world_at test_time) test_time (PyList []))
      as (_ & _ & Hlist & _);
      [reflexivity | vm_compute; reflexivity | vm_compute; reflexivity | discriminate |].
    apply (Hlist []); reflexivity.
  - destruct (@verify_and_parse_body_not_an_object cpython_ascii test_verifier
                (create_signature "test-secret-123" test_time "17") (OfInt test_time) "17" ""
                (world_at test_time) test_time (PyInt 17))
      as (_ & Hscalar & _);
      [reflexivity | vm_compute; reflexivity | vm_compute; reflexivity | discriminate |].
    apply Hscalar. reflexivity.
  - destruct (@verify_and_parse_body_not_an_object cpython_ascii test_verifier
                (create_signature "test-secret-123" test_time body_list_of_keys)
                (OfInt test_time) body_list_of_keys "" (world_at test_time) test_time
                (PyList [PyStr "event"; PyStr "timestamp"; PyStr "data"]))
      as (_ & _ & _ & Hall);
      [reflexivity | vm_compute; reflexivity | vm_compute; reflexivity | discriminate |].
    apply Hall; reflexivity.
Defined.

(** X9. The values under the three keys are stored without a check of
    their types.  When [data] is an object, each accessor of the payload
    returns the value under its key, or [None] when the key is absent, and
    never raises; when [data] is anything else, which [verify_and_parse]
    lets through, each accessor raises [AttributeError]. *)
Theorem payload_accessors `{PyRuntime}
    self signature stamp body did st ts items ev tm dt :
  coerce_timestamp stamp = Returned ts ->
  fst (verify_signature self signature ts body st) = Returned true ->
  json_loads body = Returned (PyDict items) ->
  dict_lookup "event" items = Some ev ->
  dict_lookup "timestamp" items = Some tm ->
  dict_lookup "data" items = Some dt ->
  exists payload,
    fst (verify_and_parse self signature stamp body did st) = Returned payload /\
    event payload = ev /\ timestamp payload = tm /\ data payload = dt /\
    (forall fields,
        dt = PyDict fields ->
        let field key := Returned (default PyNone (dict_lookup key fields)) in
        contact_id payload = field "contactId"%string /\
        link_code payload = field "linkCode"%string /\
        email payload = field "email"%string /\
        email_hash payload = field "emailHash"%string /\
        phone payload = field "phone"%string /\
        phone_hash payload = field "phoneHash"%string) /\
    ((forall fields, dt <> PyDict fields) ->
     exists msg,
       contact_id payload = Raised (AttributeError msg) /\
       link_code payload = Raised (AttributeError msg) /\
       email payload = Raised (AttributeError msg) /\
       email_hash payload = Raised (AttributeError msg) /\
       phone payload = Raised (AttributeError msg) /\
       phone_hash payload = Raised (AttributeError msg)).
Proof.
  intros Hts Hver Hjson Hev Htm Hdt.
  destruct (verify_signature self signature ts body st) as [r st1] eqn:Hrun.
  cbn [fst] in Hver. subst r.
  exists {| event := ev; timestamp := tm; data := dt; delivery_id := did |}.
  rewrite (verify_and_parse_accepts self signature body did stamp ts st st1 items
             ev tm dt Hts Hrun Hjson Hev Htm Hdt).
  cbn [fst event timestamp data].
  split; [reflexivity |]. split; [reflexivity |]. split; [reflexivity |].
  split; [reflexivity |].
  unfold contact_id, link_code, email, email_hash, phone, phone_hash. cbn [data].
  split.
  - intros fields ->. cbv zeta. cbn [py_get]. repeat split.
  - intros Hnot. destruct dt as [| | | | | | fields];
      [cbn [py_get]; eexists; repeat split; reflexivity .. |].
    contradiction (Hnot fields). reflexivity.
Qed.

Lemma payload_accessors_witness :
  exists payload,
    fst (@verify_and_parse cpython_ascii test_verifier
           (create_signature "test-secret-123" test_time body_with_list_data)
           (OfInt test_time) body_with_list_data "" (world_at test_time)) = Returned payload /\
    event payload = PyInt 7 /\ timestamp payload = PyNone /\ data payload = PyList [PyInt 1] /\
    exists msg, contact_id payload = Raised (AttributeError msg).
Proof.
  destruct (@payload_accessors cpython_ascii test_verifier
              (create_signature "test-secret-123" test_time body_with_list_data)
              (OfInt test_time) body_with_list_data "" (world_at test_time) test_time
              [("event", PyInt 7); ("timestamp", PyNone); ("data", PyList [PyInt 1])]%string
              (PyInt 7) PyNone (PyList [PyInt 1]))
    as (payload & Hret & Hev & Htm & Hdt & _ & Hraises);
    [reflexivity | vm_compute; reflexivity | vm_compute; reflexivity
     | reflexivity | reflexivity | reflexivity |].
  exists payload. split; [exact Hret |]. split; [exact Hev |]. split; [exact Htm |].
  split; [exact Hdt |].
  destruct Hraises as (msg & Hcontact & _); [discriminate |].
  exists msg. exact Hcontact.
Defined.

(** ** More on [extract_headers] *)

(** X10. The signature and the timestamp that [extract_headers] returns are
    never empty strings: what it hands on to [verify_and_parse] is always a
    value that was present in the headers. *)
Theorem extract_headers_required_not_empty `{PyRuntime} headers s t e d :
  extract_headers headers = Returned (s, t, e, d) ->
  s <> ""%string /\ t <> ""%string /\
  normalize headers !! "x-webhook-signature"%string = Some s /\
  normalize headers !! "x-webhook-timestamp"%string = Some t.
Proof.
  intros Hret. apply extract_headers_returned in Hret as (Hs & Ht & _ & _).
  apply truthy_some in Hs as [Hs Hs']. apply truthy_some in Ht as [Ht Ht'].
  repeat split; assumption.
Qed.

Lemma extract_headers_required_not_empty_witness :
  @extract_headers cpython_ascii test_headers =
    Returned ("sha256=abc123", "1705312800", "contact.created", "delivery-123")%string /\
  "sha256=abc123"%string <> ""%string /\ "1705312800"%string <> ""%string.
Proof.
  assert (Hret : @extract_headers cpython_ascii test_headers =
                 Returned ("sha256=abc123", "1705312800", "contact.created",
                           "delivery-123")%string)
    by (vm_compute; reflexivity).
  destruct (@extract_headers_required_not_empty cpython_ascii test_headers _ _ _ _ Hret)
    as (Hs & Ht & _).
  split; [exact Hret |]. split; [exact Hs | exact Ht].
Defined.

(** X11. When several headers have names that differ only in case, the one
    that comes last in the mapping decides: each of the four values returned
    is the value of the last header with its name. *)
Theorem extract_headers_last_header_wins `{PyRuntime} before key value later s t e d :
  header_absent (str_lower key) later ->
  extract_headers (before ++ (key, value) :: later) = Returned (s, t, e, d) ->
  (str_lower key = "x-webhook-signature"%string -> s = value) /\
  (str_lower key = "x-webhook-timestamp"%string -> t = value) /\
  (str_lower key = "x-webhook-event"%string -> e = value) /\
  (str_lower key = "x-webhook-delivery-id"%string -> d = value).
Proof.
  intros Habs Hret.
  pose proof (normalize_lookup_last (str_lower key) before key value later eq_refl Habs)
    as Hlast.
  apply extract_headers_returned in Hret as (Hs & Ht & He & Hd).
  apply truthy_some in Hs as [Hs _]. apply truthy_some in Ht as [Ht _].
  split; [| split; [| split]]; intros Hname; rewrite Hname in Hlast.
  - congruence.
  - congruence.
  - rewrite He, Hlast. reflexivity.
  - rewrite Hd, Hlast. reflexivity.
Qed.

Lemma extract_headers_last_header_wins_witness :
  @extract_headers cpython_ascii headers_repeated =
    Returned ("sha256=second", "1705312800", "", "")%string.
Proof.
  assert (Hret : exists s, @extract_headers cpython_ascii headers_repeated =
                           Returned (s, "1705312800", "", "")%string)
    by (eexists; vm_compute; reflexivity).
  destruct Hret as [s Hret].
  destruct (@extract_headers_last_header_wins cpython_ascii
              [("X-Webhook-Signature", "sha256=first");
               ("X-Webhook-Timestamp", "1705312800")]%string
              "x-webhook-signature"%string "sha256=second"%string [] _ _ _ _
              ltac:(constructor) Hret) as [Hsignature _].
  rewrite Hret. rewrite (Hsignature eq_refl). reflexivity.
Defined.

(** * Properties of the client *)

(** ** [_handle_response] *)

Section HandleResponse.

Context `{PyRuntime}.

Import Exceptions.

(** The branch [_handle_response] takes, by status code. *)
Ltac by_status response :=
  unfold Client._handle_response; cbv zeta;
  destruct (Z.eqb_spec (Client.status_code response) 401);
  [| destruct (Z.eqb_spec (Client.status_code response) 403);
     [| destruct (Z.eqb_spec (Client.status_code response) 404);
        [| destruct (Z.eqb_spec (Client.status_code response) 429);
           [| destruct (Z.eqb_spec (Client.status_code response) 400);
              [| rewrite Z.geb_leb;
                 destruct (Z.leb_spec 400 (Client.status_code response)) ]]]]].

Lemma raise_with_message_failed response default make :
  exists r, Client.raise_with_message response default make = Client.Failed r /\
            forall e, r = Client.Sdk e -> exists m, e = make m.
Proof.
  unfold Client.raise_with_message.
  destruct (Client.error_message response default) as [m | e].
  - eexists. split; [reflexivity |]. intros e Heq. injection Heq as <-. exists m. reflexivity.
  - eexists. split; [reflexivity |]. intros e' Heq. discriminate Heq.
Qed.

(** X12. A response with a status code of 400 or more never returns: it
    always raises.  A response below 400 never raises an exception of the
    SDK, so a redirect or any other 3xx answer is handled as a success. *)
Theorem handle_response_raises_from_400 response :
  (Client.status_code response >= 400 ->
   exists r, Client._handle_response response = Client.Failed r) /\
  (Client.status_code response < 400 ->
   forall e, Client._handle_response response <> Client.Failed (Client.Sdk e)).
Proof.
  split.
  - intros Hcode. by_status response; try lia.
    + eexists; reflexivity.
    + destruct (raise_with_message_failed response access_denied ForbiddenError)
        as (r & Hr & _). exists r. exact Hr.
    + destruct (raise_with_message_failed response resource_not_found NotFoundError)
        as (r & Hr & _). exists r. exact Hr.
    + destruct (truthy (Client.retry_after_header response)) as [text |];
        [destruct (builtin_int text) |]; eexists; reflexivity.
    + destruct (raise_with_message_failed response invalid_request ValidationError)
        as (r & Hr & _). exists r. exact Hr.
    + match goal with
      | |- context [Client.raise_with_message response ?d ?m] =>
          destruct (raise_with_message_failed response d m) as (r & Hr & _)
      end.
      exists r. exact Hr.
  - intros Hcode e. by_status response; try lia.
    destruct (_ || _); [discriminate |].
    destruct (Client.json response); discriminate.
Qed.



(** The class and the status code of an exception of the SDK, read back
    from the branch that raised it. *)
Lemma handle_response_sdk_inversion response e :
  Client._handle_response response = Client.Failed (Client.Sdk e) ->
  let code := Client.status_code response in
  status_code e = Some code /\ 400 <= code /\
  match e with
  | AuthenticationError _ => code = 401
  | ForbiddenError _ => code = 403
  | NotFoundError _ => code = 404
  | RateLimitError _ _ => code = 429
  | ValidationError _ => code = 400
  | EZUnsubError _ _ =>
      code <> 401 /\ code <> 403 /\ code <> 404 /\ code <> 429 /\ code <> 400
  end.
Proof.
  cbv zeta. by_status response.
  - intros Heq. injection Heq as <-. cbn [status_code]. repeat split; congruence || lia.
  - destruct (raise_with_message_failed response access_denied ForbiddenError)
      as (r & -> & Hmake).
    intros Heq. injection Heq as ->. destruct (Hmake e eq_refl) as [m ->].
    cbn [status_code]. repeat split; congruence || lia.
  - destruct (raise_with_message_failed response resource_not_found NotFoundError)
      as (r & -> & Hmake).
    intros Heq. injection Heq as ->. destruct (Hmake e eq_refl) as [m ->].
    cbn [status_code]. repeat split; congruence || lia.
  - destruct (truthy (Client.retry_after_header response)) as [text |];
      [destruct (builtin_int text) |]; intros Heq; try discriminate Heq;
      injection Heq as <-; cbn [status_code]; repeat split; congruence || lia.
  - destruct (raise_with_message_failed response invalid_request ValidationError)
      as (r & -> & Hmake).
    intros Heq. injection Heq as ->. destruct (Hmake e eq_refl) as [m ->].
    cbn [status_code]. repeat split; congruence || lia.
  - match goal with
    | |- context [Client.raise_with_message response ?d ?m] =>
        destruct (raise_with_message_failed response d m) as (r & -> & Hmake)
    end.
    intros Heq. injection Heq as ->. destruct (Hmake e eq_refl) as [m ->].
    cbn [status_code]. repeat split; congruence || lia.
  - destruct (_ || _); [discriminate |].
    destruct (Client.json response); discriminate.
Qed.

(** X13. An exception of the SDK raised for a response always carries the
    status code of that response, and its class is fixed by the code:
    [AuthenticationError] for 401, [ForbiddenError] for 403, [NotFoundError]
    for 404, [RateLimitError] for 429, [ValidationError] for 400, and plain
    [EZUnsubError] for every other code from 400 on. *)
Theorem handle_response_status_code response e :
  Client._handle_response response = Client.Failed (Client.Sdk e) ->
  let code := Client.status_code response in
  status_code e = Some code /\ 400 <= code /\
  match e with
  | AuthenticationError _ => code = 401
  | ForbiddenError _ => code = 403
  | NotFoundError _ => code = 404
  | RateLimitError _ _ => code = 429
  | ValidationError _ => code = 400
  | EZUnsubError _ _ =>
      code <> 401 /\ code <> 403 /\ code <> 404 /\ code <> 429 /\ code <> 400
  end.
Proof. apply handle_response_sdk_inversion. Qed.


(** X14. For 401 and 429 the body of the response is never looked at: the
    message is the default one whatever the server sent.  For 429 the
    [Retry-After] header decides alone: absent or empty gives no delay, the
    text of an integer gives that integer, and a text [int] does not accept
    makes the exception of [int] leave in place of [RateLimitError]. *)
Theorem handle_response_401_429 response :
  (Client.status_code response = 401 ->
   Client._handle_response response =
     Client.Failed (Client.Sdk (AuthenticationError authentication_required))) /\
  (Client.status_code response = 429 ->
   (truthy (Client.retry_after_header response) = None ->
    Client._handle_response response =
      Client.Failed (Client.Sdk (RateLimitError rate_limit_exceeded None))) /\
   (forall text n,
       truthy (Client.retry_after_header response) = Some text ->
       builtin_int text = Returned n ->
       Client._handle_response response =
         Client.Failed (Client.Sdk (RateLimitError rate_limit_exceeded (Some n)))) /\
   (forall text e,
       truthy (Client.retry_after_header response) = Some text ->
       builtin_int text = Raised e ->
       Client._handle_response response = Client.Failed (Client.Builtin e))).
Proof.
  split.
  - intros Hcode. by_status response; try lia. reflexivity.
  - intros Hcode. split; [| split].
    + intros Hnone. by_status response; try lia. rewrite Hnone. reflexivity.
    + intros text n Htext Hint. by_status response; try lia.
      rewrite Htext, Hint. reflexivity.
    + intros text e Htext Hint. by_status response; try lia.
      rewrite Htext, Hint. reflexivity.
Qed.

(** The default message for a status code. *)
Lemma raise_with_message_run response default make :
  Client.raise_with_message response default make =
    match (if String.eqb (Client.content response) "" then Returned (PyDict [])
           else Client.json response) with
    | Returned (PyDict items) =>
        Client.Failed (Client.Sdk (make (match dict_lookup "error" items with
                                         | Some v => v
                                         | None => default
                                         end)))
    | Returned other =>
        Client.Failed (Client.Builtin
          (AttributeError ("'" +:+ type_name other +:+ "' object has no attribute 'get'")))
    | Raised e => Client.Failed (Client.Builtin e)
    end.
Proof.
  unfold Client.raise_with_message, Client.error_message.
  destruct (if String.eqb (Client.content response) "" then _ else _) as [[] | e];
    reflexivity.
Qed.

(** X15. For 403, 404, 400 and the other codes from 400 on, the message of
    the exception is the value of the body under [error] when the body is a
    JSON object with that key, and the default of the class when the body is
    empty or an object without the key; the default for the other codes
    names the status code. *)
Theorem handle_response_message response :
  let code := Client.status_code response in
  400 <= code -> code <> 401 -> code <> 429 ->
  let default :=
    if code =? 403 then access_denied
    else if code =? 404 then resource_not_found
    else if code =? 400 then invalid_request
    else PyStr ("Request failed with status " +:+ PyStr.of_int code) in
  (Client.content response = ""%string ->
   exists e, Client._handle_response response = Client.Failed (Client.Sdk e) /\
             message e = default) /\
  (forall items,
      Client.content response <> ""%string ->
      Client.json response = Returned (PyDict items) ->
      exists e, Client._handle_response response = Client.Failed (Client.Sdk e) /\
                message e = match dict_lookup "error" items with
                            | Some v => v
                            | None => default
                            end).
Proof.
  intros code Hcode H401 H429 default. subst code default. split.
  - intros Hempty. by_status response; try lia;
      rewrite raise_with_message_run, Hempty; cbn [String.eqb dict_lookup];
      eexists; (split; [reflexivity |]); cbn [message];
      repeat match goal with
             | |- context [Z.eqb ?a ?b] => destruct (Z.eqb_spec a b); try lia
             end; reflexivity.
  - intros items Hcontent Hjson.
    apply String.eqb_neq in Hcontent.
    by_status response; try lia;
      rewrite raise_with_message_run, Hcontent, Hjson;
      eexists; (split; [reflexivity |]); cbn [message];
      repeat match goal with
             | |- context [Z.eqb ?a ?b] => destruct (Z.eqb_spec a b); try lia
             end; reflexivity.
Qed.

(** X16. An error response whose body is there but is not a JSON object
    does not raise the exception of its status code: when [response.json()]
    raises, that exception leaves, and when it returns an array, a string or
    a scalar, the [AttributeError] of [data.get] leaves. *)
Theorem handle_response_error_body_not_object response :
  let code := Client.status_code response in
  400 <= code -> code <> 401 -> code <> 429 ->
  Client.content response <> ""%string ->
  (forall e,
      Client.json response = Raised e ->
      Client._handle_response response = Client.Failed (Client.Builtin e)) /\
  (forall data,
      Client.json response = Returned data -> (forall items, data <> PyDict items) ->
      exists msg,
        Client._handle_response response = Client.Failed (Client.Builtin (AttributeError msg))).
Proof.
  intros code Hcode H401 H429 Hcontent. subst code.
  apply String.eqb_neq in Hcontent. split.
  - intros e Hjson.
    by_status response; try lia; rewrite raise_with_message_run, Hcontent, Hjson; reflexivity.
  - intros data Hjson Hnot.
    by_status response; try lia; rewrite raise_with_message_run, Hcontent, Hjson;
      (destruct data as [| | | | | | items];
       [eexists; reflexivity .. | contradiction (Hnot items); reflexivity]).
Qed.

(** X17. Below 400: a 204 and an empty content both give the empty dict
    without [response.json()] being looked at, and every other response
    gives what [response.json()] returns or raises. *)
Theorem handle_response_success response :
  let code := Client.status_code response in
  code < 400 ->
  (code = 204 \/ Client.content response = ""%string ->
   Client._handle_response response = Client.Done (PyDict [])) /\
  (code <> 204 -> Client.content response <> ""%string ->
   Client._handle_response response =
     match Client.json response with
     | Returned v => Client.Done v
     | Raised e => Client.Failed (Client.Builtin e)
     end).
Proof.
  intros code Hcode. subst code. split.
  - intros Hempty. by_status response; try lia.
    destruct Hempty as [-> | ->]; [reflexivity |].
    rewrite orb_true_r. reflexivity.
  - intros H204 Hcontent. apply String.eqb_neq in Hcontent. apply Z.eqb_neq in H204.
    by_status response; try lia. rewrite H204, Hcontent. reflexivity.
Qed.

(** ** [_request] *)

Lemma raise_with_message_not_done response default make v :
  Client.raise_with_message response default make <> Client.Done v.
Proof.
  unfold Client.raise_with_message.
  destruct (Client.error_message response default); discriminate.
Qed.

Lemma raise_with_message_no_transport response default make name :
  Client.raise_with_message response default make <> Client.Failed (Client.Transport name).
Proof.
  unfold Client.raise_with_message.
  destruct (Client.error_message response default); discriminate.
Qed.

(** What [_handle_response] returns comes from a response below 400, and is
    the empty dict or what [response.json()] returned. *)
Lemma handle_response_done_inversion response v :
  Client._handle_response response = Client.Done v ->
  Client.status_code response < 400 /\
  (v = PyDict [] \/ Client.json response = Returned v).
Proof.
  by_status response; try discriminate;
    try (intros Heq; contradiction (raise_with_message_not_done _ _ _ _ Heq)).
  - destruct (truthy (Client.retry_after_header response)) as [text |];
      [destruct (builtin_int text) |]; discriminate.
  - destruct (_ || _).
    + intros Heq. injection Heq as <-. split; [lia | left; reflexivity].
    + destruct (Client.json response) as [w | e]; [| discriminate].
      intros Heq. injection Heq as <-. split; [lia | right; reflexivity].
Qed.

(** [_handle_response] raises no exception of the transport. *)
Lemma handle_response_no_transport response name :
  Client._handle_response response <> Client.Failed (Client.Transport name).
Proof.
  by_status response; try discriminate;
    try apply raise_with_message_no_transport.
  - destruct (truthy (Client.retry_after_header response)) as [text |];
      [destruct (builtin_int text) |]; discriminate.
  - destruct (_ || _); [discriminate |].
    destruct (Client.json response); discriminate.
Qed.

(** X21. [_request] hands the answer of the transport to
    [_handle_response] and catches nothing: an exception of the transport
    leaves unchanged and is the only source of one; a returned value comes
    from a response below 400 and is the empty dict or the decoded body; an
    exception of the SDK comes from a response with a code of 400 or more
    and carries that code. *)
Theorem request_passes_transport_outcome
    (send : Client.Request -> string + Client.Response) request :
  (forall name,
      Client._request send request = Client.Failed (Client.Transport name) <->
      send request = inl name) /\
  (forall v,
      Client._request send request = Client.Done v ->
      exists response,
        send request = inr response /\ Client.status_code response < 400 /\
        (v = PyDict [] \/ Client.json response = Returned v)) /\
  (forall e,
      Client._request send request = Client.Failed (Client.Sdk e) ->
      exists response,
        send request = inr response /\ 400 <= Client.status_code response /\
        status_code e = Some (Client.status_code response)).
Proof.
  unfold Client._request.
  destruct (send request) as [failure | response].
  - split; [| split].
    + intros name. split; intros Heq; injection Heq as ->; reflexivity.
    + intros v Heq. discriminate Heq.
    + intros e Heq. discriminate Heq.
  - split; [| split].
    + intros name. split; intros Heq; [| discriminate Heq].
      contradiction (handle_response_no_transport response name Heq).
    + intros v Heq. exists response.
      split; [reflexivity | exact (handle_response_done_inversion response v Heq)].
    + intros e Heq. exists response.
      destruct (handle_response_sdk_inversion response e Heq) as (Hcode & Hfrom & _).
      split; [reflexivity | split; [exact Hfrom | exact Hcode]].
Qed.

End HandleResponse.

Lemma handle_response_raises_from_400_witness :
  (exists r, @Client._handle_response cpython_ascii (response_of 500 "" None) = Client.Failed r) /\
  @Client._handle_response cpython_ascii (response_of 302 "" None) = Client.Done (PyDict []).
Proof.
  destruct (@handle_response_raises_from_400 cpython_ascii (response_of 500 "" None))
    as [Herror _].
  split; [apply Herror; vm_compute; discriminate | vm_compute; reflexivity].
Defined.

Lemma handle_response_status_code_witness :
  @Client._handle_response cpython_ascii (response_of 404 error_body None) =
    Client.Failed (Client.Sdk (Exceptions.NotFoundError (PyStr "No such contact"))) /\
  Exceptions.status_code (Exceptions.NotFoundError (PyStr "No such contact")) = Some 404.
Proof.
  assert (Hrun : @Client._handle_response cpython_ascii (response_of 404 error_body None) =
                 Client.Failed (Client.Sdk (Exceptions.NotFoundError (PyStr "No such contact"))))
    by (vm_compute; reflexivity).
  split; [exact Hrun |].
  destruct (@handle_response_status_code cpython_ascii _ _ Hrun) as [Hcode _].
  exact Hcode.
Defined.

Lemma handle_response_401_429_witness :
  @Client._handle_response cpython_ascii (response_of 401 error_body None) =
    Client.Failed (Client.Sdk (Exceptions.AuthenticationError Exceptions.authentication_required)) /\
  @Client._handle_response cpython_ascii (response_of 429 error_body (Some "30"%string)) =
    Client.Failed (Client.Sdk (Exceptions.RateLimitError Exceptions.rate_limit_exceeded
                                 (Some 30))) /\
  @Client._handle_response cpython_ascii (response_of 429 "" (Some ""%string)) =
    Client.Failed (Client.Sdk (Exceptions.RateLimitError Exceptions.rate_limit_exceeded None)) /\
  @Client._handle_response cpython_ascii
     (response_of 429 "" (Some "Wed, 21 Oct 2015 07:28:00 GMT"%string)) =
    Client.Failed (Client.Builtin
      (ValueError "invalid literal for int() with base 10: 'Wed, 21 Oct 2015 07:28:00 GMT'")).
Proof.
  split; [| split; [| split]].
  - destruct (@handle_response_401_429 cpython_ascii (response_of 401 error_body None))
      as [H401 _].
    apply H401. reflexivity.
  - destruct (@handle_response_401_429 cpython_ascii
                (response_of 429 error_body (Some "30"%string))) as [_ H429].
    destruct (H429 eq_refl) as (_ & Hint & _).
    apply (Hint "30"%string 30); vm_compute; reflexivity.
  - destruct (@handle_response_401_429 cpython_ascii (response_of 429 "" (Some ""%string)))
      as [_ H429].
    destruct (H429 eq_refl) as (Hnone & _).
    apply Hnone. reflexivity.
  - destruct (@handle_response_401_429 cpython_ascii
                (response_of 429 "" (Some "Wed, 21 Oct 2015 07:28:00 GMT"%string)))
      as [_ H429].
    destruct (H429 eq_refl) as (_ & _ & Hbad).
    apply (Hbad "Wed, 21 Oct 2015 07:28:00 GMT"%string); vm_compute; reflexivity.
Defined.

Lemma handle_response_message_witness :
  (exists e, @Client._handle_response cpython_ascii (response_of 503 "" None) =
               Client.Failed (Client.Sdk e) /\
             Exceptions.message e = PyStr "Request failed with status 503") /\
  (exists e, @Client._handle_response cpython_ascii (response_of 403 error_body None) =
               Client.Failed (Client.Sdk e) /\
             Exceptions.message e = PyStr "No such contact").
Proof.
  split.
  - destruct (@handle_response_message cpython_ascii (response_of 503 "" None))
      as [Hempty _]; [vm_compute; discriminate | discriminate | discriminate |].
    apply Hempty. reflexivity.
  - destruct (@handle_response_message cpython_ascii (response_of 403 error_body None))
      as [_ Hobject]; [vm_compute; discriminate | discriminate | discriminate |].
    apply (Hobject [("error", PyStr "No such contact")]%string);
      [discriminate | vm_compute; reflexivity].
Defined.

Lemma handle_response_error_body_not_object_witness :
  @Client._handle_response cpython_ascii (response_of 502 "<html>Bad Gateway</html>" None) =
    Client.Failed (Client.Builtin
      (JSONDecodeError "Expecting value: line 1 column 1 (char 0)")) /\
  (exists msg, @Client._handle_response cpython_ascii (response_of 400 "[]" None) =
                 Client.Failed (Client.Builtin (AttributeError msg))).
Proof.
  split.
  - destruct (@handle_response_error_body_not_object cpython_ascii
                (response_of 502 "<html>Bad Gateway</html>" None))
      as [Hraised _];
      [vm_compute; discriminate | discriminate | discriminate | discriminate |].
    apply Hraised. vm_compute. reflexivity.
  - destruct (@handle_response_error_body_not_object cpython_ascii (response_of 400 "[]" None))
      as [_ Hother];
      [vm_compute; discriminate | discriminate | discriminate | discriminate |].
    apply (Hother (PyList [])); [vm_compute; reflexivity | discriminate].
Defined.

Lemma handle_response_success_witness :
  @Client._handle_response cpython_ascii (response_of 204 "not json" None) =
    Client.Done (PyDict []) /\
  @Client._handle_response cpython_ascii (response_of 200 "[1, 2]" None) =
    Client.Done (PyList [PyInt 1; PyInt 2]).
Proof.
  split.
  - destruct (@handle_response_success cpython_ascii (response_of 204 "not json" None))
      as [Hempty _]; [reflexivity |].
    apply Hempty. left. reflexivity.
  - destruct (@handle_response_success cpython_ascii (response_of 200 "[1, 2]" None))
      as [_ Hjson]; [reflexivity |].
    rewrite Hjson; [vm_compute; reflexivity | discriminate | discriminate].
Defined.

Lemma request_passes_transport_outcome_witness :
  @Client._request cpython_ascii test_transport (Client.links_create "o1" None) =
    Client.Failed (Client.Transport "ConnectError") /\
  exists response,
    test_transport (Client.contacts_get "c1") = inr response /\
    400 <= Client.status_code response /\
    Exceptions.status_code (Exceptions.NotFoundError (PyStr "No such contact")) =
      Some (Client.status_code response).
Proof.
  split.
  - destruct (@request_passes_transport_outcome cpython_ascii test_transport
                (Client.links_create "o1" None)) as [Htransport _].
    apply Htransport. reflexivity.
  - destruct (@request_passes_transport_outcome cpython_ascii test_transport
                (Client.contacts_get "c1")) as (_ & _ & Hsdk).
    apply Hsdk. vm_compute. reflexivity.
Defined.

(** ** The requests the resources send *)

Lemma lookup_dict_set_eq key value items :
  dict_lookup key (Json.dict_set key value items) = Some value.
Proof.
  induction items as [| [k v] items IH]; cbn [Json.dict_set dict_lookup].
  - rewrite String.eqb_refl. reflexivity.
  - destruct (String.eqb_spec k key) as [-> | Hne]; cbn [dict_lookup].
    + rewrite String.eqb_refl. reflexivity.
    + apply String.eqb_neq in Hne. rewrite Hne. exact IH.
Qed.

Lemma lookup_dict_set_ne key key' value items :
  key <> key' ->
  dict_lookup key' (Json.dict_set key value items) = dict_lookup key' items.
Proof.
  intros Hne. induction items as [| [k v] items IH]; cbn [Json.dict_set dict_lookup].
  - apply String.eqb_neq in Hne. rewrite Hne. reflexivity.
  - destruct (String.eqb_spec k key) as [-> | Hk]; cbn [dict_lookup].
    + apply String.eqb_neq in Hne. rewrite Hne. reflexivity.
    + rewrite IH. reflexivity.
Qed.

Lemma dict_set_keys key value items :
  List.map fst (Json.dict_set key value items) =
    if bool_decide (is_Some (dict_lookup key items)) then List.map fst items
    else List.map fst items ++ [key].
Proof.
  induction items as [| [k v] items IH]; cbn [Json.dict_set dict_lookup List.map fst].
  - reflexivity.
  - destruct (String.eqb_spec k key) as [-> | Hk]; cbn [List.map fst].
    + reflexivity.
    + rewrite IH. destruct (bool_decide _); reflexivity.
Qed.

Lemma lookup_none_not_in key items :
  dict_lookup key items = None -> ~ In key (List.map fst items).
Proof.
  induction items as [| [k v] items IH]; cbn [dict_lookup List.map fst In]; [tauto |].
  destruct (String.eqb_spec k key) as [-> | Hk]; [discriminate |].
  intros Hnone [Heq | Hin]; [contradiction | exact (IH Hnone Hin)].
Qed.

Lemma dict_set_nodup key value items :
  NoDup (List.map fst items) -> NoDup (List.map fst (Json.dict_set key value items)).
Proof.
  intros Hnodup. rewrite dict_set_keys.
  destruct (dict_lookup key items) as [v |] eqn:Hk; cbn [bool_decide]; [exact Hnodup |].
  replace (bool_decide (is_Some (@None pyval))) with false
    by (symmetry; apply bool_decide_eq_false; intros [x Hx]; discriminate Hx).
  apply NoDup_app. split; [exact Hnodup |]. split.
  - intros x Hx Hin. apply list_elem_of_In in Hx. apply list_elem_of_In in Hin.
    destruct Hin as [<- | []]. exact (lookup_none_not_in _ _ Hk Hx).
  - repeat constructor. intros Hin. apply list_elem_of_In in Hin. exact Hin.
Qed.

Lemma lookup_set_if_given_eq {A} key (to_json : A -> pyval) value items :
  dict_lookup key items = None ->
  dict_lookup key (Client.set_if_given key to_json value items) = to_json <$> value.
Proof.
  intros Hnone. destruct value as [v |]; cbn [Client.set_if_given];
    [apply lookup_dict_set_eq | exact Hnone].
Qed.

Lemma lookup_set_if_given_ne {A} key key' (to_json : A -> pyval) value items :
  key <> key' ->
  dict_lookup key' (Client.set_if_given key to_json value items) = dict_lookup key' items.
Proof.
  intros Hne. destruct value as [v |]; cbn [Client.set_if_given];
    [apply lookup_dict_set_ne; exact Hne | reflexivity].
Qed.

Lemma set_if_given_nodup {A} key (to_json : A -> pyval) value items :
  NoDup (List.map fst items) ->
  NoDup (List.map fst (Client.set_if_given key to_json value items)).
Proof.
  intros Hnodup. destruct value; cbn [Client.set_if_given];
    [apply dict_set_nodup |]; exact Hnodup.
Qed.

(** X18. [WebhooksResource.update] sends a PATCH whose JSON body holds
    exactly the fields that were given: each of the five keys is there with
    its value when the argument is not [None] (an empty string counts as
    given) and absent otherwise, no other key is there and no key twice;
    with no argument at all the body is the empty object. *)
Theorem webhooks_update_sends_given_fields webhook_id name target events pii_mode is_active :
  let request := Client.webhooks_update webhook_id name target events pii_mode is_active in
  Client.method request = "PATCH"%string /\
  Client.url request = ("/api/webhooks/" +:+ webhook_id)%string /\
  Client.params request = None /\
  exists data,
    Client.json_body request = Some data /\
    dict_lookup "name" data = PyStr <$> name /\
    dict_lookup "url" data = PyStr <$> target /\
    dict_lookup "events" data = (fun l => PyList (List.map PyStr l)) <$> events /\
    dict_lookup "piiMode" data = PyStr <$> pii_mode /\
    dict_lookup "isActive" data = PyBool <$> is_active /\
    (forall key,
        key <> "name"%string -> key <> "url"%string -> key <> "events"%string ->
        key <> "piiMode"%string -> key <> "isActive"%string ->
        dict_lookup key data = None) /\
    NoDup (List.map fst data) /\
    (name = None -> target = None -> events = None -> pii_mode = None ->
     is_active = None -> data = []).
Proof.
  cbv zeta. unfold Client.webhooks_update.
  split; [reflexivity |]. split; [reflexivity |]. split; [reflexivity |].
  eexists. split; [reflexivity |].
  split; [| split; [| split; [| split; [| split; [| split; [| split]]]]]].
  - rewrite !(lookup_set_if_given_ne _ "name") by discriminate.
    apply lookup_set_if_given_eq. reflexivity.
  - rewrite !(lookup_set_if_given_ne _ "url") by discriminate.
    rewrite lookup_set_if_given_eq; [reflexivity |].
    rewrite lookup_set_if_given_ne by discriminate. reflexivity.
  - rewrite !(lookup_set_if_given_ne _ "events") by discriminate.
    rewrite lookup_set_if_given_eq; [reflexivity |].
    rewrite !lookup_set_if_given_ne by discriminate. reflexivity.
  - rewrite !(lookup_set_if_given_ne _ "piiMode") by discriminate.
    rewrite lookup_set_if_given_eq; [reflexivity |].
    rewrite !lookup_set_if_given_ne by discriminate. reflexivity.
  - rewrite lookup_set_if_given_eq; [reflexivity |].
    rewrite !lookup_set_if_given_ne by discriminate. reflexivity.
  - intros key Hname Hurl Hevents Hpii Hactive.
    rewrite !lookup_set_if_given_ne by congruence. reflexivity.
  - repeat apply set_if_given_nodup. constructor.
  - intros -> -> -> -> ->. reflexivity.
Qed.

Lemma webhooks_update_sends_given_fields_witness :
  Client.json_body (Client.webhooks_update "wh_1" (Some ""%string) None None None (Some false)) =
    Some [("name", PyStr ""); ("isActive", PyBool false)]%string /\
  Client.json_body (Client.webhooks_update "wh_1" None None None None None) = Some [].
Proof.
  destruct (webhooks_update_sends_given_fields "wh_1" None None None None None)
    as (_ & _ & _ & data & Hbody & _ & _ & _ & _ & _ & _ & _ & Hempty).
  split; [reflexivity |].
  rewrite Hbody. rewrite Hempty; reflexivity.
Defined.

(** X19. The list and create methods take their optional filter by
    truthiness: an empty string is the same request as no argument, and the
    filter key is in the query or body exactly when the argument is a
    non-empty string.  [page] and [limit] are sent as given. *)
Theorem optional_arguments_by_truthiness page limit filter :
  (exists params,
      Client.params (Client.contacts_list page limit filter) = Some params /\
      dict_lookup "page" params = Some (PyInt page) /\
      dict_lookup "limit" params = Some (PyInt limit) /\
      dict_lookup "linkCode" params = PyStr <$> truthy filter) /\
  (exists params,
      Client.params (Client.links_list page limit filter) = Some params /\
      dict_lookup "page" params = Some (PyInt page) /\
      dict_lookup "limit" params = Some (PyInt limit) /\
      dict_lookup "offerId" params = PyStr <$> truthy filter) /\
  Client.contacts_list page limit (Some ""%string) = Client.contacts_list page limit None /\
  Client.links_list page limit (Some ""%string) = Client.links_list page limit None /\
  Client.webhooks_list (Some ""%string) = Client.webhooks_list None /\
  (forall name target events pii_mode,
      Client.webhooks_create name target events pii_mode (Some ""%string) =
      Client.webhooks_create name target events pii_mode None) /\
  (forall offer_id,
      Client.links_create offer_id (Some ""%string) = Client.links_create offer_id None).
Proof.
  split; [| split].
  - unfold Client.contacts_list. cbn [Client.params].
    destruct (truthy filter); eexists; repeat split.
  - unfold Client.links_list. cbn [Client.params].
    destruct (truthy filter); eexists; repeat split.
  - repeat split.
Qed.

(** ** The base URL *)

Lemma rstrip_slash_decompose s :
  exists tail, s = Client.rstrip_slash s +:+ tail /\ Client.only_slashes tail = true.
Proof.
  induction s as [| c rest (tail & Hrest & Htail)].
  - exists EmptyString. split; reflexivity.
  - cbn [Client.rstrip_slash].
    destruct (Client.rstrip_slash rest) as [| k kept].
    + rewrite append_empty in Hrest. subst tail.
      destruct (Ascii.eqb_spec c "/") as [-> | Hc].
      * exists (String "/" rest). split; [reflexivity |].
        cbn [Client.only_slashes]. rewrite Htail. reflexivity.
      * exists rest. split; [reflexivity | exact Htail].
    + exists tail. split; [| exact Htail].
      rewrite append_String, <- Hrest. reflexivity.
Qed.

Lemma rstrip_slash_no_trailing s : Client.ends_with_slash (Client.rstrip_slash s) = false.
Proof.
  induction s as [| c rest IH]; [reflexivity |].
  cbn [Client.rstrip_slash].
  destruct (Client.rstrip_slash rest) as [| k kept].
  - destruct (Ascii.eqb_spec c "/") as [-> | Hc]; [reflexivity |].
    cbn [Client.ends_with_slash]. apply Ascii.eqb_neq. exact Hc.
  - exact IH.
Qed.

Lemma rstrip_slash_kept s : Client.ends_with_slash s = false -> Client.rstrip_slash s = s.
Proof.
  induction s as [| c rest IH]; [reflexivity |].
  destruct rest as [| k rest'].
  - cbn [Client.ends_with_slash Client.rstrip_slash]. intros ->. reflexivity.
  - intros Hend. change (Client.ends_with_slash (String k rest') = false) in Hend.
    cbn [Client.rstrip_slash] in *. rewrite (IH Hend). reflexivity.
Qed.

(** X20. The client stores its base URL without any trailing slash: what
    was given is the stored URL followed by slashes only, a URL that does not
    end with a slash is stored as it is, and stripping again changes
    nothing. *)
Theorem new_client_base_url api_key given :
  let stored := Client.base_url (Client.new_client api_key given) in
  Client.ends_with_slash stored = false /\
  (exists tail, given = stored +:+ tail /\ Client.only_slashes tail = true) /\
  (Client.ends_with_slash given = false -> stored = given) /\
  Client.base_url (Client.new_client api_key stored) = stored.
Proof.
  cbv zeta. cbn [Client.new_client Client.base_url].
  split; [apply rstrip_slash_no_trailing |].
  split; [apply rstrip_slash_decompose |].
  split; [apply rstrip_slash_kept |].
  apply rstrip_slash_kept, rstrip_slash_no_trailing.
Qed.

Lemma new_client_base_url_witness :
  Client.base_url (Client.new_client "key" "https://api.ezunsub.com") =
    "https://api.ezunsub.com"%string /\
  Client.base_url (Client.new_client "key" "https://api.ezunsub.com//") =
    "https://api.ezunsub.com"%string.
Proof.
  destruct (new_client_base_url "key" "https://api.ezunsub.com") as (_ & _ & Hkept & _).
  split; [apply Hkept; reflexivity | reflexivity].
Defined.
